(** * TJC sales and inventory system: the PDF layout engine

    A shallow embedding of [tjsims/src/utils/pdfGenerator.js] (the sales,
    inventory and returns report generators and the sale receipt), of the
    sales report of the second copy of that utility, and of the
    data-preparation step of [ReportsController.getSalesReport].

    Conventions of the embedding.
    - A JavaScript number is an exact rational ([Q]); [NaN] is kept apart
      ([None] of [option Q]).  Binary rounding of IEEE doubles and the two
      infinities are outside the model.  Where a statement gives the text
      of a sum, of a product or of a quotient, it names the inputs for
      which the exact result is printed with the digits of the
      floating-point one; the infinities and the booleans are added to
      the values of the formatters in the last part.
    - A JavaScript string is a [string]; one character stands for one
      UTF-16 code unit, which is what [length] and [substring] count.
    - The jsPDF document is a list of pages, each the list of the drawing
      calls made while that page was selected, in call order.
    - Services of the browser and of jsPDF that the generators call but do
      not define (string-to-number conversion, date rendering, text
      wrapping, page width, the default locale) are fields of a [runtime]
      record that every generator takes as its first argument. *)

From Stdlib Require Import List String Ascii Bool Arith ZArith QArith Qabs Qround.
From Stdlib Require Import DecimalString Lia Lqa.
From Stdlib Require DecimalPos.
Import ListNotations.

Set Implicit Arguments.
Open Scope string_scope.

(* ================================================================= *)
(** ** JavaScript values *)

Module JS.

(** The values held by a field of a row record that carries an amount
    or a quantity: absent, [null], a number ([NaN] apart) or a string.
    Booleans and objects do not occur in these fields. *)
Inductive jsval : Type :=
| JUndefined
| JNull
| JNum (q : Q)
| JNaN
| JStr (s : string).

(** An optional text field: absent, [null], or a string. *)
Inductive jstext : Type :=
| TUndefined
| TNull
| TStr (s : string).

(** A finite number, or [NaN] ([None]).  The infinities are added in
    [Wide.number]. *)
Definition num := option Q.

Definition Qzerob (q : Q) : bool := (Qnum q =? 0)%Z.

(** [Boolean(v)]: the falsy values are [undefined], [null], [0], [NaN]
    and the empty string. *)
Definition truthy (v : jsval) : bool :=
  match v with
  | JUndefined | JNull | JNaN => false
  | JNum q => negb (Qzerob q)
  | JStr s => negb (s =? "")
  end.

Definition truthy_text (t : jstext) : bool :=
  match t with
  | TUndefined | TNull => false
  | TStr s => negb (s =? "")
  end.

(** [a || b] on values. *)
Definition or_else (a b : jsval) : jsval := if truthy a then a else b.

(** [t || d] where [d] is a string literal. *)
Definition text_or (t : jstext) (d : string) : string :=
  match t with
  | TStr s => if s =? "" then d else s
  | _ => d
  end.

(** [n || 0] on a number: [NaN] and [0] both give [0]. *)
Definition num_or_zero (n : num) : Q :=
  match n with
  | Some q => q
  | None => 0
  end.

Definition mul (a b : num) : num :=
  match a, b with
  | Some x, Some y => Some (x * y)
  | _, _ => None
  end.

Definition sub (a b : num) : num :=
  match a, b with
  | Some x, Some y => Some (x - y)
  | _, _ => None
  end.

(** [a <= 0]; every comparison with [NaN] is false. *)
Definition le_zero (a : num) : bool :=
  match a with
  | Some x => Qle_bool x 0
  | None => false
  end.

(** [t?.length]: [undefined] when the receiver is nullish. *)
Definition opt_length (t : jstext) : option nat :=
  match t with
  | TStr s => Some (String.length s)
  | _ => None
  end.

(** [t?.length > n]; [undefined > n] is false. *)
Definition opt_length_gt (t : jstext) (n : nat) : bool :=
  match opt_length t with
  | Some l => (n <? l)%nat
  | None => false
  end.

(** ASCII [toLowerCase]. *)
Definition lower_ascii (c : ascii) : ascii :=
  let n := nat_of_ascii c in
  if ((65 <=? n) && (n <=? 90))%nat then ascii_of_nat (n + 32) else c.

Fixpoint toLowerCase (s : string) : string :=
  match s with
  | EmptyString => EmptyString
  | String c r => String (lower_ascii c) (toLowerCase r)
  end.

(** [Array.prototype.join]. *)
Fixpoint join (sep : string) (l : list string) : string :=
  match l with
  | [] => ""
  | [x] => x
  | x :: r => x ++ sep ++ join sep r
  end.

(** Decimal rendering of a natural number and of an integer. *)
Definition nat_to_string (n : nat) : string :=
  NilZero.string_of_uint (Nat.to_uint n).

Definition Z_to_string (z : Z) : string :=
  NilZero.string_of_int (Z.to_int z).

End JS.
Import JS.

(* ================================================================= *)
(** ** The runtime the generators run in *)

(** Locales of [Intl.NumberFormat], by their separators. *)
Inductive locale : Type := en_US | en_PH | de_DE | fr_FR.

Definition group_sep (l : locale) : string :=
  match l with
  | en_US | en_PH => ","
  | de_DE => "."
  | fr_FR => " "
  end.

Definition decimal_sep (l : locale) : string :=
  match l with
  | en_US | en_PH => "."
  | de_DE | fr_FR => ","
  end.

Record runtime : Type := {
  (** [StringToNumber] of the language: [None] is [NaN]. *)
  StringToNumber : string -> num;
  (** [Number.prototype.toString] on a number that is not an integer. *)
  fractionToString : Q -> string;
  (** The locale of the host, used when a call names none. *)
  defaultLocale : locale;
  (** [new Date(s).toLocaleDateString('en-US', {long form})]. *)
  toLongDate : string -> string;
  (** [new Date(d).toLocaleString('en-PH', {dateStyle, timeStyle})]. *)
  toDateTime : string -> string;
  (** The text of [formatPeriodText(startDate, endDate, rangeLabel)]. *)
  periodText : string -> string -> string -> string;
  (** [new Date().toISOString().split('T')[0]]. *)
  today : string;
  (** [doc.splitTextToSize(text, width)]. *)
  splitTextToSize : string -> Q -> list string;
  (** [doc.internal.pageSize.getWidth()] of [new jsPDF()] (millimetres). *)
  pageWidth_mm : Q;
  (** The same of [new jsPDF({unit:'pt', format:'a4'})] (points). *)
  pageWidth_pt : Q;
  (** [loadImageAsDataURL(logoUrl)]: whether the logo could be loaded. *)
  logoLoaded : bool;
  (** [localStorage.getItem('username')]. *)
  storedUsername : jstext
}.

Definition with_locale (l : locale) (rt : runtime) : runtime :=
  {| StringToNumber := StringToNumber rt;
     fractionToString := fractionToString rt;
     defaultLocale := l;
     toLongDate := toLongDate rt;
     toDateTime := toDateTime rt;
     periodText := periodText rt;
     today := today rt;
     splitTextToSize := splitTextToSize rt;
     pageWidth_mm := pageWidth_mm rt;
     pageWidth_pt := pageWidth_pt rt;
     logoLoaded := logoLoaded rt;
     storedUsername := storedUsername rt |}.

(** [Number(v)]. *)
Definition Number (rt : runtime) (v : jsval) : num :=
  match v with
  | JUndefined => None
  | JNull => Some 0
  | JNum q => Some q
  | JNaN => None
  | JStr s => StringToNumber rt s
  end.

(** [n.toString()] / [String(n)] / a number in a template literal. *)
Definition num_to_string (rt : runtime) (n : num) : string :=
  match n with
  | None => "NaN"
  | Some q =>
      let r := Qred q in
      if (Zpos (Qden r) =? 1)%Z then Z_to_string (Qnum r)
      else fractionToString rt q
  end.

(* ================================================================= *)
(** ** Number formatting *)

(** The digits of a non-negative integer, grouped in threes from the right. *)
Fixpoint group_thousands (sep : string) (digits : string) : string :=
  match digits with
  | EmptyString => ""
  | String c rest =>
      let n := String.length rest in
      String c (if ((0 <? n) && (n mod 3 =? 0))%nat
                then sep ++ group_thousands sep rest
                else group_thousands sep rest)
  end.

(** The number of hundredths nearest to [|q|], halves going up
    (rounding mode "half-expand" of [Intl.NumberFormat]). *)
Definition hundredths (q : Q) : Z := Qfloor (Qabs q * 100 + (1 # 2)).

Definition two_digits (z : Z) : string :=
  if (z <? 10)%Z then "0" ++ Z_to_string z else Z_to_string z.

(** [q.toLocaleString(loc, {minimumFractionDigits: 2, maximumFractionDigits: 2})]. *)
Definition toLocaleString2 (rt : runtime) (requested : option locale) (q : Q) : string :=
  let loc := match requested with Some l => l | None => defaultLocale rt end in
  let h := hundredths q in
  (if (Qnum q <? 0)%Z then "-" else "")
    ++ group_thousands (group_sep loc) (Z_to_string (h / 100))
    ++ decimal_sep loc
    ++ two_digits (h mod 100).

(** [formatCurrency] (pdfGenerator.js, line 21). *)
Definition formatCurrency (rt : runtime) (amount : jsval) : string :=
  let num := num_or_zero (Number rt amount) in
  "PHP " ++ toLocaleString2 rt (Some en_US) num.

(** [peso], local to [generateSaleReceipt] (pdfGenerator.js, line 546). *)
Definition peso (rt : runtime) (n : jsval) : string :=
  let v := num_or_zero (Number rt n) in
  let sym := "PHP " in
  sym ++ toLocaleString2 rt (Some en_PH) v.

(** [formatDate] (pdfGenerator.js, line 27). *)
Definition formatDate (rt : runtime) (dateString : jstext) : string :=
  match dateString with
  | TStr s => if s =? "" then "N/A" else toLongDate rt s
  | _ => "N/A"
  end.

(* ================================================================= *)
(** ** A concrete runtime, for evaluation *)

Module Sample.

Definition is_digit (c : ascii) : bool :=
  let n := nat_of_ascii c in ((48 <=? n) && (n <=? 57))%nat.

Fixpoint digits_value (acc : Z) (s : string) : option Z :=
  match s with
  | EmptyString => Some acc
  | String c r =>
      if is_digit c
      then digits_value (acc * 10 + Z.of_nat (nat_of_ascii c - 48)) r
      else None
  end.

Fixpoint split_dot (s : string) : string * option string :=
  match s with
  | EmptyString => (EmptyString, None)
  | String c r =>
      if (c =? ".")%char then (EmptyString, Some r)
      else let '(a, b) := split_dot r in (String c a, b)
  end.

(** A stand-in for [StringToNumber], enough for the examples below: it
    agrees with the language on unsigned decimal literals (digits,
    optionally a point and more digits), on the empty string, which is
    [0], and on strings without any digit, which are [NaN]. *)
Definition decimal_literal (s : string) : num :=
  match split_dot s with
  | (ip, None) =>
      match digits_value 0 ip with
      | Some z => Some (inject_Z z)
      | None => None
      end
  | (ip, Some fp) =>
      match digits_value 0 ip, digits_value 0 fp with
      | Some a, Some b =>
          if (String.length ip + String.length fp =? 0)%nat then None
          else Some (inject_Z a + inject_Z b / inject_Z (10 ^ Z.of_nat (String.length fp)))
      | _, _ => None
      end
  end.

(** Every text fits on one line. *)
Definition one_line (s : string) (w : Q) : list string := [s].

Definition rt : runtime :=
  {| StringToNumber := decimal_literal;
     fractionToString := fun _ => "?";
     defaultLocale := de_DE;
     toLongDate := fun s => s;
     toDateTime := fun s => s;
     periodText := fun a b l => a ++ " - " ++ b;
     today := "2025-11-03";
     splitTextToSize := one_line;
     pageWidth_mm := 210;
     pageWidth_pt := 59528 # 100;
     logoLoaded := false;
     storedUsername := TNull |}.

End Sample.

(* ================================================================= *)
(** ** The drawing surface *)

Inductive align : Type := ALeft | ACenter | ARight.
Inductive fontStyle : Type := Normal | Bold | Italic.

(** The jsPDF calls the generators make. *)
Inductive cmd : Type :=
| AddImage (x y w h : Q)
| SetFont (style : fontStyle)
| SetFontSize (size : Q)
| SetTextColor (r g b : Z)
| SetTextGray (g : Z)
| SetFillColor (r g b : Z)
| SetDrawColor (r g b : Z)
| SetLineWidth (w : Q)
| Text (s : string) (x y : Q) (a : align)
| TextLines (lines : list string) (x y : Q)
| Line (x1 y1 x2 y2 : Q)
| Rect (x y w h : Q).

(** A document: every drawing call so far, in call order, each with the
    number of the page that was selected when it was made. *)
Record doc : Type := {
  log : list (nat * cmd);
  numPages : nat;
  currentPage : nat
}.

(** [new jsPDF()]: one empty page, selected. *)
Definition newDoc : doc := {| log := []; numPages := 1; currentPage := 1 |}.

Definition emits (cs : list cmd) (d : doc) : doc :=
  {| log := (log d ++ map (pair (currentPage d)) cs)%list;
     numPages := numPages d;
     currentPage := currentPage d |}.

(** [doc.addPage()]: a new last page, which becomes the selected one. *)
Definition addPage (d : doc) : doc :=
  {| log := log d; numPages := S (numPages d); currentPage := S (numPages d) |}.

(** [doc.setPage(i)]. *)
Definition setPage (i : nat) (d : doc) : doc :=
  {| log := log d; numPages := numPages d; currentPage := i |}.

(** The calls made on page [i], in call order. *)
Definition page_cmds (i : nat) (d : doc) : list cmd :=
  map snd (filter (fun e => (fst e =? i)%nat) (log d)).

(** [a > b] on numbers. *)
Definition Qgtb (a b : Q) : bool := negb (Qle_bool a b).

(** The cursor of a generator: the document and the vertical position. *)
Record layout : Type := { ldoc : doc; ypos : Q }.

Definition draw (cs : list cmd) (l : layout) : layout :=
  {| ldoc := emits cs (ldoc l); ypos := ypos l |}.

Definition advance (dy : Q) (l : layout) : layout :=
  {| ldoc := ldoc l; ypos := ypos l + dy |}.

(** [doc.addPage(); y = top]. *)
Definition newPage (top : Q) (l : layout) : layout :=
  {| ldoc := addPage (ldoc l); ypos := top |}.

(** [Array.prototype.forEach((item, index) => ...)] threading a state. *)
Fixpoint forEach_from {R S : Type} (f : nat -> R -> S -> S)
  (index : nat) (rows : list R) (st : S) : S :=
  match rows with
  | [] => st
  | r :: rest => forEach_from f (Datatypes.S index) rest (f index r st)
  end.

Definition forEach {R S : Type} (f : nat -> R -> S -> S) (rows : list R) (st : S) : S :=
  forEach_from f 0 rows st.

(** The footer pass shared by the three reports: every page is selected
    in turn and stamped. *)
Definition footer_cmds (rt : runtime) (adminName : string) (i pageCount : nat) : list cmd :=
  let footerY := 285 in
  [ SetFontSize 7; SetFont Normal; SetTextGray 100;
    Text ("Generated by: " ++ adminName) 15 footerY ALeft;
    Text ("Report Generated: " ++ formatDate rt (TStr (today rt))) 15 (footerY + 4) ALeft;
    Text ("Page " ++ nat_to_string i ++ " of " ++ nat_to_string pageCount)
         (pageWidth_mm rt - 15) footerY ARight ].

Definition stamp_footers (rt : runtime) (adminName : string) (d : doc) : doc :=
  let pageCount := numPages d in
  fold_left (fun d i => emits (footer_cmds rt adminName i pageCount) (setPage i d))
            (seq 1 pageCount) d.

(* ================================================================= *)
(** ** A JavaScript object used as a tally *)

Module Tally.

(** The own properties of the object in [Object.keys] order: array-index
    keys first, ascending, then the other keys in insertion order.  Keys
    that name a member of [Object.prototype] ([prototype_member] lists
    them) are outside the model. *)
Definition t := list (string * Q).

(** An array index: the canonical decimal string of an integer below
    [2^32 - 1]. *)
Definition array_index (k : string) : option N :=
  match NilZero.uint_of_string k with
  | Some u =>
      let n := N.of_uint u in
      if (NilZero.string_of_uint (N.to_uint n) =? k) && (n <? 4294967295)%N
      then Some n else None
  | None => None
  end.

Fixpoint get (o : t) (k : string) : option Q :=
  match o with
  | [] => None
  | (k', v) :: rest => if k' =? k then Some v else get rest k
  end.

(** Where a new key goes. *)
Fixpoint insert_new (o : t) (k : string) (v : Q) : t :=
  match o with
  | [] => [(k, v)]
  | (k', v') :: rest =>
      match array_index k, array_index k' with
      | Some n, Some n' =>
          if (n <? n')%N then (k, v) :: o else (k', v') :: insert_new rest k v
      | Some _, None => (k, v) :: o
      | None, _ => (k', v') :: insert_new rest k v
      end
  end.

Fixpoint replace (o : t) (k : string) (v : Q) : t :=
  match o with
  | [] => []
  | (k', v') :: rest =>
      if k' =? k then (k', v) :: rest else (k', v') :: replace rest k v
  end.

(** [o[k] = v]. *)
Definition set (o : t) (k : string) (v : Q) : t :=
  match get o k with
  | Some _ => replace o k v
  | None => insert_new o k v
  end.

(** [Object.keys(o)]. *)
Definition keys (o : t) : list string := map fst o.

(** [o[a] > o[b]]; a missing entry is [undefined], and every comparison
    with [undefined] is false. *)
Definition gt (o : t) (a b : string) : bool :=
  match get o a, get o b with
  | Some x, Some y => Qgtb x y
  | _, _ => false
  end.

End Tally.

(* ================================================================= *)
(** ** Sales report: [generateSalesReportPDF] *)

Module SalesReport.

(** An item of an order, as the report data provider returns it.
    [productName] is dereferenced ([.length]) without a guard, so it is a
    string. *)
Record item : Type := {
  productName : string;
  quantity : jsval;
  unitPrice : jsval;
  totalPrice : jsval
}.

Record order : Type := {
  orderId : jstext;
  customerName : jstext;
  orderDate : jstext;
  status : jstext;
  totalAmount : jsval;
  items : list item
}.

(** A row of [flattenedData]. *)
Record row : Type := {
  r_orderId : jstext;
  r_customerName : jstext;
  r_orderDate : string;
  r_productName : string;
  r_quantity : Q;
  r_unitPrice : Q;
  r_totalPrice : Q
}.

(** [allowedStatuses.includes(status)] for
    ['Completed', 'Partially Returned', 'Pending', null]. *)
Definition allowed (st : jstext) : bool :=
  match st with
  | TStr s => (s =? "Completed") || (s =? "Partially Returned") || (s =? "Pending")
  | TNull => true
  | TUndefined => false
  end.

Definition flatten_order (rt : runtime) (o : order) : list row :=
  map (fun it =>
         {| r_orderId := orderId o;
            r_customerName := customerName o;
            r_orderDate := formatDate rt (orderDate o);
            r_productName := productName it;
            r_quantity := num_or_zero (Number rt (quantity it));
            r_unitPrice := num_or_zero (Number rt (unitPrice it));
            r_totalPrice := num_or_zero (Number rt (totalPrice it)) |})
      (filter (fun _ => allowed (status o)) (items o)).

(** [salesData || []]. *)
Definition filteredOrders (salesData : option (list order)) : list order :=
  match salesData with
  | Some l => l
  | None => []
  end.

Definition flattenedData (rt : runtime) (salesData : option (list order)) : list row :=
  flat_map (flatten_order rt) (filteredOrders salesData).

(** Column positions. *)
Definition col_date : Q := 15.
Definition col_productName : Q := 50.
Definition col_quantity : Q := 110.
Definition col_unitPrice : Q := 130.
Definition col_totalSales : Q := 160.

Definition drawTableHeaders (rt : runtime) (y : Q) : list cmd :=
  [ SetFont Bold;
    Text "Date" col_date y ALeft;
    Text "Product Name" col_productName y ALeft;
    Text "Qty" col_quantity y ALeft;
    Text "Unit Price" col_unitPrice y ALeft;
    Text "Total" col_totalSales y ALeft;
    SetLineWidth (1 # 2);
    Line 15 (y + 3) (pageWidth_mm rt - 15) (y + 3) ].

(** The document header: logo when it loaded, title, period. *)
Definition header (rt : runtime) (startDate endDate rangeLabel : string) (l : layout) : layout :=
  let pageWidth := pageWidth_mm rt in
  let centerX := pageWidth / 2 in
  let l1 :=
    if logoLoaded rt then
      let imgWidth := 30 in
      let imgHeight := 22 in
      let x := (pageWidth - imgWidth) / 2 in
      advance (imgHeight + 5) (draw [AddImage x (ypos l) imgWidth imgHeight] l)
    else l in
  let l2 := advance 7 (draw [SetFontSize 18; SetFont Bold;
                              Text "Sales Report" centerX (ypos l1) ACenter] l1) in
  advance 10 (draw [SetFontSize 10; SetFont Normal;
                    Text ("Period: " ++ periodText rt startDate endDate rangeLabel)
                         centerX (ypos l2) ACenter] l2).

(** The column header on page 1. *)
Definition table_head (rt : runtime) (l : layout) : layout :=
  let l1 := draw [SetFontSize 9; SetFont Bold] l in
  let l2 := advance 8 (draw (drawTableHeaders rt (ypos l1)) l1) in
  draw [SetFont Normal; SetFontSize 8] l2.

(** The state of the row loop. *)
Record rows_state : Type := { lay : layout; grandTotal : Q }.

(** The page-break check that opens the loop body (line 137). *)
Definition page_break (rt : runtime) (l : layout) : layout :=
  if Qgtb (ypos l) 270 then
    let l1 := newPage 20 l in
    let l2 := advance 8 (draw (drawTableHeaders rt (ypos l1)) l1) in
    draw [SetFont Normal; SetFontSize 8] l2
  else l.

Definition truncated_productName (name : string) : string :=
  let maxProductNameLength := 30%nat in
  if (maxProductNameLength <? String.length name)%nat
  then substring 0 maxProductNameLength name ++ "..."
  else name.

(** The draw calls of one row at vertical position [y]. *)
Definition row_cmds (rt : runtime) (index : nat) (it : row) (y : Q) : list cmd :=
  ((if (index mod 2 =? 0)%nat
    then [SetFillColor 245 245 245; Rect 15 (y - 4) (pageWidth_mm rt - 30) 6]
    else []) ++
   [ SetTextColor 0 0 0;
     Text (r_orderDate it) col_date y ALeft;
     Text (truncated_productName (r_productName it)) col_productName y ALeft;
     Text (num_to_string rt (Some (num_or_zero (Number rt (JNum (r_quantity it))))))
          col_quantity y ALeft;
     Text (formatCurrency rt (JNum (num_or_zero (Number rt (JNum (r_unitPrice it))))))
          col_unitPrice y ALeft;
     Text (formatCurrency rt (JNum (num_or_zero (Number rt (JNum (r_totalPrice it))))))
          col_totalSales y ALeft ])%list.

(** The body of [flattenedData.forEach] (lines 134-166). *)
Definition row_step (rt : runtime) (index : nat) (it : row) (st : rows_state) : rows_state :=
  let l1 := page_break rt (lay st) in
  let l2 := draw (row_cmds rt index it (ypos l1)) l1 in
  {| lay := advance 6 l2;
     grandTotal := grandTotal st + num_or_zero (Number rt (JNum (r_totalPrice it))) |}.

Definition table_rows (rt : runtime) (rows : list row) (l : layout) : rows_state :=
  forEach (row_step rt) rows {| lay := l; grandTotal := 0 |}.

(** The Grand Total row (lines 168-184). *)
Definition grand_total_block (rt : runtime) (st : rows_state) : layout :=
  let l0 := if Qgtb (ypos (lay st)) 265 then newPage 20 (lay st) else lay st in
  let l1 := advance 2 l0 in
  let l2 := advance 6 (draw [SetLineWidth (1 # 2);
                              Line 15 (ypos l1) (pageWidth_mm rt - 15) (ypos l1)] l1) in
  advance 10 (draw [SetFont Bold; SetFontSize 9;
                    Text "Grand Total:" 130 (ypos l2) ALeft;
                    Text (formatCurrency rt (JNum (grandTotal st))) 160 (ypos l2) ALeft] l2).

(** The summary figures (lines 188-198). *)
Definition relevantOrders (salesData : option (list order)) : list order :=
  filter (fun o => allowed (status o)) (filteredOrders salesData).

Definition totalRevenue (rt : runtime) (salesData : option (list order)) : Q :=
  fold_left (fun sum o => sum + num_or_zero (Number rt (totalAmount o)))
            (relevantOrders salesData) 0.

Definition totalItems (rows : list row) : Q :=
  fold_left (fun sum it => sum + r_quantity it) rows 0.

Definition totalTransactions (salesData : option (list order)) : nat :=
  List.length (relevantOrders salesData).

Definition avgTransactionValue (rt : runtime) (salesData : option (list order)) : Q :=
  if (0 <? totalTransactions salesData)%nat
  then totalRevenue rt salesData / inject_Z (Z.of_nat (totalTransactions salesData))
  else 0.

Definition productCounts (rows : list row) : Tally.t :=
  fold_left (fun counts it =>
               Tally.set counts (r_productName it)
                 (num_or_zero (Tally.get counts (r_productName it)) + r_quantity it))
            rows [].

Definition bestSellingProduct (rows : list row) : string :=
  let counts := productCounts rows in
  fold_left (fun a b => if Tally.gt counts a b then a else b) (Tally.keys counts) "N/A".

(** The summary panel (lines 200-230). *)
Definition summary_block (rt : runtime) (salesData : option (list order))
  (rows : list row) (l : layout) : layout :=
  let pageWidth := pageWidth_mm rt in
  let centerX := pageWidth / 2 in
  let l0 := if Qgtb (ypos l + 35) 280 then newPage 30 l else l in
  let l1 := advance 8 (draw [SetFillColor 240 240 240;
                              Rect 15 (ypos l0 - 5) (pageWidth - 30) 8;
                              SetFontSize 10; SetFont Bold;
                              Text "Sales Summary" centerX (ypos l0) ACenter] l0) in
  let l2 := advance 6 (draw [SetFont Normal; SetFontSize 9;
                              Text ("Total Revenue: " ++ formatCurrency rt (JNum (totalRevenue rt salesData)))
                                   20 (ypos l1) ALeft;
                              Text ("Avg Transaction Value: "
                                      ++ formatCurrency rt (JNum (avgTransactionValue rt salesData)))
                                   (pageWidth / 2 + 10) (ypos l1) ALeft] l1) in
  let l3 := advance 6 (draw [Text ("Total Items Sold: " ++ num_to_string rt (Some (totalItems rows)))
                                   20 (ypos l2) ALeft;
                              Text ("Best Selling Product: " ++ bestSellingProduct rows)
                                   (pageWidth / 2 + 10) (ypos l2) ALeft] l2) in
  draw [Text ("Total Transactions: " ++ nat_to_string (totalTransactions salesData))
             20 (ypos l3) ALeft] l3.

(** The body of the document, before the footer pass. *)
Definition body (rt : runtime) (salesData : option (list order))
  (startDate endDate rangeLabel : string) : layout :=
  let rows := flattenedData rt salesData in
  let l0 := {| ldoc := newDoc; ypos := 20 |} in
  let l1 := table_head rt (header rt startDate endDate rangeLabel l0) in
  summary_block rt salesData rows (grand_total_block rt (table_rows rt rows l1)).

Definition generateSalesReportPDF (rt : runtime) (salesData : option (list order))
  (startDate endDate adminName rangeLabel : string) : doc :=
  stamp_footers rt adminName (ldoc (body rt salesData startDate endDate rangeLabel)).

End SalesReport.

(* ================================================================= *)
(** ** Sales report, second copy: [generateSalesReportPDF] of part_002 *)

(** The repository holds a second copy of the utility (source file
    part_002) whose sales report differs in layout only.  Its data
    preparation (lines 107-125), truncation (185-188) and summary figures
    (216-234) are, token for token, those of the first copy, and are
    shared here. *)
Module Part002.

Definition col_date : Q := 25.
Definition col_productName : Q := 50.
Definition col_quantity : Q := 110.
Definition col_unitPrice : Q := 125.
Definition col_totalSales : Q := 150.

Definition header_labels (y : Q) : list cmd :=
  [ Text "Date" col_date y ALeft;
    Text "Product Name" col_productName y ALeft;
    Text "Qty" col_quantity y ALeft;
    Text "Unit Price" col_unitPrice y ALeft;
    Text "Total" col_totalSales y ALeft ].

(** Lines 82-105: logo, title and period are all drawn only when the
    logo loaded. *)
Definition header (rt : runtime) (startDate endDate rangeLabel : string) (d : doc) : doc :=
  if logoLoaded rt then
    let pageWidth := pageWidth_mm rt in
    let imgWidth := 30 in
    let imgHeight := 22 in
    let x := (pageWidth - imgWidth) / 2 in
    let y := 12 in
    let centerX := pageWidth / 2 in
    let titleY := y + imgHeight + 5 in
    let dateY := titleY + 7 in
    emits [ AddImage x y imgWidth imgHeight;
            SetFontSize 14; SetFont Bold;
            Text "Sales Report" centerX titleY ACenter;
            SetFontSize 10; SetFont Normal;
            Text ("Period: " ++ periodText rt startDate endDate rangeLabel) centerX dateY ACenter ] d
  else d.

(** Lines 127-159. *)
Definition table_head (d : doc) : layout :=
  let l0 := {| ldoc := d; ypos := 50 |} in
  let l1 := advance 10 (draw [Line 20 (ypos l0) 190 (ypos l0)] l0) in
  let l2 := advance 8 (draw ([SetFontSize 8; SetFont Bold] ++ header_labels (ypos l1))%list l1) in
  let l3 := advance 5 (draw [Line 20 (ypos l2) 190 (ypos l2)] l2) in
  draw [SetFont Normal; SetFontSize 7] l3.

(** Lines 164-183. *)
Definition page_break (l : layout) : layout :=
  if Qgtb (ypos l) 250 then
    let l1 := newPage 30 l in
    let l2 := advance 8 (draw ([SetFontSize 8; SetFont Bold] ++ header_labels (ypos l1))%list l1) in
    let l3 := advance 5 (draw [Line 20 (ypos l2) 190 (ypos l2)] l2) in
    draw [SetFont Normal; SetFontSize 7] l3
  else l.

Definition row_cmds (rt : runtime) (it : SalesReport.row) (y : Q) : list cmd :=
  [ Text (SalesReport.r_orderDate it) col_date y ALeft;
    Text (SalesReport.truncated_productName (SalesReport.r_productName it)) col_productName y ALeft;
    Text (num_to_string rt (Some (num_or_zero (Number rt (JNum (SalesReport.r_quantity it))))))
         col_quantity y ALeft;
    Text (formatCurrency rt (JNum (num_or_zero (Number rt (JNum (SalesReport.r_unitPrice it))))))
         col_unitPrice y ALeft;
    Text (formatCurrency rt (JNum (num_or_zero (Number rt (JNum (SalesReport.r_totalPrice it))))))
         col_totalSales y ALeft ].

(** The body of [flattenedData.forEach] (lines 163-198). *)
Definition row_step (rt : runtime) (index : nat) (it : SalesReport.row)
  (st : SalesReport.rows_state) : SalesReport.rows_state :=
  let l1 := page_break (SalesReport.lay st) in
  let l2 := draw (row_cmds rt it (ypos l1)) l1 in
  {| SalesReport.lay := advance 6 l2;
     SalesReport.grandTotal :=
       SalesReport.grandTotal st + num_or_zero (Number rt (JNum (SalesReport.r_totalPrice it))) |}.

Definition table_rows (rt : runtime) (rows : list SalesReport.row) (l : layout)
  : SalesReport.rows_state :=
  forEach (row_step rt) rows {| SalesReport.lay := l; SalesReport.grandTotal := 0 |}.

(** Lines 200-214. *)
Definition grand_total_block (rt : runtime) (st : SalesReport.rows_state) : layout :=
  let l1 := advance 5 (SalesReport.lay st) in
  let l2 := advance 10 (draw [Line 20 (ypos l1) 190 (ypos l1)] l1) in
  let l3 := advance 10 (draw [SetFont Bold; SetFontSize 8;
                               Text "Grand Total:" 120 (ypos l2) ALeft;
                               Text (formatCurrency rt (JNum (SalesReport.grandTotal st)))
                                    150 (ypos l2) ALeft] l2) in
  advance 15 (draw [Line 20 (ypos l3) 190 (ypos l3)] l3).

(** Lines 236-262. *)
Definition summary_block (rt : runtime) (salesData : option (list SalesReport.order))
  (rows : list SalesReport.row) (l : layout) : layout :=
  let centerX := pageWidth_mm rt / 2 in
  let l1 := advance 12 (draw [SetFontSize 10; SetFont Bold;
                               Text "Sales Summary" centerX (ypos l) ACenter] l) in
  let avgText := "Average transaction value: "
                   ++ formatCurrency rt (JNum (SalesReport.avgTransactionValue rt salesData)) in
  let l2 := advance 8 (draw [SetFont Normal; SetFontSize 8;
                              Text ("Total Revenue: "
                                      ++ formatCurrency rt (JNum (SalesReport.totalRevenue rt salesData)))
                                   25 (ypos l1) ALeft;
                              Text avgText (centerX + 20) (ypos l1) ALeft] l1) in
  let l3 := advance 8 (draw [Text ("Total Items sold: "
                                      ++ num_to_string rt (Some (SalesReport.totalItems rows)))
                                   25 (ypos l2) ALeft;
                              Text ("Best selling product: " ++ SalesReport.bestSellingProduct rows)
                                   (centerX + 20) (ypos l2) ALeft] l2) in
  let l4 := advance 15 (draw [Text ("Number of transactions: "
                                       ++ nat_to_string (SalesReport.totalTransactions salesData))
                                    25 (ypos l3) ALeft] l3) in
  advance 15 (draw [Line 20 (ypos l4) 190 (ypos l4)] l4).

(** Lines 264-277. *)
Definition footer_cmds (rt : runtime) (adminName : string) (i pageCount : nat) : list cmd :=
  [ SetFontSize 7; SetFont Normal;
    Text ("Generated by: " ++ adminName) 25 280 ALeft;
    Text ("Report Generated: " ++ formatDate rt (TStr (today rt))) 120 280 ALeft;
    Text ("Page " ++ nat_to_string i ++ " of " ++ nat_to_string pageCount)
         (pageWidth_mm rt / 2) 285 ACenter ].

Definition stamp_footers (rt : runtime) (adminName : string) (d : doc) : doc :=
  let pageCount := numPages d in
  fold_left (fun d i => emits (footer_cmds rt adminName i pageCount) (setPage i d))
            (seq 1 pageCount) d.

Definition body (rt : runtime) (salesData : option (list SalesReport.order))
  (startDate endDate rangeLabel : string) : layout :=
  let rows := SalesReport.flattenedData rt salesData in
  let l1 := table_head (header rt startDate endDate rangeLabel newDoc) in
  summary_block rt salesData rows (grand_total_block rt (table_rows rt rows l1)).

Definition generateSalesReportPDF (rt : runtime) (salesData : option (list SalesReport.order))
  (startDate endDate adminName rangeLabel : string) : doc :=
  stamp_footers rt adminName (ldoc (body rt salesData startDate endDate rangeLabel)).

End Part002.

(* ================================================================= *)
(** ** Inventory report: [generateInventoryReportPDF] *)

Module InventoryReport.

(** [productName.length] and [currentStock.toString()] are used without
    a guard: the first is a string and the second a number. *)
Record item : Type := {
  productName : string;
  category : string;
  brand : string;
  currentStock : Q;
  stockStatus : string
}.

Definition col_productName : Q := 20.
Definition col_category : Q := 70.
Definition col_brand : Q := 110.
Definition col_quantity : Q := 150.
Definition col_status : Q := 175.

Definition header_labels (y : Q) : list cmd :=
  [ Text "Product Name" col_productName y ALeft;
    Text "Category" col_category y ALeft;
    Text "Brand" col_brand y ALeft;
    Text "Remaining Qty" col_quantity y ALeft;
    Text "Status" col_status y ALeft ].

(** Lines 255-274.  [addImage] of a logo that did not load throws inside
    the [try], which skips the advance of [yPosition]. *)
Definition header (rt : runtime) (startDate endDate : jstext) (l : layout) : layout :=
  let pageWidth := pageWidth_mm rt in
  let l1 :=
    if logoLoaded rt then
      let imgWidth := 30 in
      let imgHeight := 22 in
      let x := (pageWidth - imgWidth) / 2 in
      advance (imgHeight + 5) (draw [AddImage x (ypos l) imgWidth imgHeight] l)
    else l in
  let l2 := advance 7 (draw [SetFont Bold; SetFontSize 18;
                              Text "Inventory Report" (pageWidth / 2) (ypos l1) ACenter] l1) in
  advance 10 (draw [SetFont Normal; SetFontSize 10;
                    Text ("Period: " ++ formatDate rt startDate ++ " - " ++ formatDate rt endDate)
                         (pageWidth / 2) (ypos l2) ACenter] l2).

(** Lines 284-298. *)
Definition table_head (rt : runtime) (l : layout) : layout :=
  let l1 := advance 3 (draw ([SetFont Bold; SetFontSize 9] ++ header_labels (ypos l))%list l) in
  let l2 := advance 5 (draw [SetLineWidth (1 # 2);
                              Line 15 (ypos l1) (pageWidth_mm rt - 15) (ypos l1)] l1) in
  draw [SetFont Normal; SetFontSize 8] l2.

(** Lines 301-315. *)
Definition page_break (rt : runtime) (l : layout) : layout :=
  if Qgtb (ypos l) 270 then
    let l1 := newPage 20 l in
    let l2 := advance 3 (draw (SetFont Bold :: header_labels (ypos l1)) l1) in
    let l3 := advance 5 (draw [Line 15 (ypos l2) (pageWidth_mm rt - 15) (ypos l2)] l2) in
    draw [SetFont Normal; SetFontSize 8] l3
  else l.

Definition truncated_productName (name : string) : string :=
  let maxProductNameLength := 35%nat in
  if (maxProductNameLength <? String.length name)%nat
  then substring 0 maxProductNameLength name ++ "..."
  else name.

Definition row_cmds (rt : runtime) (index : nat) (it : item) (y : Q) : list cmd :=
  ((if (index mod 2 =? 0)%nat
    then [SetFillColor 245 245 245; Rect 15 (y - 4) (pageWidth_mm rt - 30) 6]
    else []) ++
   [ SetTextColor 0 0 0;
     Text (truncated_productName (productName it)) col_productName y ALeft;
     Text (category it) col_category y ALeft;
     Text (brand it) col_brand y ALeft;
     Text (num_to_string rt (Some (currentStock it))) col_quantity y ALeft;
     Text (stockStatus it) col_status y ALeft ])%list.

(** The body of [inventoryData.forEach] (lines 300-335). *)
Definition row_step (rt : runtime) (index : nat) (it : item) (l : layout) : layout :=
  let l1 := page_break rt l in
  advance 6 (draw (row_cmds rt index it (ypos l1)) l1).

Definition table_rows (rt : runtime) (rows : list item) (l : layout) : layout :=
  forEach (row_step rt) rows l.

(** Lines 337-363. *)
Definition summary_block (rt : runtime) (inventoryData : list item) (l : layout) : layout :=
  let pageWidth := pageWidth_mm rt in
  let l1 := advance 5 l in
  let l2 := advance 10 (draw [Line 15 (ypos l1) (pageWidth - 15) (ypos l1)] l1) in
  let totalItems := List.length inventoryData in
  let lowStockItems :=
    List.length (filter (fun it => stockStatus it =? "Low Stock") inventoryData) in
  let totalRemaining := fold_left (fun sum it => sum + currentStock it) inventoryData 0 in
  let l3 := if Qgtb (ypos l2 + 30) 280 then newPage 30 l2 else l2 in
  let l4 := advance 8 (draw [SetFillColor 240 240 240;
                              Rect 15 (ypos l3 - 5) (pageWidth - 30) 8;
                              SetFontSize 12; SetFont Bold;
                              Text "Inventory Summary" 20 (ypos l3) ALeft] l3) in
  let l5 := advance 6 (draw [SetFontSize 10; SetFont Normal;
                              Text ("Total Items: " ++ nat_to_string totalItems) 20 (ypos l4) ALeft] l4) in
  let l6 := advance 6 (draw [Text ("Low Stock Items: " ++ nat_to_string lowStockItems)
                                   20 (ypos l5) ALeft] l5) in
  draw [Text ("Total Remaining: " ++ num_to_string rt (Some totalRemaining)) 20 (ypos l6) ALeft] l6.

Definition body (rt : runtime) (inventoryData : list item) (startDate endDate : jstext) : layout :=
  let l0 := {| ldoc := newDoc; ypos := 20 |} in
  summary_block rt inventoryData
    (table_rows rt inventoryData (table_head rt (header rt startDate endDate l0))).

Definition generateInventoryReportPDF (rt : runtime) (inventoryData : list item)
  (startDate endDate : jstext) (adminName : string) : doc :=
  stamp_footers rt adminName (ldoc (body rt inventoryData startDate endDate)).

End InventoryReport.

(* ================================================================= *)
(** ** Returns report: [generateReturnsReportPDF] *)

Module ReturnsReport.

Record item : Type := {
  return_id : string;
  sale_number : string;
  customer_name : jstext;
  return_date : jstext;
  return_reason : jstext;
  refund_amount : jsval;
  restocked : bool
}.

Definition col_returnId : Q := 15.
Definition col_saleNumber : Q := 50.
Definition col_customer : Q := 80.
Definition col_date : Q := 120.
Definition col_reason : Q := 150.
Definition col_amount : Q := 180.

Definition drawTableHeaders (rt : runtime) (y : Q) : list cmd :=
  [ SetFont Bold; SetFontSize 9;
    Text "Return ID" col_returnId y ALeft;
    Text "Order ID" col_saleNumber y ALeft;
    Text "Customer" col_customer y ALeft;
    Text "Date" col_date y ALeft;
    Text "Reason" col_reason y ALeft;
    Text "Amount" col_amount y ALeft;
    SetLineWidth (1 # 2);
    Line 15 (y + 3) (pageWidth_mm rt - 15) (y + 3) ].

Definition header (rt : runtime) (startDate endDate : jstext) (l : layout) : layout :=
  let pageWidth := pageWidth_mm rt in
  let l1 :=
    if logoLoaded rt then
      let imgWidth := 30 in
      let imgHeight := 22 in
      let x := (pageWidth - imgWidth) / 2 in
      advance (imgHeight + 5) (draw [AddImage x (ypos l) imgWidth imgHeight] l)
    else l in
  let l2 := advance 7 (draw [SetFont Bold; SetFontSize 18;
                              Text "Returns Report" (pageWidth / 2) (ypos l1) ACenter] l1) in
  advance 10 (draw [SetFont Normal; SetFontSize 10;
                    Text ("Period: " ++ formatDate rt startDate ++ " - " ++ formatDate rt endDate)
                         (pageWidth / 2) (ypos l2) ACenter] l2).

Definition table_head (rt : runtime) (l : layout) : layout :=
  let l1 := advance 8 (draw (drawTableHeaders rt (ypos l)) l) in
  draw [SetFont Normal; SetFontSize 8] l1.

Definition page_break (rt : runtime) (l : layout) : layout :=
  if Qgtb (ypos l) 270 then
    let l1 := newPage 20 l in
    let l2 := advance 8 (draw (drawTableHeaders rt (ypos l1)) l1) in
    draw [SetFont Normal; SetFontSize 8] l2
  else l.

(** Lines 455-457: the text of the Customer column. *)
Definition customerName (customer_name : jstext) : string :=
  if opt_length_gt customer_name 20
  then match customer_name with
       | TStr s => substring 0 20 s ++ "..."
       | _ => ""
       end
  else text_or customer_name "N/A".

(** Lines 459-461: the text of the Reason column. *)
Definition reason (return_reason : jstext) : string :=
  if opt_length_gt return_reason 15
  then match return_reason with
       | TStr s => substring 0 15 s ++ "..."
       | _ => ""
       end
  else text_or return_reason "N/A".

Record rows_state : Type := { lay : layout; totalRefundAmount : Q }.

Definition row_cmds (rt : runtime) (index : nat) (it : item) (y : Q) : list cmd :=
  ((if (index mod 2 =? 0)%nat
    then [SetFillColor 245 245 245; Rect 15 (y - 4) (pageWidth_mm rt - 30) 6]
    else []) ++
   [ SetTextColor 0 0 0;
     Text (return_id it) col_returnId y ALeft;
     Text (sale_number it) col_saleNumber y ALeft;
     Text (customerName (customer_name it)) col_customer y ALeft;
     Text (formatDate rt (return_date it)) col_date y ALeft;
     Text (reason (return_reason it)) col_reason y ALeft;
     Text (formatCurrency rt (refund_amount it)) col_amount y ALeft ])%list.

(** The body of [returnsData.forEach] (lines 437-473). *)
Definition row_step (rt : runtime) (index : nat) (it : item) (st : rows_state) : rows_state :=
  let l1 := page_break rt (lay st) in
  let l2 := draw (row_cmds rt index it (ypos l1)) l1 in
  {| lay := advance 6 l2;
     totalRefundAmount := totalRefundAmount st + num_or_zero (Number rt (refund_amount it)) |}.

Definition table_rows (rt : runtime) (rows : list item) (l : layout) : rows_state :=
  forEach (row_step rt) rows {| lay := l; totalRefundAmount := 0 |}.

(** Lines 475-503. *)
Definition summary_block (rt : runtime) (returnsData : list item) (st : rows_state) : layout :=
  let pageWidth := pageWidth_mm rt in
  let l1 := advance 5 (lay st) in
  let l2 := advance 10 (draw [Line 15 (ypos l1) (pageWidth - 15) (ypos l1)] l1) in
  let l3 := if Qgtb (ypos l2 + 35) 280 then newPage 30 l2 else l2 in
  let l4 := advance 8 (draw [SetFillColor 240 240 240;
                              Rect 15 (ypos l3 - 5) (pageWidth - 30) 8;
                              SetFontSize 12; SetFont Bold;
                              Text "Returns Summary" 20 (ypos l3) ALeft] l3) in
  let totalReturns := List.length returnsData in
  let defectiveReturns :=
    List.length (filter (fun r => match return_reason r with
                                  | TStr s => s =? "Defective/Damaged"
                                  | _ => false
                                  end) returnsData) in
  let restockedCount := List.length (filter restocked returnsData) in
  let l5 := advance 6 (draw [SetFontSize 10; SetFont Normal;
                              Text ("Total Returns Processed: " ++ nat_to_string totalReturns)
                                   20 (ypos l4) ALeft;
                              Text ("Total Refunded Amount: "
                                      ++ formatCurrency rt (JNum (totalRefundAmount st)))
                                   (pageWidth / 2 + 10) (ypos l4) ALeft] l4) in
  draw [Text ("Defective/Damaged Items: " ++ nat_to_string defectiveReturns) 20 (ypos l5) ALeft;
        Text ("Items Restocked: " ++ nat_to_string restockedCount)
             (pageWidth / 2 + 10) (ypos l5) ALeft] l5.

Definition body (rt : runtime) (returnsData : list item) (startDate endDate : jstext) : layout :=
  let l0 := {| ldoc := newDoc; ypos := 20 |} in
  summary_block rt returnsData
    (table_rows rt returnsData (table_head rt (header rt startDate endDate l0))).

Definition generateReturnsReportPDF (rt : runtime) (returnsData : list item)
  (startDate endDate : jstext) (adminName : string) : doc :=
  stamp_footers rt adminName (ldoc (body rt returnsData startDate endDate)).

End ReturnsReport.

(* ================================================================= *)
(** ** Sale receipt: [generateSaleReceipt] *)

Module Receipt.

Record item : Type := {
  name : jstext;
  product_name : jstext;
  productName : jstext;
  serialNumbers : option (list string);
  serial_numbers : option (list string);
  quantity : jsval;
  price : jsval;
  unitPrice : jsval
}.

(** The argument object.  A field left [undefined] takes the default of
    the parameter list (lines 523-534); [items], [paymentMethod],
    [shippingOption] and [createdAt] are given here with the default
    already applied. *)
Record sale : Type := {
  saleNumber : string;
  customerName : jstext;
  items : list item;
  totalAmount : jsval;
  paymentMethod : string;
  tenderedAmount : jsval;
  changeAmount : jsval;
  address : jstext;
  shippingOption : string;
  createdAt : string
}.

(** A parameter default: it replaces [undefined] only. *)
Definition default_num (v : jsval) (d : Q) : jsval :=
  match v with
  | JUndefined => JNum d
  | _ => v
  end.

Definition default_text (t : jstext) (d : string) : jstext :=
  match t with
  | TUndefined => TStr d
  | _ => t
  end.

Definition of_num (n : num) : jsval :=
  match n with
  | Some q => JNum q
  | None => JNaN
  end.

Definition margin : Q := 40.
Definition FONT_SIZE_BODY : Q := 10.
Definition FONT_SIZE_SMALL : Q := 8.
Definition FONT_SIZE_HEADER : Q := 12.
Definition LINE_HEIGHT : Q := (12 # 10) * FONT_SIZE_BODY.
Definition SMALL_LINE_HEIGHT : Q := (12 # 10) * FONT_SIZE_SMALL.
Definition minRowHeight : Q := 25.

Definition contentWidth (rt : runtime) : Q := pageWidth_pt rt - margin * 2.
Definition colAmt_Right (rt : runtime) : Q := pageWidth_pt rt - margin - 5.
Definition colUnit_Right (rt : runtime) : Q := colAmt_Right rt - 90.
Definition colQty_Center (rt : runtime) : Q := colUnit_Right rt - 45.
Definition colName_Left : Q := margin + 5.
Definition colName_Width (rt : runtime) : Q := colQty_Center rt - 25 - colName_Left.

Definition Qmax (a b : Q) : Q := if Qle_bool a b then b else a.

(** Lines 552-577: logo, shop name and address, title. *)
Definition header (rt : runtime) (l : layout) : layout :=
  let pageWidth := pageWidth_pt rt in
  let l1 :=
    if logoLoaded rt then
      let imgWidth := 80 in
      let imgHeight := 59 in
      let x := (pageWidth - imgWidth) / 2 in
      advance (imgHeight + 10) (draw [AddImage x (ypos l) imgWidth imgHeight] l)
    else l in
  let l2 := advance LINE_HEIGHT
              (draw [SetFont Bold; SetFontSize FONT_SIZE_HEADER;
                     Text "TJC AUTO SUPPLY" (pageWidth / 2) (ypos l1) ACenter] l1) in
  let l3 := advance LINE_HEIGHT
              (draw [SetFont Normal; SetFontSize FONT_SIZE_BODY;
                     Text "General Hizon Avenue, Santa Lucia, City of San Fernando, Pampanga"
                          (pageWidth / 2) (ypos l2) ACenter] l2) in
  let l4 := advance 25
              (draw [Text "0912 345 6789 | tjcautosupply@gmail.com"
                          (pageWidth / 2) (ypos l3) ACenter] l3) in
  advance 30 (draw [SetFont Bold; SetFontSize 16;
                    Text "OFFICIAL RECEIPT" (pageWidth / 2) (ypos l4) ACenter] l4).

(** Line 596: the text beside "Customer:". *)
Definition customer_text (customerName : jstext) : string :=
  text_or customerName "N/A".

(** Line 597: the text that is wrapped beside "Address:". *)
Definition address_text (address : jstext) (shippingOption : string) : string :=
  text_or (default_text address "")
          (if shippingOption =? "In-Store Pickup" then "In-Store Pickup" else "N/A").

(** Lines 579-611: the two information panels. *)
Definition info_panels (rt : runtime) (s : sale) (l : layout) : layout :=
  let y := ypos l in
  let panel1_X := margin in
  let panel2_X := margin + (contentWidth rt / 2) + 10 in
  let panelWidth := (contentWidth rt / 2) - 10 in
  let adminName := text_or (storedUsername rt) "Admin" in
  let dateStr := toDateTime rt (createdAt s) in
  let y1 := y in
  let addressLines :=
    splitTextToSize rt (address_text (address s) (shippingOption s)) (panelWidth - 70) in
  let y2 := y in
  let l1 :=
    draw [ SetFont Normal; SetFontSize FONT_SIZE_BODY;
           Text "Order #:" panel1_X y1 ALeft;
           Text "Customer:" panel1_X (y1 + LINE_HEIGHT) ALeft;
           Text "Address:" panel1_X (y1 + LINE_HEIGHT * 2) ALeft;
           SetFont Bold;
           Text (saleNumber s) (panel1_X + 70) y1 ALeft;
           Text (customer_text (customerName s)) (panel1_X + 70) (y1 + LINE_HEIGHT) ALeft;
           TextLines addressLines (panel1_X + 70) (y1 + LINE_HEIGHT * 2);
           SetFont Normal;
           Text "Date:" panel2_X y2 ALeft;
           Text "Cashier:" panel2_X (y2 + LINE_HEIGHT) ALeft;
           Text "Payment:" panel2_X (y2 + LINE_HEIGHT * 2) ALeft;
           SetFont Bold;
           Text dateStr (panel2_X + 80) y2 ALeft;
           Text adminName (panel2_X + 80) (y2 + LINE_HEIGHT) ALeft;
           Text (paymentMethod s) (panel2_X + 80) (y2 + LINE_HEIGHT * 2) ALeft ] l in
  {| ldoc := ldoc l1;
     ypos := Qmax (y1 + (inject_Z (Z.of_nat (List.length addressLines)) + 1) * LINE_HEIGHT)
                  (y2 + LINE_HEIGHT * 3) + 20 |}.

(** Lines 613-635: the column header of the item table. *)
Definition table_header_cmds (rt : runtime) (tableHeaderY : Q) : list cmd :=
  [ SetFillColor 241 243 245;
    Rect margin tableHeaderY (contentWidth rt) 20;
    SetFont Bold; SetFontSize FONT_SIZE_BODY;
    Text "Item Description" colName_Left (tableHeaderY + 14) ALeft;
    Text "Qty" (colQty_Center rt) (tableHeaderY + 14) ACenter;
    Text "Unit Price" (colUnit_Right rt) (tableHeaderY + 14) ARight;
    Text "Amount" (colAmt_Right rt) (tableHeaderY + 14) ARight ].

Definition table_head (rt : runtime) (l : layout) : layout :=
  let tableHeaderY := ypos l in
  let l1 := draw (table_header_cmds rt tableHeaderY) l in
  draw [SetFont Normal; SetFontSize FONT_SIZE_BODY]
       {| ldoc := ldoc l1; ypos := tableHeaderY + 20 |}.

(** Lines 638-641. *)
Definition page_break (l : layout) : layout :=
  if Qgtb (ypos l) 750 then newPage margin l else l.

(** [String(it.name || it.product_name || it.productName || '')]. *)
Definition item_name (it : item) : string :=
  text_or (name it) (text_or (product_name it) (text_or (productName it) "")).

(** [it.serialNumbers || it.serial_numbers || []]; an array is truthy
    even when it is empty. *)
Definition item_serials (it : item) : list string :=
  match serialNumbers it with
  | Some l => l
  | None => match serial_numbers it with
            | Some l => l
            | None => []
            end
  end.

Definition nameLines (rt : runtime) (it : item) : list string :=
  splitTextToSize rt (item_name it) (colName_Width rt).

Definition serialLines (rt : runtime) (it : item) : list string :=
  let serials := item_serials it in
  if (0 <? List.length serials)%nat
  then splitTextToSize rt ("Serials: " ++ join ", " serials) (colName_Width rt - 5)
  else [].

Definition lines_height (n : list string) (h : Q) : Q :=
  inject_Z (Z.of_nat (List.length n)) * h.

Definition rowHeight (rt : runtime) (it : item) : Q :=
  let nameHeight := lines_height (nameLines rt it) LINE_HEIGHT in
  let serialHeight := lines_height (serialLines rt it) SMALL_LINE_HEIGHT in
  Qmax minRowHeight (nameHeight + serialHeight + 10).

(** [Number(it.quantity || 0)]. *)
Definition qty (rt : runtime) (it : item) : num :=
  Number rt (or_else (quantity it) (JNum 0)).

(** [Number(it.price || it.unitPrice || 0)]. *)
Definition unit (rt : runtime) (it : item) : num :=
  Number rt (or_else (or_else (price it) (unitPrice it)) (JNum 0)).

(** [unit * qty]: the amount printed on the line. *)
Definition sub (rt : runtime) (it : item) : num := JS.mul (unit rt it) (qty rt it).

Definition row_cmds (rt : runtime) (it : item) (y : Q) : list cmd :=
  let nameHeight := lines_height (nameLines rt it) LINE_HEIGHT in
  let yTextStart := y + 16 in
  ([ SetFont Normal; SetFontSize FONT_SIZE_BODY;
     TextLines (nameLines rt it) colName_Left yTextStart ] ++
   (if (0 <? List.length (serialLines rt it))%nat
    then [ SetFont Italic; SetFontSize FONT_SIZE_SMALL;
           TextLines (serialLines rt it) (colName_Left + 5) (yTextStart + nameHeight);
           SetFont Normal; SetFontSize FONT_SIZE_BODY ]
    else []) ++
   [ Text (num_to_string rt (qty rt it)) (colQty_Center rt) yTextStart ACenter;
     Text (peso rt (of_num (unit rt it))) (colUnit_Right rt) yTextStart ARight;
     Text (peso rt (of_num (sub rt it))) (colAmt_Right rt) yTextStart ARight;
     SetLineWidth (1 # 2);
     SetDrawColor 222 226 230;
     Line margin (y + rowHeight rt it) (pageWidth_pt rt - margin) (y + rowHeight rt it) ])%list.

(** The body of [items.forEach] (lines 637-684). *)
Definition row_step (rt : runtime) (index : nat) (it : item) (l : layout) : layout :=
  let l1 := page_break l in
  advance (rowHeight rt it) (draw (row_cmds rt it (ypos l1)) l1).

Definition table_rows (rt : runtime) (rows : list item) (l : layout) : layout :=
  forEach (row_step rt) rows l.

(** [tenderedAmount > 0]. *)
Definition gt_zero (n : num) : bool :=
  match n with
  | Some q => Qgtb q 0
  | None => false
  end.

(** Lines 686-715: subtotal, cash lines, total and the closing line. *)
Definition totals_block (rt : runtime) (s : sale) (l : layout) : layout :=
  let pageWidth := pageWidth_pt rt in
  let totalAmount := default_num (totalAmount s) 0 in
  let tenderedAmount := default_num (tenderedAmount s) 0 in
  let changeAmount := default_num (changeAmount s) 0 in
  let l0 := advance 15 l in
  let totalLabelX := contentWidth rt - 100 in
  let totalValueX := pageWidth - margin - 5 in
  let l1 := advance LINE_HEIGHT
              (draw [SetFont Normal; SetFontSize FONT_SIZE_BODY;
                     Text "Subtotal:" totalLabelX (ypos l0) ARight;
                     Text (peso rt totalAmount) totalValueX (ypos l0) ARight] l0) in
  let l2 :=
    if (toLowerCase (paymentMethod s) =? "cash") && gt_zero (Number rt tenderedAmount) then
      let a := advance LINE_HEIGHT
                 (draw [Text "Cash Tendered:" totalLabelX (ypos l1) ARight;
                        Text (peso rt tenderedAmount) totalValueX (ypos l1) ARight] l1) in
      advance (LINE_HEIGHT * (15 # 10))
              (draw [Text "Change:" totalLabelX (ypos a) ARight;
                     Text (peso rt changeAmount) totalValueX (ypos a) ARight] a)
    else l1 in
  let l3 := advance (LINE_HEIGHT * 2)
              (draw [SetFont Bold; SetFontSize (FONT_SIZE_HEADER + 2);
                     Text "TOTAL:" totalLabelX (ypos l2) ARight;
                     Text (peso rt totalAmount) totalValueX (ypos l2) ARight] l2) in
  let l4 := {| ldoc := ldoc l3; ypos := Qmax (ypos l3) 800 |} in
  draw [SetFont Italic; SetFontSize FONT_SIZE_BODY;
        Text "Thank you for your purchase!" (pageWidth / 2) (ypos l4) ACenter] l4.

Definition before_rows (rt : runtime) (s : sale) : layout :=
  table_head rt (info_panels rt s (header rt {| ldoc := newDoc; ypos := margin |})).

Definition generateSaleReceipt (rt : runtime) (s : sale) : doc :=
  ldoc (totals_block rt s (table_rows rt (items s) (before_rows rt s))).

End Receipt.

(* ================================================================= *)
(** ** Data preparation: [ReportsController.getSalesReport] *)

Module Controller.

(** A row of [Sales.getSaleItems]. *)
Record sale_item : Type := {
  product_name : jstext;
  brand : jstext;
  quantity : jsval;
  returned_quantity : jsval;
  price : jsval;
  subtotal : jsval
}.

(** A row of the [sales] query. *)
Record sale : Type := {
  sale_number : jstext;
  customer_name : jstext;
  created_at : jstext;
  total : jsval;
  status : jstext
}.

(** [(item.quantity || 0) - (item.returned_quantity || 0)]. *)
Definition actualQty (rt : runtime) (it : sale_item) : num :=
  let returnedQty := or_else (returned_quantity it) (JNum 0) in
  JS.sub (Number rt (or_else (quantity it) (JNum 0))) (Number rt returnedQty).

(** The callback of [items.map] (part_000, lines 87-105): [None] is the
    [null] returned for a fully returned item. *)
Definition map_item (rt : runtime) (it : sale_item) : option SalesReport.item :=
  if le_zero (actualQty rt it) then None
  else
    let actualPrice := JS.mul (Number rt (or_else (price it) (JNum 0))) (actualQty rt it) in
    Some {| SalesReport.productName := text_or (product_name it) "N/A";
            SalesReport.quantity := Receipt.of_num (actualQty rt it);
            SalesReport.unitPrice := or_else (price it) (JNum 0);
            SalesReport.totalPrice := Receipt.of_num actualPrice |}.

(** [items.map(...).filter(item => item !== null)]. *)
Definition prepare_items (rt : runtime) (its : list sale_item) : list SalesReport.item :=
  flat_map (fun o => match o with Some x => [x] | None => [] end)
           (map (map_item rt) its).

(** The record pushed on [salesWithItems] when the items were fetched;
    [toPhilippineTime] is [ReportsController.convertToPhilippineTime]. *)
Definition prepare_sale (rt : runtime) (toPhilippineTime : jstext -> jstext)
  (s : sale) (its : list sale_item) : SalesReport.order :=
  {| SalesReport.orderId := sale_number s;
     SalesReport.customerName := customer_name s;
     SalesReport.orderDate := toPhilippineTime (created_at s);
     SalesReport.status := TStr (text_or (status s) "N/A");
     SalesReport.totalAmount := total s;
     SalesReport.items := prepare_items rt its |}.

End Controller.

(* ================================================================= *)
(** ** Sample data *)

Module Samples.
Import SalesReport.

Definition it (n : string) (q p : Z) : item :=
  {| productName := n; quantity := JNum (inject_Z q); unitPrice := JNum (inject_Z p);
     totalPrice := JNum (inject_Z (q * p)) |}.
Definition ord (l : list item) :=
  {| orderId := TStr "S1"; customerName := TNull; orderDate := TStr "2025-11-01";
     status := TStr "Completed"; totalAmount := JNum 100; items := l |}.
Definition ritem (n : string) (q p : Z) : Receipt.item :=
  {| Receipt.name := TStr n; Receipt.product_name := TUndefined; Receipt.productName := TUndefined;
     Receipt.serialNumbers := None; Receipt.serial_numbers := None;
     Receipt.quantity := JNum (inject_Z q); Receipt.price := JNum (inject_Z p);
     Receipt.unitPrice := JUndefined |}.
Definition rsale (l : list Receipt.item) (t : Z) : Receipt.sale :=
  {| Receipt.saleNumber := "SL-1"; Receipt.customerName := TStr ""; Receipt.items := l;
     Receipt.totalAmount := JNum (inject_Z t); Receipt.paymentMethod := "Cash";
     Receipt.tenderedAmount := JNum 100; Receipt.changeAmount := JNum 80;
     Receipt.address := TUndefined; Receipt.shippingOption := "In-Store Pickup";
     Receipt.createdAt := "2025-11-03" |}.

(** One completed order of 38 items, the last one named "Z". *)
Definition rows38 : list item := (repeat (it "A" 1 10) 37 ++ [it "Z" 1 10])%list.
Definition report38 : doc :=
  generateSalesReportPDF Sample.rt (Some [ord rows38]) "2025-11-01" "2025-11-03" "me" "Daily".

(** One completed order of 100 pesos whose items were all returned. *)
Definition emptied : option (list order) := Some [ord []].

(** Two products sold in the same quantity, "A" first. *)
Definition tied : option (list order) := Some [ord [it "A" 5 2; it "B" 5 3]].

(** One completed order of 45 items: the row loop itself starts page 2. *)
Definition orders45 : option (list order) := Some [ord (repeat (it "A" 1 10) 45)].

(** Two bolts at 10 pesos on a sale whose total was passed as 5. *)
Definition mismatch : Receipt.sale := rsale [ritem "Bolt" 2 10] 5.

(** A sale item sold twice and returned twice, and one still sold. *)
Definition returned_item : Controller.sale_item :=
  {| Controller.product_name := TStr "Spark plug"; Controller.brand := TStr "NGK";
     Controller.quantity := JNum 2; Controller.returned_quantity := JNum 2;
     Controller.price := JStr "150.00"; Controller.subtotal := JStr "300.00" |}.
Definition kept_item : Controller.sale_item :=
  {| Controller.product_name := TStr "Oil filter"; Controller.brand := TNull;
     Controller.quantity := JNum 3; Controller.returned_quantity := JNull;
     Controller.price := JStr "80.50"; Controller.subtotal := JStr "241.50" |}.

(** A receipt of 24 one-line items. *)
Definition receipt24 : doc :=
  Receipt.generateSaleReceipt Sample.rt (rsale (repeat (ritem "Bolt" 2 10) 24) 480).
End Samples.

(* ================================================================= *)
(** ** Facts about the drawing surface *)

Section DocFacts.

Lemma log_emits (cs : list cmd) (d : doc) :
  log (emits cs d) = (log d ++ map (pair (currentPage d)) cs)%list.
Proof. reflexivity. Qed.

Lemma emits_emits (a b : list cmd) (d : doc) :
  emits b (emits a d) = emits (a ++ b)%list d.
Proof.
  unfold emits; cbn [log numPages currentPage].
  now rewrite map_app, app_assoc.
Qed.

Lemma page_cmds_app (p : nat) (l1 l2 : list (nat * cmd)) (n c : nat) :
  page_cmds p {| log := (l1 ++ l2)%list; numPages := n; currentPage := c |}
  = (page_cmds p {| log := l1; numPages := n; currentPage := c |}
       ++ map snd (filter (fun e => (fst e =? p)%nat) l2))%list.
Proof. unfold page_cmds; cbn [log]. now rewrite filter_app, map_app. Qed.

Lemma filter_page_pair (p q : nat) (cs : list cmd) :
  map snd (filter (fun e => (fst e =? p)%nat) (map (pair q) cs))
  = if (q =? p)%nat then cs else [].
Proof.
  induction cs as [|c cs IH]; cbn.
  - now destruct (q =? p)%nat.
  - destruct (q =? p)%nat eqn:E; cbn; now rewrite IH.
Qed.

Lemma page_cmds_emits (p : nat) (cs : list cmd) (d : doc) :
  page_cmds p (emits cs d)
  = (page_cmds p d ++ if (currentPage d =? p)%nat then cs else [])%list.
Proof.
  unfold page_cmds, emits; cbn [log].
  now rewrite filter_app, map_app, filter_page_pair.
Qed.

Lemma page_cmds_addPage (p : nat) (d : doc) : page_cmds p (addPage d) = page_cmds p d.
Proof. reflexivity. Qed.

Lemma page_cmds_setPage (p i : nat) (d : doc) : page_cmds p (setPage i d) = page_cmds p d.
Proof. reflexivity. Qed.

(** No call is logged for a page that does not exist yet. *)
Definition pages_bounded (d : doc) : Prop :=
  Forall (fun e => (fst e <= numPages d)%nat) (log d) /\ (currentPage d <= numPages d)%nat.

Lemma pages_bounded_new : pages_bounded newDoc.
Proof. split; [constructor | cbn; lia]. Qed.

Lemma pages_bounded_emits (cs : list cmd) (d : doc) :
  pages_bounded d -> pages_bounded (emits cs d).
Proof.
  intros [H1 H2]; split; cbn [log numPages currentPage emits]; [|exact H2].
  apply Forall_app; split; [exact H1|].
  apply Forall_forall; intros e He. apply in_map_iff in He.
  destruct He as [c [<- _]]. exact H2.
Qed.

Lemma pages_bounded_addPage (d : doc) : pages_bounded d -> pages_bounded (addPage d).
Proof.
  intros [H1 H2]; split; cbn [log numPages currentPage addPage]; [|lia].
  eapply Forall_impl; [|exact H1]. cbn; intros; lia.
Qed.

Lemma page_cmds_beyond (p : nat) (d : doc) :
  pages_bounded d -> (numPages d < p)%nat -> page_cmds p d = [].
Proof.
  intros [H _] Hp. unfold page_cmds.
  induction (log d) as [|e l IH]; [reflexivity|].
  inversion H as [|? ? He Hl]; subst. cbn.
  destruct (Nat.eqb_spec (fst e) p) as [E|E]; [lia|]. now apply IH.
Qed.

End DocFacts.

(** [l] starts with the block [b]. *)
Definition begins_with (b l : list cmd) : Prop := exists rest, l = (b ++ rest)%list.

Lemma begins_with_app (b l more : list cmd) :
  begins_with b l -> begins_with b (l ++ more)%list.
Proof. intros [r ->]. exists (r ++ more)%list. now rewrite app_assoc. Qed.

Lemma forEach_from_app {R S : Type} (f : nat -> R -> S -> S) (pre post : list R) :
  forall (i : nat) (st : S),
    forEach_from f i (pre ++ post)%list st
    = forEach_from f (i + List.length pre) post (forEach_from f i pre st).
Proof.
  induction pre as [|r pre IH]; intros i st; cbn.
  - now rewrite Nat.add_0_r.
  - rewrite IH. f_equal. lia.
Qed.

Lemma forEach_snoc {R S : Type} (f : nat -> R -> S -> S) (rows : list R) (r : R) (st : S) :
  forEach f (rows ++ [r])%list st = f (List.length rows) r (forEach f rows st).
Proof. unfold forEach. now rewrite forEach_from_app. Qed.

Lemma Qgtb_false_le (a b : Q) : Qgtb a b = false -> a <= b.
Proof.
  unfold Qgtb. intros H. apply negb_false_iff in H. now apply Qle_bool_iff.
Qed.

Lemma Qgtb_true_lt (a b : Q) : Qgtb a b = true -> b < a.
Proof.
  unfold Qgtb. intros H. apply negb_true_iff in H.
  apply Qnot_le_lt. intros C. apply Qle_bool_iff in C. congruence.
Qed.

(* ================================================================= *)
(** ** The shape shared by the four row loops *)

Section PagedRows.

Variables (R S : Type).
Variable lay_of : S -> layout.
Variable step : nat -> R -> S -> S.
(** The threshold of the break check, the position of the first row on a
    new page, and what the break draws on the new page. *)
Variables (threshold first_row : Q).
Variable redraw : list cmd.
Variable cmds : nat -> R -> Q -> list cmd.
Variable height : R -> Q.

Definition break_check (l : layout) : layout :=
  if Qgtb (ypos l) threshold
  then {| ldoc := emits redraw (addPage (ldoc l)); ypos := first_row |}
  else l.

Hypothesis step_lay : forall i r st,
  lay_of (step i r st)
  = advance (height r)
      (draw (cmds i r (ypos (break_check (lay_of st)))) (break_check (lay_of st))).
Hypothesis first_row_fits : first_row <= threshold.

Lemma break_check_le (l : layout) : ypos (break_check l) <= threshold.
Proof.
  unfold break_check. destruct (Qgtb (ypos l) threshold) eqn:E; cbn.
  - exact first_row_fits.
  - now apply Qgtb_false_le.
Qed.

Lemma break_check_pages (l : layout) :
  if Qgtb (ypos l) threshold
  then currentPage (ldoc (break_check l)) = Datatypes.S (numPages (ldoc l))
       /\ numPages (ldoc (break_check l)) = Datatypes.S (numPages (ldoc l))
       /\ ypos (break_check l) = first_row
  else break_check l = l.
Proof.
  unfold break_check. destruct (Qgtb (ypos l) threshold); cbn; auto.
Qed.

Lemma step_log (i : nat) (r : R) (st : S) :
  let l1 := break_check (lay_of st) in
  log (ldoc (lay_of (step i r st)))
  = (log (ldoc l1) ++ map (pair (currentPage (ldoc l1))) (cmds i r (ypos l1)))%list
  /\ ypos (lay_of (step i r st)) = ypos l1 + height r.
Proof. cbn zeta. rewrite step_lay. split; reflexivity. Qed.

(** The pages the loop has started so far all begin with the redrawn
    block, and the last page is the selected one. *)
Definition loop_inv (n0 : nat) (d : doc) : Prop :=
  pages_bounded d /\ currentPage d = numPages d /\ (n0 <= numPages d)%nat
  /\ forall p, (n0 < p <= numPages d)%nat -> begins_with redraw (page_cmds p d).

Lemma loop_inv_emits (n0 : nat) (cs : list cmd) (d : doc) :
  loop_inv n0 d -> loop_inv n0 (emits cs d).
Proof.
  intros (Hb & Hc & Hn & Hp). split; [|split; [|split]].
  - now apply pages_bounded_emits.
  - exact Hc.
  - exact Hn.
  - intros p Hr. rewrite page_cmds_emits. apply begins_with_app. now apply Hp.
Qed.

Lemma loop_inv_break (n0 : nat) (l : layout) :
  loop_inv n0 (ldoc l) -> loop_inv n0 (ldoc (break_check l)).
Proof.
  intros H. unfold break_check. destruct (Qgtb (ypos l) threshold); [|exact H].
  destruct H as (Hb & Hc & Hn & Hp). cbn [ldoc].
  pose proof (pages_bounded_addPage Hb) as Hb'.
  split; [|split; [|split]].
  - now apply pages_bounded_emits.
  - reflexivity.
  - cbn. lia.
  - intros p Hr. cbn [numPages emits addPage] in Hr.
    rewrite page_cmds_emits, page_cmds_addPage. cbn [currentPage addPage].
    destruct (Nat.eqb_spec (Datatypes.S (numPages (ldoc l))) p) as [E|E].
    + rewrite (page_cmds_beyond Hb) by lia. exists []. now rewrite app_nil_r.
    + rewrite app_nil_r. apply Hp. lia.
Qed.

Lemma loop_inv_step (n0 i : nat) (r : R) (st : S) :
  loop_inv n0 (ldoc (lay_of st)) -> loop_inv n0 (ldoc (lay_of (step i r st))).
Proof.
  intros H. rewrite step_lay. cbn [ldoc advance draw].
  apply loop_inv_emits. now apply loop_inv_break.
Qed.

Lemma loop_inv_forEach (n0 : nat) (rows : list R) :
  forall (i : nat) (st : S),
    loop_inv n0 (ldoc (lay_of st)) ->
    loop_inv n0 (ldoc (lay_of (forEach_from step i rows st))).
Proof.
  induction rows as [|r rows IH]; intros i st H; cbn; [exact H|].
  apply IH. now apply loop_inv_step.
Qed.

End PagedRows.

(* ================================================================= *)
(** ** Strings *)

Section StringFacts.

Lemma append_assoc (a b c : string) : (a ++ b) ++ c = a ++ (b ++ c).
Proof. induction a as [|x a IH]; cbn; [reflexivity | now rewrite IH]. Qed.

Lemma append_nil_r (a : string) : a ++ "" = a.
Proof. induction a as [|x a IH]; cbn; [reflexivity | now rewrite IH]. Qed.

Lemma length_append (a b : string) :
  String.length (a ++ b) = (String.length a + String.length b)%nat.
Proof. induction a as [|x a IH]; cbn; [reflexivity | now rewrite IH]. Qed.

(** Any string can be cut [n] characters before its end. *)
Lemma split_tail (n : nat) (s : string) :
  (n <= String.length s)%nat ->
  exists a b, s = a ++ b /\ String.length b = n.
Proof.
  induction s as [|c s IH]; cbn; intros H.
  - exists "", "". split; [reflexivity | cbn; lia].
  - destruct (Nat.eq_dec n (Datatypes.S (String.length s))) as [E|E].
    + exists "", (String c s). split; [reflexivity | cbn; lia].
    + destruct IH as (a & b & -> & Hb); [lia|].
      exists (String c a), b. split; [reflexivity | exact Hb].
Qed.

(** [substring 0 n] keeps the first [n] characters. *)
Lemma substring_prefix (n : nat) (s : string) :
  (n <= String.length s)%nat ->
  String.length (substring 0 n s) = n
  /\ exists rest, s = substring 0 n s ++ rest.
Proof.
  revert n. induction s as [|c s IH]; intros [|n] H; cbn in *.
  - split; [reflexivity | now exists ""].
  - lia.
  - split; [reflexivity | now exists (String c s)].
  - destruct (IH n) as [Hl [rest Hr]]; [lia|].
    split; [now rewrite Hl | exists rest; now rewrite <- Hr].
Qed.

End StringFacts.

(* ================================================================= *)
(** ** Digits and groups of digits *)

Definition digit_char (c : ascii) : bool :=
  let n := nat_of_ascii c in ((48 <=? n) && (n <=? 57))%nat.

Fixpoint all_digits (s : string) : bool :=
  match s with
  | EmptyString => true
  | String c r => digit_char c && all_digits r
  end.

(** [out] is the digit string [ds] with a separator before every
    complete group of three digits counted from the right. *)
Inductive grouped (sep : string) : string -> string -> Prop :=
| grouped_short (ds : string) :
    (1 <= String.length ds <= 3)%nat -> grouped sep ds ds
| grouped_more (ds out t : string) :
    grouped sep ds out -> String.length t = 3%nat ->
    grouped sep (ds ++ t) (out ++ sep ++ t).




Section FormattingFacts.

Lemma group_thousands_short (sep ds : string) :
  (String.length ds <= 3)%nat -> group_thousands sep ds = ds.
Proof.
  induction ds as [|c ds IH]; cbn [group_thousands String.length]; intros H; [reflexivity|].
  rewrite IH by lia.
  destruct (String.length ds) as [|[|[|n]]]; cbn; try reflexivity; lia.
Qed.

Lemma group_thousands_last3 (sep ds t : string) :
  ds <> "" -> String.length t = 3%nat ->
  group_thousands sep (ds ++ t) = group_thousands sep ds ++ sep ++ t.
Proof.
  intros Hne Ht. induction ds as [|c ds IH]; [congruence|].
  cbn [append group_thousands]. f_equal.
  rewrite length_append, Ht.
  destruct ds as [|c' ds'].
  - cbn [append String.length group_thousands Nat.add].
    rewrite (group_thousands_short sep t) by lia. reflexivity.
  - rewrite IH by discriminate.
    replace ((String.length (String c' ds') + 3) mod 3)%nat
      with (String.length (String c' ds') mod 3)%nat.
    2:{ symmetry.
        replace (String.length (String c' ds') + 3)%nat
          with (String.length (String c' ds') + 1 * 3)%nat by lia.
        apply Nat.Div0.mod_add. }
    cbn [String.length].
    replace (0 <? Datatypes.S (String.length ds') + 3)%nat with true
      by (symmetry; apply Nat.ltb_lt; lia).
    replace (0 <? Datatypes.S (String.length ds'))%nat with true
      by (symmetry; apply Nat.ltb_lt; lia).
    cbn [andb].
    destruct (Datatypes.S (String.length ds') mod 3 =? 0)%nat;
      now rewrite ?append_assoc.
Qed.

Lemma group_thousands_grouped (sep : string) (n : nat) :
  forall ds, (String.length ds <= n)%nat -> ds <> "" ->
             grouped sep ds (group_thousands sep ds).
Proof.
  induction n as [n IH] using lt_wf_ind. intros ds Hn Hne.
  destruct (le_lt_dec (String.length ds) 3) as [Hs|Hl].
  - rewrite group_thousands_short by exact Hs. constructor.
    destruct ds; [congruence | cbn in *; lia].
  - destruct (@split_tail 3 ds) as (a & t & -> & Ht); [lia|].
    rewrite length_append in Hn, Hl.
    assert (a <> "") by (intros ->; cbn in Hl; lia).
    rewrite group_thousands_last3 by assumption.
    constructor; [|exact Ht].
    apply (IH (String.length a)); [lia | lia | assumption].
Qed.

Lemma all_digits_uint (u : Decimal.uint) : all_digits (NilEmpty.string_of_uint u) = true.
Proof. induction u; cbn; auto. Qed.

Lemma Z_to_string_digits (z : Z) :
  (0 <= z)%Z -> all_digits (Z_to_string z) = true /\ Z_to_string z <> "".
Proof.
  intros Hz. unfold Z_to_string, NilZero.string_of_int.
  destruct z as [|p|p]; [cbn; split; [reflexivity | discriminate] | | lia].
  cbn [Z.to_int]. unfold NilZero.string_of_uint.
  destruct (Pos.to_uint p) eqn:E;
    (split; [first [reflexivity | rewrite <- E; apply all_digits_uint
                    | exact (all_digits_uint (Pos.to_uint p))]
            | cbn; discriminate]).
Qed.

End FormattingFacts.

Section CurrencyFacts.


Lemma hundredths_nonneg (q : Q) : (0 <= hundredths q)%Z.
Proof.
  unfold hundredths.
  rewrite <- (Qfloor_Z 0). apply Qfloor_resp_le.
  pose proof (Qabs_nonneg q). change (inject_Z 0) with 0%Q. nra.
Qed.

Lemma hundredths_nearest (q : Q) :
  inject_Z (hundredths q) <= Qabs q * 100 + (1 # 2)
  /\ Qabs q * 100 + (1 # 2) < inject_Z (hundredths q) + 1.
Proof.
  unfold hundredths. split.
  - apply Qfloor_le.
  - pose proof (Qlt_floor (Qabs q * 100 + (1 # 2))) as H.
    rewrite inject_Z_plus in H. exact H.
Qed.




End CurrencyFacts.


(* ================================================================= *)
(** ** Documents only grow *)

(** [d'] is [d] after more drawing calls. *)
Definition extends (d d' : doc) : Prop := exists more, log d' = (log d ++ more)%list.

Section Extends.

Lemma extends_refl (d : doc) : extends d d.
Proof. exists []. now rewrite app_nil_r. Qed.

Lemma extends_trans (a b c : doc) : extends a b -> extends b c -> extends a c.
Proof. intros [x Hx] [y Hy]. exists (x ++ y)%list. now rewrite Hy, Hx, app_assoc. Qed.

Lemma extends_emits (cs : list cmd) (d d' : doc) : extends d d' -> extends d (emits cs d').
Proof.
  intros H. apply (extends_trans H). now exists (map (pair (currentPage d')) cs).
Qed.

Lemma extends_addPage (d d' : doc) : extends d d' -> extends d (addPage d').
Proof. intros [x Hx]. now exists x. Qed.

Lemma extends_setPage (i : nat) (d d' : doc) : extends d d' -> extends d (setPage i d').
Proof. intros [x Hx]. now exists x. Qed.

Lemma extends_In (e : nat * cmd) (d d' : doc) : extends d d' -> In e (log d) -> In e (log d').
Proof. intros [x ->] H. apply in_or_app. now left. Qed.

Lemma In_emits (p : nat) (c : cmd) (cs : list cmd) (d : doc) :
  currentPage d = p -> In c cs -> In (p, c) (log (emits cs d)).
Proof.
  intros <- H. rewrite log_emits. apply in_or_app. right. now apply in_map.
Qed.

Lemma extends_stamp_footers (rt : runtime) (adminName : string) (d : doc) :
  extends d (stamp_footers rt adminName d).
Proof.
  unfold stamp_footers. generalize (numPages d) at 1 as n.
  generalize (seq 1 (numPages d)) as l. intros l; revert d.
  induction l as [|i l IH]; intros d n; cbn; [apply extends_refl|].
  eapply extends_trans; [|apply IH].
  apply extends_emits, extends_setPage, extends_refl.
Qed.

Lemma numPages_stamp_footers (rt : runtime) (adminName : string) (d : doc) :
  numPages (stamp_footers rt adminName d) = numPages d.
Proof.
  unfold stamp_footers.
  assert (H : forall n l d0,
             numPages (fold_left (fun d i => emits (footer_cmds rt adminName i n) (setPage i d))
                                 l d0) = numPages d0).
  { intros n l. induction l as [|i l IH]; intros d0; cbn; [reflexivity|]. now rewrite IH. }
  apply H.
Qed.

End Extends.

(** Steps of a generator that only add calls or pages. *)
Ltac grows :=
  repeat (cbn [ldoc draw advance newPage];
          match goal with
          | |- extends _ _ => apply extends_refl
          | |- extends _ (emits _ _) => apply extends_emits
          | |- extends _ (addPage _) => apply extends_addPage
          | |- extends _ (setPage _ _) => apply extends_setPage
          | |- extends _ (ldoc (if ?b then _ else _)) => destruct b
          | |- extends _ (if ?b then _ else _) => destruct b
          end).

Section PagedRowsGrow.

Variables (R S : Type).
Variable lay_of : S -> layout.
Variable step : nat -> R -> S -> S.
Variables (threshold first_row : Q).
Variable redraw : list cmd.
Variable cmds : nat -> R -> Q -> list cmd.
Variable height : R -> Q.

Hypothesis step_lay : forall i r st,
  lay_of (step i r st)
  = advance (height r)
      (draw (cmds i r (ypos (break_check threshold first_row redraw (lay_of st))))
            (break_check threshold first_row redraw (lay_of st))).

Lemma step_extends (i : nat) (r : R) (st : S) :
  extends (ldoc (lay_of st)) (ldoc (lay_of (step i r st))).
Proof. rewrite step_lay. unfold break_check. grows. Qed.

Lemma forEach_extends (rows : list R) :
  forall (i : nat) (st : S),
    extends (ldoc (lay_of st)) (ldoc (lay_of (forEach_from step i rows st))).
Proof.
  induction rows as [|r rows IH]; intros i st; cbn; [apply extends_refl|].
  eapply extends_trans; [apply step_extends | apply IH].
Qed.

End PagedRowsGrow.

(* ================================================================= *)
(** ** The four row loops are instances of the shared shape *)

Section Instances.

Variable rt : runtime.

Definition sales_redraw : list cmd :=
  (SalesReport.drawTableHeaders rt 20 ++ [SetFont Normal; SetFontSize 8])%list.

Lemma sales_page_break (l : layout) :
  SalesReport.page_break rt l = break_check 270 (20 + 8) sales_redraw l.
Proof.
  unfold SalesReport.page_break, break_check.
  destruct (Qgtb (ypos l) 270); [|reflexivity].
  unfold draw, advance, newPage; cbn [ldoc ypos]. now rewrite emits_emits.
Qed.

Lemma sales_step_lay (i : nat) (r : SalesReport.row) (st : SalesReport.rows_state) :
  SalesReport.lay (SalesReport.row_step rt i r st)
  = advance 6
      (draw (SalesReport.row_cmds rt i r
               (ypos (break_check 270 (20 + 8) sales_redraw (SalesReport.lay st))))
            (break_check 270 (20 + 8) sales_redraw (SalesReport.lay st))).
Proof. unfold SalesReport.row_step. cbn [SalesReport.lay]. now rewrite sales_page_break. Qed.

Definition returns_redraw : list cmd :=
  (ReturnsReport.drawTableHeaders rt 20 ++ [SetFont Normal; SetFontSize 8])%list.

Lemma returns_page_break (l : layout) :
  ReturnsReport.page_break rt l = break_check 270 (20 + 8) returns_redraw l.
Proof.
  unfold ReturnsReport.page_break, break_check.
  destruct (Qgtb (ypos l) 270); [|reflexivity].
  unfold draw, advance, newPage; cbn [ldoc ypos]. now rewrite emits_emits.
Qed.

Lemma returns_step_lay (i : nat) (r : ReturnsReport.item) (st : ReturnsReport.rows_state) :
  ReturnsReport.lay (ReturnsReport.row_step rt i r st)
  = advance 6
      (draw (ReturnsReport.row_cmds rt i r
               (ypos (break_check 270 (20 + 8) returns_redraw (ReturnsReport.lay st))))
            (break_check 270 (20 + 8) returns_redraw (ReturnsReport.lay st))).
Proof.
  unfold ReturnsReport.row_step. cbn [ReturnsReport.lay]. now rewrite returns_page_break.
Qed.

Definition inventory_redraw : list cmd :=
  ((SetFont Bold :: InventoryReport.header_labels 20)
     ++ [Line 15 (20 + 3) (pageWidth_mm rt - 15) (20 + 3)]
     ++ [SetFont Normal; SetFontSize 8])%list.

Lemma inventory_page_break (l : layout) :
  InventoryReport.page_break rt l = break_check 270 (20 + 3 + 5) inventory_redraw l.
Proof.
  unfold InventoryReport.page_break, break_check.
  destruct (Qgtb (ypos l) 270); [|reflexivity].
  unfold draw, advance, newPage; cbn [ldoc ypos]. now rewrite !emits_emits.
Qed.

Lemma inventory_step_lay (i : nat) (r : InventoryReport.item) (l : layout) :
  InventoryReport.row_step rt i r l
  = advance 6
      (draw (InventoryReport.row_cmds rt i r
               (ypos (break_check 270 (20 + 3 + 5) inventory_redraw l)))
            (break_check 270 (20 + 3 + 5) inventory_redraw l)).
Proof. unfold InventoryReport.row_step. now rewrite inventory_page_break. Qed.

Lemma emits_nil (d : doc) : emits [] d = d.
Proof. destruct d. unfold emits; cbn. now rewrite app_nil_r. Qed.

Lemma receipt_page_break (l : layout) :
  Receipt.page_break l = break_check 750 Receipt.margin [] l.
Proof.
  unfold Receipt.page_break, break_check.
  destruct (Qgtb (ypos l) 750); [|reflexivity].
  unfold newPage. now rewrite emits_nil.
Qed.

Lemma receipt_step_lay (i : nat) (r : Receipt.item) (l : layout) :
  Receipt.row_step rt i r l
  = advance (Receipt.rowHeight rt r)
      (draw (Receipt.row_cmds rt r (ypos (break_check 750 Receipt.margin [] l)))
            (break_check 750 Receipt.margin [] l)).
Proof. unfold Receipt.row_step. now rewrite receipt_page_break. Qed.

End Instances.

(* ================================================================= *)
(** ** Truncation and fallback texts *)

(** [out] is [s] cut to a column of [n] characters: the first [n]
    characters and an ellipsis when [s] is longer, [s] itself otherwise. *)
Definition truncated_to (n : nat) (s out : string) : Prop :=
  ((n < String.length s)%nat ->
     exists pre rest, s = pre ++ rest /\ String.length pre = n /\ out = pre ++ "...")
  /\ ((String.length s <= n)%nat -> out = s).

(** An optional field that is absent, [null] or the empty string. *)
Definition missing (t : jstext) : Prop := t = TUndefined \/ t = TNull \/ t = TStr "".

Section TextFacts.

Lemma cut_truncated (n : nat) (s : string) :
  truncated_to n s (if (n <? String.length s)%nat then substring 0 n s ++ "..." else s).
Proof.
  split; intros H.
  - replace (n <? String.length s)%nat with true by (symmetry; apply Nat.ltb_lt; lia).
    destruct (@substring_prefix n s) as [Hl [rest Hr]]; [lia|].
    exists (substring 0 n s), rest. auto.
  - replace (n <? String.length s)%nat with false by (symmetry; apply Nat.ltb_ge; lia).
    reflexivity.
Qed.

Lemma text_or_nonempty (s d : string) : s <> "" -> text_or (TStr s) d = s.
Proof. intros H. cbn. destruct (String.eqb_spec s ""); [contradiction | reflexivity]. Qed.

Lemma text_or_missing (t : jstext) (d : string) : missing t -> text_or t d = d.
Proof. intros [-> | [-> | ->]]; reflexivity. Qed.

Lemma opt_length_gt_missing (t : jstext) (n : nat) : missing t -> opt_length_gt t n = false.
Proof. intros [-> | [-> | ->]]; reflexivity. Qed.

Lemma returns_customerName_text (s : string) :
  s <> "" -> truncated_to 20 s (ReturnsReport.customerName (TStr s)).
Proof.
  intros H. unfold ReturnsReport.customerName, opt_length_gt. cbn [opt_length].
  rewrite (text_or_nonempty "N/A" H). apply cut_truncated.
Qed.

Lemma returns_reason_text (s : string) :
  s <> "" -> truncated_to 15 s (ReturnsReport.reason (TStr s)).
Proof.
  intros H. unfold ReturnsReport.reason, opt_length_gt. cbn [opt_length].
  rewrite (text_or_nonempty "N/A" H). apply cut_truncated.
Qed.

End TextFacts.

(** C6, as stated, fails: the empty customer name is within the limit of
    twenty characters, and the returns report does not render it
    unchanged. *)
Lemma empty_field_is_replaced :
  (String.length "" <= 20)%nat
  /\ ReturnsReport.customerName (TStr "") <> ""
  /\ forall y, In (Text "N/A" ReturnsReport.col_customer y ALeft)
                  (ReturnsReport.row_cmds Sample.rt 1
                     {| ReturnsReport.return_id := "R-1";
                        ReturnsReport.sale_number := "SL-1";
                        ReturnsReport.customer_name := TStr "";
                        ReturnsReport.return_date := TStr "2025-11-01";
                        ReturnsReport.return_reason := TStr "Defective/Damaged";
                        ReturnsReport.refund_amount := JNum 10;
                        ReturnsReport.restocked := false |} y).
Proof.
  split; [cbn; lia|]. split; [discriminate|].
  intros y. cbn. tauto.
Qed.

(** C6, amended.  The product name is cut to 30 characters in the sales
    report and to 35 in the inventory report, the customer name to 20 and
    the return reason to 15 in the returns report: a longer text is shown
    as its first characters up to the limit followed by ["..."], a text
    within the limit is shown unchanged, except that an empty customer
    name or return reason is shown as ["N/A"].  These are the texts the
    row loops draw in those columns. *)
Theorem truncation_limits (rt : runtime) (s : string) :
  truncated_to 30 s (SalesReport.truncated_productName s)
  /\ truncated_to 35 s (InventoryReport.truncated_productName s)
  /\ (s <> "" ->
        truncated_to 20 s (ReturnsReport.customerName (TStr s))
        /\ truncated_to 15 s (ReturnsReport.reason (TStr s)))
  /\ ReturnsReport.customerName (TStr "") = "N/A"
  /\ ReturnsReport.reason (TStr "") = "N/A"
  /\ (forall i r y,
        In (Text (SalesReport.truncated_productName (SalesReport.r_productName r))
                 SalesReport.col_productName y ALeft)
           (SalesReport.row_cmds rt i r y))
  /\ (forall i r y,
        In (Text (InventoryReport.truncated_productName (InventoryReport.productName r))
                 InventoryReport.col_productName y ALeft)
           (InventoryReport.row_cmds rt i r y))
  /\ (forall i r y,
        In (Text (ReturnsReport.customerName (ReturnsReport.customer_name r))
                 ReturnsReport.col_customer y ALeft)
           (ReturnsReport.row_cmds rt i r y)
        /\ In (Text (ReturnsReport.reason (ReturnsReport.return_reason r))
                    ReturnsReport.col_reason y ALeft)
              (ReturnsReport.row_cmds rt i r y)).
Proof.
  split; [apply cut_truncated|]. split; [apply cut_truncated|].
  split; [intros H; split; [now apply returns_customerName_text
                           | now apply returns_reason_text]|].
  split; [reflexivity|]. split; [reflexivity|].
  split; [|split].
  - intros i r y. unfold SalesReport.row_cmds. apply in_or_app. right. cbn. tauto.
  - intros i r y. unfold InventoryReport.row_cmds. apply in_or_app. right. cbn. tauto.
  - intros i r y. unfold ReturnsReport.row_cmds.
    split; apply in_or_app; right; cbn; tauto.
Qed.

(** A customer name of 23 characters in the returns report. *)
Lemma truncation_limits_witness :
  "Maria Clara de los Santos" <> ""
  /\ truncated_to 20 "Maria Clara de los Santos"
       (ReturnsReport.customerName (TStr "Maria Clara de los Santos")).
Proof.
  split; [discriminate|].
  apply (proj1 (proj2 (proj2 (truncation_limits Sample.rt "Maria Clara de los Santos")))).
  discriminate.
Defined.

(* ================================================================= *)
(** ** The receipt, phase by phase *)

Section ReceiptFacts.

Variable rt : runtime.

Lemma receipt_header_page (l : layout) :
  currentPage (ldoc (Receipt.header rt l)) = currentPage (ldoc l)
  /\ numPages (ldoc (Receipt.header rt l)) = numPages (ldoc l).
Proof. unfold Receipt.header. destruct (logoLoaded rt); split; reflexivity. Qed.

Lemma receipt_rows_extend (rows : list Receipt.item) (l : layout) :
  extends (ldoc l) (ldoc (Receipt.table_rows rt rows l)).
Proof.
  unfold Receipt.table_rows, forEach.
  apply (@forEach_extends _ _ (fun l : layout => l) (Receipt.row_step rt)
           750 Receipt.margin [] (fun _ r y => Receipt.row_cmds rt r y)
           (Receipt.rowHeight rt) (receipt_step_lay rt)).
Qed.

Lemma receipt_totals_extend (s : Receipt.sale) (l : layout) :
  extends (ldoc l) (ldoc (Receipt.totals_block rt s l)).
Proof. unfold Receipt.totals_block. grows. Qed.

Lemma receipt_table_head_extend (l : layout) :
  extends (ldoc l) (ldoc (Receipt.table_head rt l)).
Proof. unfold Receipt.table_head. grows. Qed.

(** Whatever the information panels drew stays in the finished receipt. *)
Lemma receipt_keeps_panels (s : Receipt.sale) :
  extends (ldoc (Receipt.info_panels rt s
                   (Receipt.header rt {| ldoc := newDoc; ypos := Receipt.margin |})))
          (Receipt.generateSaleReceipt rt s).
Proof.
  unfold Receipt.generateSaleReceipt, Receipt.before_rows.
  eapply extends_trans; [apply receipt_table_head_extend|].
  eapply extends_trans; [apply receipt_rows_extend|].
  apply receipt_totals_extend.
Qed.

Lemma receipt_panel_texts (s : Receipt.sale) :
  let y := ypos (Receipt.header rt {| ldoc := newDoc; ypos := Receipt.margin |}) in
  let w := Receipt.contentWidth rt / 2 - 10 - 70 in
  let d := Receipt.generateSaleReceipt rt s in
  In (1%nat, Text "Customer:" Receipt.margin (y + Receipt.LINE_HEIGHT) ALeft) (log d)
  /\ In (1%nat, Text (Receipt.customer_text (Receipt.customerName s))
                     (Receipt.margin + 70) (y + Receipt.LINE_HEIGHT) ALeft) (log d)
  /\ In (1%nat, Text "Address:" Receipt.margin (y + Receipt.LINE_HEIGHT * 2) ALeft) (log d)
  /\ In (1%nat, TextLines
                  (splitTextToSize rt
                     (Receipt.address_text (Receipt.address s) (Receipt.shippingOption s)) w)
                  (Receipt.margin + 70) (y + Receipt.LINE_HEIGHT * 2)) (log d).
Proof.
  cbn zeta.
  pose proof (receipt_keeps_panels s) as E.
  pose proof (proj1 (receipt_header_page {| ldoc := newDoc; ypos := Receipt.margin |})) as P.
  cbn [ldoc currentPage newDoc] in P.
  repeat split; apply (extends_In _ E); unfold Receipt.info_panels; cbn [ldoc draw];
    (apply In_emits; [exact P | cbn; tauto]).
Qed.

End ReceiptFacts.


(* ================================================================= *)
(** ** Where a row is drawn *)

(** C1, as stated, fails: in the report of 38 rows the last row is drawn
    on page 1 with the cursor at 267, and 267 plus the row height of 6
    is past the threshold of 270; no page was started before it. *)
Lemma row_drawn_past_threshold :
  nth_error (log Samples.report38) 280 = Some (1%nat, Text "Z" 50 267 ALeft)
  /\ nth_error (log Samples.report38) 283
     = Some (1%nat, Text "PHP 10.00" SalesReport.col_totalSales 267 ALeft)
  /\ Qgtb (267 + 6) 270 = true.
Proof. vm_compute. repeat split. Qed.

(** What the loop body does with one row, in the shared shape. *)
Lemma paged_row {R S : Type} (lay_of : S -> layout) (step : nat -> R -> S -> S)
  (threshold first_row : Q) (redraw : list cmd) (cmds : nat -> R -> Q -> list cmd)
  (height : R -> Q) :
  (forall i r st,
     lay_of (step i r st)
     = advance (height r)
         (draw (cmds i r (ypos (break_check threshold first_row redraw (lay_of st))))
               (break_check threshold first_row redraw (lay_of st)))) ->
  first_row <= threshold ->
  forall (rows : list R) (r : R) (st0 : S),
    let st := forEach step rows st0 in
    let l1 := break_check threshold first_row redraw (lay_of st) in
    let st' := forEach step (rows ++ [r]) st0 in
    (if Qgtb (ypos (lay_of st)) threshold
     then currentPage (ldoc l1) = Datatypes.S (numPages (ldoc (lay_of st)))
          /\ ypos l1 = first_row
     else l1 = lay_of st)
    /\ ypos l1 <= threshold
    /\ log (ldoc (lay_of st'))
       = (log (ldoc l1)
            ++ map (pair (currentPage (ldoc l1))) (cmds (List.length rows) r (ypos l1)))%list
    /\ ypos (lay_of st') = ypos l1 + height r.
Proof.
  intros Hstep Hfit rows r st0 st l1 st'.
  assert (E : st' = step (List.length rows) r st) by apply forEach_snoc.
  pose proof (@break_check_pages threshold first_row redraw (lay_of st)) as P.
  pose proof (@break_check_le threshold first_row redraw Hfit (lay_of st)) as L.
  pose proof (@step_log _ _ lay_of step threshold first_row redraw cmds height Hstep
                (List.length rows) r st) as [G1 G2].
  rewrite <- E in G1, G2. fold l1 in P, L, G1, G2.
  split; [|split; [exact L | split; [exact G1 | exact G2]]].
  destruct (Qgtb (ypos (lay_of st)) threshold); [|exact P]. tauto.
Qed.

(** C1, amended.  Before a row is drawn, a new page is started exactly
    when the cursor alone is past the threshold (270 in the sales,
    returns and inventory reports, 750 in the receipt); the height of
    the row plays no part in the check.  The row is then drawn with the
    cursor no further down than the threshold, all of its calls go to
    one page, and the cursor advances by the row height: 6 in the
    reports, so that a row ends at 276 at most, and the computed
    [rowHeight] in the receipt. *)
Theorem rows_break_on_cursor_only (rt : runtime) :
  (forall (rows : list SalesReport.row) (r : SalesReport.row) (l0 : layout),
     let st := SalesReport.table_rows rt rows l0 in
     let l1 := SalesReport.page_break rt (SalesReport.lay st) in
     let st' := SalesReport.table_rows rt (rows ++ [r]) l0 in
     (if Qgtb (ypos (SalesReport.lay st)) 270
      then currentPage (ldoc l1) = S (numPages (ldoc (SalesReport.lay st)))
           /\ ypos l1 = 20 + 8
      else l1 = SalesReport.lay st)
     /\ ypos l1 <= 270
     /\ log (ldoc (SalesReport.lay st'))
        = (log (ldoc l1)
             ++ map (pair (currentPage (ldoc l1)))
                    (SalesReport.row_cmds rt (List.length rows) r (ypos l1)))%list
     /\ ypos (SalesReport.lay st') = ypos l1 + 6
     /\ ypos (SalesReport.lay st') <= 276)
  /\ (forall (rows : list ReturnsReport.item) (r : ReturnsReport.item) (l0 : layout),
        let st := ReturnsReport.table_rows rt rows l0 in
        let l1 := ReturnsReport.page_break rt (ReturnsReport.lay st) in
        let st' := ReturnsReport.table_rows rt (rows ++ [r]) l0 in
        (if Qgtb (ypos (ReturnsReport.lay st)) 270
         then currentPage (ldoc l1) = S (numPages (ldoc (ReturnsReport.lay st)))
              /\ ypos l1 = 20 + 8
         else l1 = ReturnsReport.lay st)
        /\ ypos l1 <= 270
        /\ log (ldoc (ReturnsReport.lay st'))
           = (log (ldoc l1)
                ++ map (pair (currentPage (ldoc l1)))
                       (ReturnsReport.row_cmds rt (List.length rows) r (ypos l1)))%list
        /\ ypos (ReturnsReport.lay st') = ypos l1 + 6
        /\ ypos (ReturnsReport.lay st') <= 276)
  /\ (forall (rows : list InventoryReport.item) (r : InventoryReport.item) (l0 : layout),
        let l := InventoryReport.table_rows rt rows l0 in
        let l1 := InventoryReport.page_break rt l in
        let l' := InventoryReport.table_rows rt (rows ++ [r]) l0 in
        (if Qgtb (ypos l) 270
         then currentPage (ldoc l1) = S (numPages (ldoc l))
              /\ ypos l1 = 20 + 3 + 5
         else l1 = l)
        /\ ypos l1 <= 270
        /\ log (ldoc l')
           = (log (ldoc l1)
                ++ map (pair (currentPage (ldoc l1)))
                       (InventoryReport.row_cmds rt (List.length rows) r (ypos l1)))%list
        /\ ypos l' = ypos l1 + 6
        /\ ypos l' <= 276)
  /\ (forall (rows : list Receipt.item) (r : Receipt.item) (l0 : layout),
        let l := Receipt.table_rows rt rows l0 in
        let l1 := Receipt.page_break l in
        let l' := Receipt.table_rows rt (rows ++ [r]) l0 in
        (if Qgtb (ypos l) 750
         then currentPage (ldoc l1) = S (numPages (ldoc l))
              /\ ypos l1 = Receipt.margin
         else l1 = l)
        /\ ypos l1 <= 750
        /\ log (ldoc l')
           = (log (ldoc l1)
                ++ map (pair (currentPage (ldoc l1))) (Receipt.row_cmds rt r (ypos l1)))%list
        /\ ypos l' = ypos l1 + Receipt.rowHeight rt r).
Proof.
  assert (F : 20 + 8 <= 270) by (unfold Qle; cbn; lia).
  assert (F' : 20 + 3 + 5 <= 270) by (unfold Qle; cbn; lia).
  assert (M : Receipt.margin <= 750) by (unfold Qle; cbn; lia).
  split; [|split; [|split]].
  - intros rows r l0 st l1 st'. subst l1. rewrite sales_page_break.
    destruct (paged_row SalesReport.lay (SalesReport.row_step rt) (sales_redraw rt)
                (SalesReport.row_cmds rt) (fun _ => 6) (sales_step_lay rt) F rows r
                {| SalesReport.lay := l0; SalesReport.grandTotal := 0 |})
      as (H1 & H2 & H3 & H4).
    split; [exact H1|]. split; [exact H2|]. split; [exact H3|]. split; [exact H4|].
    unfold st', SalesReport.table_rows. rewrite H4. cbn beta. lra.
  - intros rows r l0 st l1 st'. subst l1. rewrite returns_page_break.
    destruct (paged_row ReturnsReport.lay (ReturnsReport.row_step rt) (returns_redraw rt)
                (ReturnsReport.row_cmds rt) (fun _ => 6) (returns_step_lay rt) F rows r
                {| ReturnsReport.lay := l0; ReturnsReport.totalRefundAmount := 0 |})
      as (H1 & H2 & H3 & H4).
    split; [exact H1|]. split; [exact H2|]. split; [exact H3|]. split; [exact H4|].
    unfold st', ReturnsReport.table_rows. rewrite H4. cbn beta. lra.
  - intros rows r l0 l l1 l'. subst l1. rewrite inventory_page_break.
    destruct (paged_row (fun x : layout => x) (InventoryReport.row_step rt)
                (inventory_redraw rt) (InventoryReport.row_cmds rt) (fun _ => 6)
                (inventory_step_lay rt) F' rows r l0)
      as (H1 & H2 & H3 & H4).
    split; [exact H1|]. split; [exact H2|]. split; [exact H3|]. split; [exact H4|].
    unfold l', InventoryReport.table_rows. rewrite H4. cbn beta. lra.
  - intros rows r l0 l l1 l'. subst l1. rewrite receipt_page_break.
    destruct (paged_row (fun x : layout => x) (Receipt.row_step rt) []
                (fun _ it y => Receipt.row_cmds rt it y) (Receipt.rowHeight rt)
                (receipt_step_lay rt) M rows r l0)
      as (H1 & H2 & H3 & H4).
    split; [exact H1|]. split; [exact H2|]. split; [exact H3 | exact H4].
Qed.

(* ================================================================= *)
(** ** Pages started by a row loop *)

Section PageFacts.

Lemma extends_page_cmds (p : nat) (d d' : doc) :
  extends d d' -> exists more, page_cmds p d' = (page_cmds p d ++ more)%list.
Proof.
  intros [x Hx]. unfold page_cmds. rewrite Hx, filter_app, map_app. eauto.
Qed.

Lemma begins_with_extends (b : list cmd) (p : nat) (d d' : doc) :
  extends d d' -> begins_with b (page_cmds p d) -> begins_with b (page_cmds p d').
Proof.
  intros E H. destruct (extends_page_cmds p E) as [more ->].
  now apply begins_with_app.
Qed.

Lemma begins_with_shorter (a b l : list cmd) :
  begins_with (a ++ b)%list l -> begins_with a l.
Proof. intros [r ->]. exists (b ++ r)%list. now rewrite app_assoc. Qed.

Lemma loop_inv_new (redraw : list cmd) : loop_inv redraw 1 newDoc.
Proof.
  split; [apply pages_bounded_new|]. split; [reflexivity|]. split; [cbn; lia|].
  cbn. intros p Hp. lia.
Qed.

End PageFacts.

(** The invariant of a row loop holds after any sequence of drawing
    calls on a fresh document. *)
Ltac keeps_inv :=
  repeat (cbn [ldoc draw advance];
          match goal with
          | |- loop_inv _ _ newDoc => apply loop_inv_new
          | |- loop_inv _ _ (emits _ _) => apply loop_inv_emits
          | |- loop_inv _ _ (ldoc (if ?b then _ else _)) => destruct b
          end).

Section ReportPages.

Variable rt : runtime.

Definition fresh : layout := {| ldoc := newDoc; ypos := 20 |}.

Lemma sales_rows_inv (rows : list SalesReport.row) (a b c : string) :
  loop_inv (sales_redraw rt) 1
    (ldoc (SalesReport.lay
             (SalesReport.table_rows rt rows
                (SalesReport.table_head rt (SalesReport.header rt a b c fresh))))).
Proof.
  unfold SalesReport.table_rows, forEach.
  apply (@loop_inv_forEach _ _ SalesReport.lay (SalesReport.row_step rt) 270 (20 + 8)
           (sales_redraw rt) (SalesReport.row_cmds rt) (fun _ => 6) (sales_step_lay rt)).
  cbn [SalesReport.lay]. unfold SalesReport.table_head, SalesReport.header, fresh.
  keeps_inv.
Qed.

Lemma sales_rows_extend (rows : list SalesReport.row) (l : layout) :
  extends (ldoc l) (ldoc (SalesReport.lay (SalesReport.table_rows rt rows l))).
Proof.
  unfold SalesReport.table_rows, forEach.
  apply (@forEach_extends _ _ SalesReport.lay (SalesReport.row_step rt) 270 (20 + 8)
           (sales_redraw rt) (SalesReport.row_cmds rt) (fun _ => 6) (sales_step_lay rt)).
Qed.

Lemma sales_grand_total_extend (st : SalesReport.rows_state) :
  extends (ldoc (SalesReport.lay st)) (ldoc (SalesReport.grand_total_block rt st)).
Proof. unfold SalesReport.grand_total_block. grows. Qed.

Lemma sales_summary_extend (sd : option (list SalesReport.order))
  (rows : list SalesReport.row) (l : layout) :
  extends (ldoc l) (ldoc (SalesReport.summary_block rt sd rows l)).
Proof. unfold SalesReport.summary_block. grows. Qed.

Lemma sales_head_extend (l : layout) : extends (ldoc l) (ldoc (SalesReport.table_head rt l)).
Proof. unfold SalesReport.table_head. grows. Qed.

(** The finished report keeps everything the row loop drew. *)
Lemma sales_keeps_rows (sd : option (list SalesReport.order)) (a b n c : string) :
  extends (ldoc (SalesReport.lay
                   (SalesReport.table_rows rt (SalesReport.flattenedData rt sd)
                      (SalesReport.table_head rt (SalesReport.header rt a b c fresh)))))
          (SalesReport.generateSalesReportPDF rt sd a b n c).
Proof.
  unfold SalesReport.generateSalesReportPDF, SalesReport.body. fold fresh.
  eapply extends_trans; [apply sales_grand_total_extend|].
  eapply extends_trans; [apply sales_summary_extend|].
  apply extends_stamp_footers.
Qed.

Lemma returns_rows_inv (rows : list ReturnsReport.item) (a b : jstext) :
  loop_inv (returns_redraw rt) 1
    (ldoc (ReturnsReport.lay
             (ReturnsReport.table_rows rt rows
                (ReturnsReport.table_head rt (ReturnsReport.header rt a b fresh))))).
Proof.
  unfold ReturnsReport.table_rows, forEach.
  apply (@loop_inv_forEach _ _ ReturnsReport.lay (ReturnsReport.row_step rt) 270 (20 + 8)
           (returns_redraw rt) (ReturnsReport.row_cmds rt) (fun _ => 6) (returns_step_lay rt)).
  cbn [ReturnsReport.lay]. unfold ReturnsReport.table_head, ReturnsReport.header, fresh.
  keeps_inv.
Qed.

Lemma returns_keeps_rows (rows : list ReturnsReport.item) (a b : jstext) (n : string) :
  extends (ldoc (ReturnsReport.lay
                   (ReturnsReport.table_rows rt rows
                      (ReturnsReport.table_head rt (ReturnsReport.header rt a b fresh)))))
          (ReturnsReport.generateReturnsReportPDF rt rows a b n).
Proof.
  unfold ReturnsReport.generateReturnsReportPDF, ReturnsReport.body. fold fresh.
  eapply extends_trans; [|apply extends_stamp_footers].
  unfold ReturnsReport.summary_block. grows.
Qed.

Lemma inventory_rows_inv (rows : list InventoryReport.item) (a b : jstext) :
  loop_inv (inventory_redraw rt) 1
    (ldoc (InventoryReport.table_rows rt rows
             (InventoryReport.table_head rt (InventoryReport.header rt a b fresh)))).
Proof.
  unfold InventoryReport.table_rows, forEach.
  apply (@loop_inv_forEach _ _ (fun l : layout => l) (InventoryReport.row_step rt)
           270 (20 + 3 + 5) (inventory_redraw rt) (InventoryReport.row_cmds rt)
           (fun _ => 6) (inventory_step_lay rt)).
  unfold InventoryReport.table_head, InventoryReport.header, fresh.
  keeps_inv.
Qed.

Lemma inventory_keeps_rows (rows : list InventoryReport.item) (a b : jstext) (n : string) :
  extends (ldoc (InventoryReport.table_rows rt rows
                   (InventoryReport.table_head rt (InventoryReport.header rt a b fresh))))
          (InventoryReport.generateInventoryReportPDF rt rows a b n).
Proof.
  unfold InventoryReport.generateInventoryReportPDF, InventoryReport.body. fold fresh.
  eapply extends_trans; [|apply extends_stamp_footers].
  unfold InventoryReport.summary_block. grows.
Qed.

End ReportPages.

(** The calls of page [p] contain the block [b]. *)
Definition page_has_block (b : list cmd) (p : nat) (d : doc) : Prop :=
  exists pre post, page_cmds p d = (pre ++ b ++ post)%list.

Section HeaderBlocks.

Variable rt : runtime.

Lemma page_has_block_extends (b : list cmd) (p : nat) (d d' : doc) :
  extends d d' -> page_has_block b p d -> page_has_block b p d'.
Proof.
  intros E (pre & post & H). destruct (extends_page_cmds p E) as [more Hm].
  exists pre, (post ++ more)%list. now rewrite Hm, H, <- !app_assoc.
Qed.

Lemma sales_header_page (a b c : string) (l : layout) :
  currentPage (ldoc (SalesReport.header rt a b c l)) = currentPage (ldoc l).
Proof. unfold SalesReport.header. now destruct (logoLoaded rt). Qed.

Lemma returns_header_page (a b : jstext) (l : layout) :
  currentPage (ldoc (ReturnsReport.header rt a b l)) = currentPage (ldoc l).
Proof. unfold ReturnsReport.header. now destruct (logoLoaded rt). Qed.

Lemma inventory_header_page (a b : jstext) (l : layout) :
  currentPage (ldoc (InventoryReport.header rt a b l)) = currentPage (ldoc l).
Proof. unfold InventoryReport.header. now destruct (logoLoaded rt). Qed.

Lemma sales_head_block (l : layout) :
  currentPage (ldoc l) = 1%nat ->
  page_has_block (SalesReport.drawTableHeaders rt (ypos l)) 1 (ldoc (SalesReport.table_head rt l)).
Proof.
  intros H. unfold SalesReport.table_head, page_has_block, draw, advance; cbn [ldoc ypos].
  rewrite !page_cmds_emits. cbn [currentPage emits]. rewrite H. cbn [Nat.eqb].
  exists (page_cmds 1 (ldoc l) ++ [SetFontSize 9; SetFont Bold])%list,
         [SetFont Normal; SetFontSize 8].
  now rewrite <- !app_assoc.
Qed.

Lemma returns_head_block (l : layout) :
  currentPage (ldoc l) = 1%nat ->
  page_has_block (ReturnsReport.drawTableHeaders rt (ypos l)) 1
                 (ldoc (ReturnsReport.table_head rt l)).
Proof.
  intros H. unfold ReturnsReport.table_head, page_has_block, draw, advance; cbn [ldoc ypos].
  rewrite !page_cmds_emits. cbn [currentPage emits]. rewrite H. cbn [Nat.eqb].
  exists (page_cmds 1 (ldoc l)), [SetFont Normal; SetFontSize 8].
  now rewrite <- !app_assoc.
Qed.

Lemma inventory_head_block (l : layout) :
  currentPage (ldoc l) = 1%nat ->
  page_has_block
    (InventoryReport.header_labels (ypos l)
       ++ [SetLineWidth (1 # 2);
           Line 15 (ypos l + 3) (pageWidth_mm rt - 15) (ypos l + 3)])%list
    1 (ldoc (InventoryReport.table_head rt l)).
Proof.
  intros H. unfold InventoryReport.table_head, page_has_block, draw, advance; cbn [ldoc ypos].
  rewrite !page_cmds_emits. cbn [currentPage emits]. rewrite H. cbn [Nat.eqb].
  exists (page_cmds 1 (ldoc l) ++ [SetFont Bold; SetFontSize 9])%list,
         [SetFont Normal; SetFontSize 8].
  rewrite <- !app_assoc. reflexivity.
Qed.

End HeaderBlocks.

(** Whether a text [s] is drawn among the calls [cs]. *)
Definition has_text (s : string) (cs : list cmd) : bool :=
  existsb (fun c => match c with
                    | Text t _ _ _ => t =? s
                    | _ => false
                    end) cs.

Lemma begins_with_hd (b l : list cmd) (c : cmd) :
  begins_with b l -> hd_error b = Some c -> hd_error l = Some c.
Proof. intros [rest ->] H. destruct b; [discriminate | exact H]. Qed.

(** C3, as stated, fails: the report of 38 rows has a second page, which
    was started for the Grand Total row; it begins with the separator
    line of that row and carries no column header at all. *)
Lemma summary_page_has_no_header :
  numPages Samples.report38 = 2%nat
  /\ hd_error (page_cmds 2 Samples.report38) = Some (SetLineWidth (1 # 2))
  /\ has_text "Date" (page_cmds 2 Samples.report38) = false
  /\ has_text "Grand Total:" (page_cmds 2 Samples.report38) = true
  /\ forall y, ~ begins_with (SalesReport.drawTableHeaders Sample.rt y)
                             (page_cmds 2 Samples.report38).
Proof.
  assert (H : hd_error (page_cmds 2 Samples.report38) = Some (SetLineWidth (1 # 2)))
    by (vm_compute; reflexivity).
  split; [vm_compute; reflexivity|]. split; [exact H|].
  split; [vm_compute; reflexivity|]. split; [vm_compute; reflexivity|].
  intros y B.
  pose proof (begins_with_hd B (c := SetFont Bold) eq_refl) as C.
  rewrite H in C. discriminate.
Qed.

(** The continuation page of a receipt of 24 items begins with an item
    row: the receipt redraws no column header either. *)
Lemma receipt_page_has_no_header :
  numPages Samples.receipt24 = 2%nat
  /\ hd_error (page_cmds 2 Samples.receipt24) = Some (SetFont Normal)
  /\ has_text "Item Description" (page_cmds 2 Samples.receipt24) = false
  /\ forall y, ~ begins_with (Receipt.table_header_cmds Sample.rt y)
                             (page_cmds 2 Samples.receipt24).
Proof.
  assert (H : hd_error (page_cmds 2 Samples.receipt24) = Some (SetFont Normal))
    by (vm_compute; reflexivity).
  split; [vm_compute; reflexivity|]. split; [exact H|].
  split; [vm_compute; reflexivity|].
  intros y B.
  pose proof (begins_with_hd B (c := SetFillColor 241 243 245) eq_refl) as C.
  rewrite H in C. discriminate.
Qed.

(** The font size set by the latest [setFontSize] among the first [k]
    calls. *)
Definition size_in_force (k : nat) (d : doc) : option Q :=
  fold_left (fun acc e => match snd e with
                          | SetFontSize n => Some n
                          | _ => acc
                          end) (firstn k (log d)) None.

(** A remark on the sales report: [drawTableHeaders] sets no font size,
    so the header of page 1 is drawn at size 9 and the redrawn one at
    the size 8 of the rows. *)
Lemma redrawn_header_font_size :
  let d := SalesReport.generateSalesReportPDF Sample.rt Samples.orders45 "a" "b" "me" "Daily" in
  nth_error (log d) 9 = Some (1%nat, Text "Date" 15 37 ALeft)
  /\ size_in_force 9 d = Some 9
  /\ nth_error (log d) 285 = Some (2%nat, Text "Date" 15 20 ALeft)
  /\ size_in_force 285 d = Some 8.
Proof. vm_compute. repeat split. Qed.

(** C3, amended.  In the sales, returns and inventory reports page 1
    carries the column-header block, and every page that the row loop
    starts (every page after the first up to the last page holding a data
    row) begins with that block redrawn at the top margin: the same
    labels at the same x-positions and the separator line beneath.  A
    page started after the rows, for the totals or the summary, is not
    covered. *)
Theorem row_pages_repeat_header (rt : runtime) :
  (forall (sd : option (list SalesReport.order)) (a b n c : string) (p : nat),
     let st := SalesReport.table_rows rt (SalesReport.flattenedData rt sd)
                 (SalesReport.table_head rt (SalesReport.header rt a b c fresh)) in
     let d := SalesReport.generateSalesReportPDF rt sd a b n c in
     page_has_block (SalesReport.drawTableHeaders rt (ypos (SalesReport.header rt a b c fresh)))
                    1 d
     /\ ((2 <= p <= numPages (ldoc (SalesReport.lay st)))%nat ->
         begins_with (SalesReport.drawTableHeaders rt 20) (page_cmds p d)))
  /\ (forall (rows : list ReturnsReport.item) (a b : jstext) (n : string) (p : nat),
        let st := ReturnsReport.table_rows rt rows
                    (ReturnsReport.table_head rt (ReturnsReport.header rt a b fresh)) in
        let d := ReturnsReport.generateReturnsReportPDF rt rows a b n in
        page_has_block (ReturnsReport.drawTableHeaders rt (ypos (ReturnsReport.header rt a b fresh)))
                       1 d
        /\ ((2 <= p <= numPages (ldoc (ReturnsReport.lay st)))%nat ->
            begins_with (ReturnsReport.drawTableHeaders rt 20) (page_cmds p d)))
  /\ (forall (rows : list InventoryReport.item) (a b : jstext) (n : string) (p : nat),
        let l := InventoryReport.table_rows rt rows
                   (InventoryReport.table_head rt (InventoryReport.header rt a b fresh)) in
        let d := InventoryReport.generateInventoryReportPDF rt rows a b n in
        let y1 := ypos (InventoryReport.header rt a b fresh) in
        page_has_block
          (InventoryReport.header_labels y1
             ++ [SetLineWidth (1 # 2); Line 15 (y1 + 3) (pageWidth_mm rt - 15) (y1 + 3)])%list
          1 d
        /\ ((2 <= p <= numPages (ldoc l))%nat ->
            begins_with
              ((SetFont Bold :: InventoryReport.header_labels 20)
                 ++ [Line 15 (20 + 3) (pageWidth_mm rt - 15) (20 + 3)])%list
              (page_cmds p d))).
Proof.
  split; [|split].
  - intros sd a b n c p st d. subst st d. split.
    + apply (page_has_block_extends (d := ldoc (SalesReport.table_head rt
                                                  (SalesReport.header rt a b c fresh)))).
      * eapply extends_trans; [apply sales_rows_extend | apply sales_keeps_rows].
      * apply sales_head_block. now rewrite sales_header_page.
    + intros Hp. eapply begins_with_extends; [apply sales_keeps_rows|].
      apply begins_with_shorter with (b := [SetFont Normal; SetFontSize 8]).
      apply (sales_rows_inv rt (SalesReport.flattenedData rt sd) a b c). lia.
  - intros rows a b n p st d. subst st d. split.
    + apply (page_has_block_extends (d := ldoc (ReturnsReport.table_head rt
                                                  (ReturnsReport.header rt a b fresh)))).
      * eapply extends_trans; [|apply returns_keeps_rows].
        unfold ReturnsReport.table_rows, forEach.
        apply (@forEach_extends _ _ ReturnsReport.lay (ReturnsReport.row_step rt) 270 (20 + 8)
                 (returns_redraw rt) (ReturnsReport.row_cmds rt) (fun _ => 6)
                 (returns_step_lay rt)).
      * apply returns_head_block. now rewrite returns_header_page.
    + intros Hp. eapply begins_with_extends; [apply returns_keeps_rows|].
      apply begins_with_shorter with (b := [SetFont Normal; SetFontSize 8]).
      apply (returns_rows_inv rt rows a b). lia.
  - intros rows a b n p l d y1. subst l d y1. split.
    + apply (page_has_block_extends (d := ldoc (InventoryReport.table_head rt
                                                  (InventoryReport.header rt a b fresh)))).
      * eapply extends_trans; [|apply inventory_keeps_rows].
        unfold InventoryReport.table_rows, forEach.
        apply (@forEach_extends _ _ (fun x : layout => x) (InventoryReport.row_step rt)
                 270 (20 + 3 + 5) (inventory_redraw rt) (InventoryReport.row_cmds rt)
                 (fun _ => 6) (inventory_step_lay rt)).
      * apply inventory_head_block. now rewrite inventory_header_page.
    + intros Hp. eapply begins_with_extends; [apply inventory_keeps_rows|].
      apply begins_with_shorter with (b := [SetFont Normal; SetFontSize 8]).
      pose proof (inventory_rows_inv rt rows a b) as (_ & _ & _ & H).
      specialize (H p). unfold inventory_redraw in H. rewrite app_assoc in H.
      apply H. lia.
Qed.

(** With 45 rows the row loop starts page 2, which begins with the
    column header. *)
Lemma row_pages_repeat_header_witness :
  (2 <= 2 <= numPages
              (ldoc (SalesReport.lay
                       (SalesReport.table_rows Sample.rt
                          (SalesReport.flattenedData Sample.rt Samples.orders45)
                          (SalesReport.table_head Sample.rt
                             (SalesReport.header Sample.rt "a" "b" "Daily" fresh))))))%nat
  /\ begins_with (SalesReport.drawTableHeaders Sample.rt 20)
       (page_cmds 2 (SalesReport.generateSalesReportPDF Sample.rt Samples.orders45
                       "a" "b" "me" "Daily")).
Proof.
  assert (H : (2 <= 2 <= numPages
              (ldoc (SalesReport.lay
                       (SalesReport.table_rows Sample.rt
                          (SalesReport.flattenedData Sample.rt Samples.orders45)
                          (SalesReport.table_head Sample.rt
                             (SalesReport.header Sample.rt "a" "b" "Daily" fresh))))))%nat).
  { vm_compute. split; apply le_n. }
  split; [exact H|].
  exact (proj2 (proj1 (row_pages_repeat_header Sample.rt)
                  Samples.orders45 "a" "b" "me" "Daily" 2%nat) H).
Defined.

(* ================================================================= *)
(** ** The best-selling product *)

Section BestSelling.

Variable counts : Tally.t.

(** The tally of a key, [0] when the key has none. *)
Definition tally (k : string) : Q := num_or_zero (Tally.get counts k).

Definition pick (a b : string) : string := if Tally.gt counts a b then a else b.

Lemma get_of_key (k : string) :
  In k (Tally.keys counts) -> exists v, Tally.get counts k = Some v.
Proof.
  unfold Tally.keys. induction counts as [|[k' v'] o IH]; cbn; [tauto|].
  intros [E|H].
  - subst. rewrite String.eqb_refl. eauto.
  - destruct (k' =? k); eauto.
Qed.

Lemma key_of_get (k : string) (v : Q) :
  Tally.get counts k = Some v -> In k (Tally.keys counts).
Proof.
  unfold Tally.keys. induction counts as [|[k' v'] o IH]; cbn; [discriminate|].
  destruct (String.eqb_spec k' k); [now left | right; auto].
Qed.

Lemma pick_not_greater (a b : string) :
  In b (Tally.keys counts) ->
  (In a (Tally.keys counts) -> tally a <= tally b) ->
  pick a b = b.
Proof.
  intros Hb Hle. unfold pick, Tally.gt.
  destruct (Tally.get counts a) as [x|] eqn:Ea; [|reflexivity].
  destruct (@get_of_key b Hb) as [y Eb]. rewrite Eb.
  specialize (Hle (@key_of_get a x Ea)). unfold tally in Hle. rewrite Ea, Eb in Hle. cbn in Hle.
  unfold Qgtb. apply Qle_bool_iff in Hle. now rewrite Hle.
Qed.

Lemma pick_greater (a b : string) :
  In a (Tally.keys counts) -> In b (Tally.keys counts) ->
  tally b < tally a -> pick a b = a.
Proof.
  intros Ha Hb Hlt. unfold pick, Tally.gt.
  destruct (@get_of_key a Ha) as [x Ea]. destruct (@get_of_key b Hb) as [y Eb].
  unfold tally in Hlt. rewrite Ea, Eb in *. cbn in Hlt.
  unfold Qgtb. destruct (Qle_bool x y) eqn:E; [|reflexivity].
  apply Qle_bool_iff in E. exfalso. apply (Qlt_not_le _ _ Hlt E).
Qed.

Lemma fold_pick_choice (l : list string) (a : string) :
  fold_left pick l a = a \/ In (fold_left pick l a) l.
Proof.
  revert a. induction l as [|b l IH]; intros a; cbn; [now left|].
  destruct (IH (pick a b)) as [E|H]; [|now right; right].
  rewrite E. unfold pick. destruct (Tally.gt counts a b); [now left | now right; left].
Qed.

Lemma fold_pick_stays (l : list string) (k : string) :
  In k (Tally.keys counts) ->
  (forall k', In k' l -> In k' (Tally.keys counts) /\ tally k' < tally k) ->
  fold_left pick l k = k.
Proof.
  intros Hk. induction l as [|b l IH]; intros H; cbn; [reflexivity|].
  destruct (H b (or_introl eq_refl)) as [Hb Hlt].
  rewrite (@pick_greater k b Hk Hb Hlt). apply IH. intros k' Hk'. apply H. now right.
Qed.

(** The left fold with the strict comparison ends on the last key that
    attains the maximum. *)
Lemma last_maximum_wins (seed : string) (l1 l2 : list string) (k : string) :
  Tally.keys counts = (l1 ++ k :: l2)%list ->
  (forall k', In k' l1 -> tally k' <= tally k) ->
  (forall k', In k' l2 -> tally k' < tally k) ->
  fold_left pick (Tally.keys counts) seed = k.
Proof.
  intros E H1 H2.
  assert (Hk : In k (Tally.keys counts)) by (rewrite E; apply in_elt).
  assert (Hin : forall k', In k' l2 -> In k' (Tally.keys counts)).
  { intros k' H. rewrite E. apply in_or_app. right. now right. }
  rewrite E at 1. rewrite fold_left_app. cbn [fold_left].
  rewrite pick_not_greater; [apply fold_pick_stays; auto| exact Hk |].
  intros Ha. destruct (fold_pick_choice l1 seed) as [Es|Hl]; [|now apply H1].
  rewrite Es in *. rewrite E in Ha. apply in_app_or in Ha.
  destruct Ha as [Ha|[Ha|Ha]].
  - now apply H1.
  - subst. apply Qle_refl.
  - apply Qlt_le_weak. now apply H2.
Qed.

End BestSelling.

(** The names of a list in the order of their first appearance. *)
Definition first_seen (names : list string) : list string :=
  fold_left (fun acc k => if existsb (String.eqb k) acc then acc else (acc ++ [k])%list)
            names [].

Section KeyOrder.

Lemma keys_replace (o : Tally.t) (k : string) (v : Q) :
  Tally.keys (Tally.replace o k v) = Tally.keys o.
Proof.
  unfold Tally.keys. induction o as [|[k' v'] o IH]; cbn; [reflexivity|].
  destruct (k' =? k); cbn; [reflexivity | now rewrite IH].
Qed.

Lemma keys_insert_new (o : Tally.t) (k : string) (v : Q) :
  Tally.array_index k = None ->
  Tally.keys (Tally.insert_new o k v) = (Tally.keys o ++ [k])%list.
Proof.
  intros H. unfold Tally.keys. induction o as [|[k' v'] o IH]; cbn; [reflexivity|].
  rewrite H. cbn. now rewrite IH.
Qed.

Lemma get_existsb (o : Tally.t) (k : string) :
  existsb (String.eqb k) (Tally.keys o)
  = match Tally.get o k with Some _ => true | None => false end.
Proof.
  unfold Tally.keys. induction o as [|[k' v'] o IH]; cbn; [reflexivity|].
  rewrite (String.eqb_sym k k'). destruct (k' =? k); cbn; [reflexivity | exact IH].
Qed.

Lemma keys_set (o : Tally.t) (k : string) (v : Q) :
  Tally.array_index k = None ->
  Tally.keys (Tally.set o k v)
  = if existsb (String.eqb k) (Tally.keys o) then Tally.keys o else (Tally.keys o ++ [k])%list.
Proof.
  intros H. unfold Tally.set. rewrite get_existsb.
  destruct (Tally.get o k); [apply keys_replace | now apply keys_insert_new].
Qed.

Lemma keys_fold (rows : list SalesReport.row) :
  Forall (fun r => Tally.array_index (SalesReport.r_productName r) = None) rows ->
  forall o : Tally.t,
    Tally.keys
      (fold_left (fun counts it =>
                    Tally.set counts (SalesReport.r_productName it)
                      (num_or_zero (Tally.get counts (SalesReport.r_productName it))
                       + SalesReport.r_quantity it))
                 rows o)
    = fold_left (fun acc k => if existsb (String.eqb k) acc then acc else (acc ++ [k])%list)
                (map SalesReport.r_productName rows) (Tally.keys o).
Proof.
  induction 1 as [|r rows Hr Hrows IH]; intros o; cbn [fold_left map]; [reflexivity|].
  rewrite IH. now rewrite keys_set.
Qed.

(** When no product name is an array index, the keys of the tally come
    in the order in which the products first appear among the rows. *)
Lemma productCounts_key_order (rows : list SalesReport.row) :
  Forall (fun r => Tally.array_index (SalesReport.r_productName r) = None) rows ->
  Tally.keys (SalesReport.productCounts rows)
  = first_seen (map SalesReport.r_productName rows).
Proof. intros H. exact (keys_fold H []). Qed.

End KeyOrder.

(** C2, as stated, fails: "A" and "B" are tied with a tally of 5 each,
    "A" comes first in the iteration order of the keys, and the summary
    names "B". *)
Lemma tie_goes_to_later_key :
  let rows := SalesReport.flattenedData Sample.rt Samples.tied in
  Tally.keys (SalesReport.productCounts rows) = ["A"; "B"]
  /\ Tally.get (SalesReport.productCounts rows) "A" = Some 5
  /\ Tally.get (SalesReport.productCounts rows) "B" = Some 5
  /\ SalesReport.bestSellingProduct rows = "B"
  /\ has_text "Best Selling Product: B"
       (page_cmds 1 (SalesReport.generateSalesReportPDF Sample.rt Samples.tied
                       "2025-11-01" "2025-11-03" "me" "Daily")) = true
  /\ has_text "Best selling product: B"
       (page_cmds 1 (Part002.generateSalesReportPDF Sample.rt Samples.tied
                       "2025-11-01" "2025-11-03" "me" "Daily")) = true.
Proof. vm_compute. repeat split. Qed.


(* ================================================================= *)
(** ** The Total column of the sales report *)

(** [s] starts with [p]. *)
Fixpoint starts_with (p s : string) : bool :=
  match p, s with
  | EmptyString, _ => true
  | String a p', String b s' => (a =? b)%char && starts_with p' s'
  | String _ _, EmptyString => false
  end.

(** The currency amounts drawn left-aligned at the x-position [x0], in
    call order over all pages. *)
Definition amount_at (x0 : Q) (c : cmd) : list string :=
  match c with
  | Text s x _ ALeft =>
      if Qeq_bool x x0 && starts_with "PHP " s then [s] else []
  | _ => []
  end.

Definition column_amounts (x0 : Q) (d : doc) : list string :=
  flat_map (fun e => amount_at x0 (snd e)) (log d).

(** The Total column of the first copy (x = 160) and of the second
    (x = 150). *)
Definition total_column_text : cmd -> list string := amount_at SalesReport.col_totalSales.
Definition total_column : doc -> list string := column_amounts SalesReport.col_totalSales.
Definition total_column_002 : doc -> list string := column_amounts Part002.col_totalSales.

(** The left fold of [grandTotal += Number(item.totalPrice) || 0]. *)
Definition sum_totals (rows : list SalesReport.row) : Q :=
  fold_left (fun acc r => acc + SalesReport.r_totalPrice r) rows 0.

(** The signed number of hundredths a formatter shows for [q]. *)
Definition cents (q : Q) : Z :=
  if (Qnum q <? 0)%Z then (- hundredths q)%Z else hundredths q.

Section ColumnAmounts.

Variable x0 : Q.

Lemma column_amounts_emits (cs : list cmd) (d : doc) :
  column_amounts x0 (emits cs d) = (column_amounts x0 d ++ flat_map (amount_at x0) cs)%list.
Proof.
  unfold column_amounts. rewrite log_emits, flat_map_app. f_equal.
  induction cs as [|c cs IH]; cbn; [reflexivity | now rewrite IH].
Qed.

Lemma column_amounts_addPage (d : doc) : column_amounts x0 (addPage d) = column_amounts x0 d.
Proof. reflexivity. Qed.

Lemma column_amounts_setPage (i : nat) (d : doc) :
  column_amounts x0 (setPage i d) = column_amounts x0 d.
Proof. reflexivity. Qed.

(** A footer pass that draws no amount in the column leaves it as it is. *)
Lemma column_amounts_fold (f : nat -> list cmd) (l : list nat) :
  (forall i, flat_map (amount_at x0) (f i) = []) ->
  forall d, column_amounts x0 (fold_left (fun d i => emits (f i) (setPage i d)) l d)
            = column_amounts x0 d.
Proof.
  intros H. induction l as [|i l IH]; intros d; cbn [fold_left]; [reflexivity|].
  rewrite IH, column_amounts_emits, column_amounts_setPage, H. now rewrite app_nil_r.
Qed.

End ColumnAmounts.

Section TotalColumn.

Variable rt : runtime.

Lemma total_column_footers (adminName : string) (d : doc) :
  total_column (stamp_footers rt adminName d) = total_column d.
Proof.
  unfold stamp_footers, total_column.
  apply (column_amounts_fold SalesReport.col_totalSales
           (fun i => footer_cmds rt adminName i (numPages d))).
  reflexivity.
Qed.

Lemma total_column_row (i : nat) (r : SalesReport.row) (y : Q) :
  flat_map total_column_text (SalesReport.row_cmds rt i r y)
  = [formatCurrency rt (JNum (SalesReport.r_totalPrice r))].
Proof.
  unfold SalesReport.row_cmds. rewrite flat_map_app.
  destruct (i mod 2 =? 0)%nat; reflexivity.
Qed.

Lemma total_column_break (l : layout) :
  total_column (ldoc (SalesReport.page_break rt l)) = total_column (ldoc l).
Proof.
  unfold SalesReport.page_break, total_column.
  destruct (Qgtb (ypos l) 270); [|reflexivity].
  unfold draw, advance, newPage; cbn [ldoc ypos].
  rewrite !column_amounts_emits, column_amounts_addPage. cbn. now rewrite !app_nil_r.
Qed.

Lemma total_column_rows (rows : list SalesReport.row) :
  forall (i : nat) (st : SalesReport.rows_state),
    let st' := forEach_from (SalesReport.row_step rt) i rows st in
    total_column (ldoc (SalesReport.lay st'))
    = (total_column (ldoc (SalesReport.lay st))
         ++ map (fun r => formatCurrency rt (JNum (SalesReport.r_totalPrice r))) rows)%list
    /\ SalesReport.grandTotal st'
       = fold_left (fun acc r => acc + SalesReport.r_totalPrice r) rows
                   (SalesReport.grandTotal st).
Proof.
  induction rows as [|r rows IH]; intros i st; cbn zeta; cbn [forEach_from map fold_left].
  - now rewrite app_nil_r.
  - destruct (IH (S i) (SalesReport.row_step rt i r st)) as [H1 H2].
    rewrite H1, H2. split; [|reflexivity].
    unfold SalesReport.row_step at 1. cbn [SalesReport.lay advance draw ldoc].
    unfold total_column at 1. rewrite column_amounts_emits.
    fold total_column total_column_text.
    rewrite total_column_break, total_column_row.
    now rewrite <- app_assoc.
Qed.

Lemma total_column_head (a b c : string) :
  total_column (ldoc (SalesReport.table_head rt (SalesReport.header rt a b c fresh))) = [].
Proof.
  unfold SalesReport.table_head, SalesReport.header, fresh, total_column.
  destruct (logoLoaded rt); unfold draw, advance; cbn [ldoc ypos];
    rewrite !column_amounts_emits; reflexivity.
Qed.

Lemma total_column_grand (st : SalesReport.rows_state) :
  total_column (ldoc (SalesReport.grand_total_block rt st))
  = (total_column (ldoc (SalesReport.lay st))
       ++ [formatCurrency rt (JNum (SalesReport.grandTotal st))])%list.
Proof.
  unfold SalesReport.grand_total_block, total_column.
  destruct (Qgtb (ypos (SalesReport.lay st)) 265);
    unfold draw, advance, newPage; cbn [ldoc ypos];
    rewrite !column_amounts_emits, ?column_amounts_addPage; cbn; now rewrite app_nil_r.
Qed.

Lemma total_column_summary (sd : option (list SalesReport.order))
  (rows : list SalesReport.row) (l : layout) :
  total_column (ldoc (SalesReport.summary_block rt sd rows l)) = total_column (ldoc l).
Proof.
  unfold SalesReport.summary_block, total_column.
  destruct (Qgtb (ypos l + 35) 280);
    unfold draw, advance, newPage; cbn [ldoc ypos];
    rewrite !column_amounts_emits, ?column_amounts_addPage;
    cbn [flat_map amount_at app];
    destruct (Qeq_bool (pageWidth_mm rt / 2 + 10) SalesReport.col_totalSales);
    cbn; now rewrite !app_nil_r.
Qed.

(** The same facts for the second copy. *)

Lemma total_column_002_footers (adminName : string) (d : doc) :
  total_column_002 (Part002.stamp_footers rt adminName d) = total_column_002 d.
Proof.
  unfold Part002.stamp_footers, total_column_002.
  apply (column_amounts_fold Part002.col_totalSales
           (fun i => Part002.footer_cmds rt adminName i (numPages d))).
  reflexivity.
Qed.

Lemma total_column_002_break (l : layout) :
  total_column_002 (ldoc (Part002.page_break l)) = total_column_002 (ldoc l).
Proof.
  unfold Part002.page_break, total_column_002.
  destruct (Qgtb (ypos l) 250); [|reflexivity].
  unfold draw, advance, newPage; cbn [ldoc ypos].
  rewrite !column_amounts_emits, column_amounts_addPage. cbn. now rewrite !app_nil_r.
Qed.

Lemma total_column_002_rows (rows : list SalesReport.row) :
  forall (i : nat) (st : SalesReport.rows_state),
    let st' := forEach_from (Part002.row_step rt) i rows st in
    total_column_002 (ldoc (SalesReport.lay st'))
    = (total_column_002 (ldoc (SalesReport.lay st))
         ++ map (fun r => formatCurrency rt (JNum (SalesReport.r_totalPrice r))) rows)%list
    /\ SalesReport.grandTotal st'
       = fold_left (fun acc r => acc + SalesReport.r_totalPrice r) rows
                   (SalesReport.grandTotal st).
Proof.
  induction rows as [|r rows IH]; intros i st; cbn zeta; cbn [forEach_from map fold_left].
  - now rewrite app_nil_r.
  - destruct (IH (S i) (Part002.row_step rt i r st)) as [H1 H2].
    rewrite H1, H2. split; [|reflexivity].
    unfold Part002.row_step at 1. cbn [SalesReport.lay advance draw ldoc].
    unfold total_column_002 at 1. rewrite column_amounts_emits.
    fold total_column_002. rewrite total_column_002_break.
    now rewrite <- app_assoc.
Qed.

Lemma total_column_002_head (a b c : string) :
  total_column_002 (ldoc (Part002.table_head (Part002.header rt a b c newDoc))) = [].
Proof.
  unfold Part002.table_head, Part002.header, total_column_002.
  destruct (logoLoaded rt); unfold draw, advance; cbn [ldoc ypos];
    rewrite !column_amounts_emits; reflexivity.
Qed.

Lemma total_column_002_grand (st : SalesReport.rows_state) :
  total_column_002 (ldoc (Part002.grand_total_block rt st))
  = (total_column_002 (ldoc (SalesReport.lay st))
       ++ [formatCurrency rt (JNum (SalesReport.grandTotal st))])%list.
Proof.
  unfold Part002.grand_total_block, total_column_002.
  unfold draw, advance; cbn [ldoc ypos].
  rewrite !column_amounts_emits. cbn. now rewrite !app_nil_r.
Qed.

Lemma total_column_002_summary (sd : option (list SalesReport.order))
  (rows : list SalesReport.row) (l : layout) :
  total_column_002 (ldoc (Part002.summary_block rt sd rows l)) = total_column_002 (ldoc l).
Proof.
  unfold Part002.summary_block, total_column_002.
  unfold draw, advance; cbn [ldoc ypos].
  rewrite !column_amounts_emits. cbn [flat_map amount_at app].
  destruct (Qeq_bool (pageWidth_mm rt / 2 + 20) Part002.col_totalSales);
    cbn; now rewrite !app_nil_r.
Qed.

End TotalColumn.

(** An amount that is a whole number of hundredths. *)
Definition whole_cents (q : Q) : Prop := exists c : Z, q == c # 100.

Definition Zsum (l : list Z) : Z := fold_right Z.add 0%Z l.

Section Cents.

Lemma cents_of_hundredths (c : Z) : cents (c # 100) = c.
Proof.
  unfold cents, hundredths, Qfloor, Qabs, Qmult, Qplus. cbn [Qnum Qden].
  assert (H : ((Z.abs c * 100 * 2 + 1 * Z.pos (100 * 1)) / Z.pos (100 * 1 * 2) = Z.abs c)%Z).
  { change (Z.pos (100 * 1 * 2)) with 200%Z. change (Z.pos (100 * 1)) with 100%Z.
    symmetry. apply (Z.div_unique _ _ _ 100); lia. }
  rewrite H. destruct (Z.ltb_spec c 0); lia.
Qed.

Lemma cents_Qeq (p q : Q) : p == q -> cents p = cents q.
Proof.
  intros H. unfold cents.
  assert (E : hundredths p = hundredths q) by (unfold hundredths; now rewrite H).
  rewrite E. unfold Qeq in H.
  destruct (Z.ltb_spec (Qnum p) 0), (Z.ltb_spec (Qnum q) 0); try reflexivity; exfalso; nia.
Qed.

Lemma cents_whole (q : Q) (c : Z) : q == c # 100 -> cents q = c.
Proof. intros H. rewrite (cents_Qeq H). apply cents_of_hundredths. Qed.


End Cents.



(* ================================================================= *)
(** ** The sales report without rows *)

(** The text [s] is drawn somewhere in the document. *)
Definition doc_has_text (s : string) (d : doc) : Prop :=
  exists p x y a, In (p, Text s x y a) (log d).

Section EmptyReport.

Variable rt : runtime.

Lemma doc_has_text_here (s : string) (x y : Q) (a : align) (cs : list cmd) (d : doc) :
  In (Text s x y a) cs -> doc_has_text s (emits cs d).
Proof.
  intros H. exists (currentPage d), x, y, a. now apply In_emits.
Qed.

Lemma doc_has_text_extends (s : string) (d d' : doc) :
  extends d d' -> doc_has_text s d -> doc_has_text s d'.
Proof.
  intros E (p & x & y & a & H). exists p, x, y, a. now apply (extends_In _ E).
Qed.

Lemma on_page_emits (p : nat) (cs : list cmd) (d : doc) :
  forallb (fun e => (fst e =? p)%nat) (log d) = true ->
  forallb (fun e => (fst e =? p)%nat) (log (emits cs (setPage p d))) = true.
Proof.
  intros H. rewrite log_emits, forallb_app. cbn [setPage log currentPage].
  rewrite H. cbn [andb].
  induction cs as [|c cs IH]; cbn; [reflexivity|].
  now rewrite Nat.eqb_refl.
Qed.

Lemma doc_has_text_later (s : string) (cs : list cmd) (d : doc) :
  doc_has_text s d -> doc_has_text s (emits cs d).
Proof. apply doc_has_text_extends. apply extends_emits, extends_refl. Qed.

End EmptyReport.

(** Finds a text among the calls of a phase, latest calls first. *)
Ltac find_text :=
  cbn [ldoc draw advance newPage];
  lazymatch goal with
  | |- doc_has_text _ (emits _ _) =>
      first [ eapply doc_has_text_here;
              cbn [In]; repeat (first [left; reflexivity | right]); fail
            | apply doc_has_text_later; find_text ]
  | |- doc_has_text _ (ldoc (if ?b then _ else _)) => destruct b; find_text
  end.

Section EmptyReportFacts.

Variable rt : runtime.
Variable sd : option (list SalesReport.order).
Variables startDate endDate adminName rangeLabel : string.

Let head : layout :=
  SalesReport.table_head rt (SalesReport.header rt startDate endDate rangeLabel fresh).
Let body0 : layout :=
  SalesReport.summary_block rt sd []
    (SalesReport.grand_total_block rt {| SalesReport.lay := head; SalesReport.grandTotal := 0 |}).

Lemma empty_body_pages : numPages (ldoc body0) = 1%nat.
Proof.
  unfold body0, head, SalesReport.table_head, SalesReport.header.
  destruct (logoLoaded rt); reflexivity.
Qed.

Lemma empty_body_on_page_1 :
  forallb (fun e => (fst e =? 1)%nat) (log (ldoc body0)) = true.
Proof.
  unfold body0, head, SalesReport.table_head, SalesReport.header.
  destruct (logoLoaded rt); reflexivity.
Qed.

Lemma empty_body_title : doc_has_text "Sales Report" (ldoc body0).
Proof.
  apply (@doc_has_text_extends _ (ldoc head)).
  - unfold body0. eapply extends_trans; [|apply sales_summary_extend].
    apply (sales_grand_total_extend rt {| SalesReport.lay := head; SalesReport.grandTotal := 0 |}).
  - unfold head, SalesReport.table_head, SalesReport.header.
    destruct (logoLoaded rt); find_text.
Qed.

Lemma empty_body_grand_total : doc_has_text "Grand Total:" (ldoc body0).
Proof.
  apply (@doc_has_text_extends _ (ldoc (SalesReport.grand_total_block rt
            {| SalesReport.lay := head; SalesReport.grandTotal := 0 |}))).
  - apply sales_summary_extend.
  - unfold SalesReport.grand_total_block. cbn [SalesReport.lay SalesReport.grandTotal].
    find_text.
Qed.

Lemma empty_body_summary :
  doc_has_text ("Total Revenue: " ++ formatCurrency rt (JNum (SalesReport.totalRevenue rt sd)))
               (ldoc body0)
  /\ doc_has_text ("Avg Transaction Value: "
                     ++ formatCurrency rt (JNum (SalesReport.avgTransactionValue rt sd)))
                  (ldoc body0)
  /\ doc_has_text "Total Items Sold: 0" (ldoc body0)
  /\ doc_has_text "Best Selling Product: N/A" (ldoc body0)
  /\ doc_has_text ("Total Transactions: " ++ nat_to_string (SalesReport.totalTransactions sd))
                  (ldoc body0).
Proof.
  unfold body0, SalesReport.summary_block.
  repeat split; find_text.
Qed.

Lemma empty_footer : doc_has_text "Page 1 of 1" (stamp_footers rt adminName (ldoc body0)).
Proof.
  unfold stamp_footers. rewrite empty_body_pages. cbn [seq fold_left].
  unfold footer_cmds. find_text.
Qed.

Definition empty_report : doc := stamp_footers rt adminName (ldoc body0).

Lemma empty_report_extends : extends (ldoc body0) empty_report.
Proof. apply extends_stamp_footers. Qed.

Lemma empty_report_pages : numPages empty_report = 1%nat.
Proof. unfold empty_report. rewrite numPages_stamp_footers. apply empty_body_pages. Qed.

Lemma empty_report_on_page_1 :
  forallb (fun e => (fst e =? 1)%nat) (log empty_report) = true.
Proof.
  unfold empty_report, stamp_footers. rewrite empty_body_pages.
  change (seq 1 1) with [1%nat]. cbn [fold_left].
  apply on_page_emits, empty_body_on_page_1.
Qed.

Lemma empty_report_header_block :
  page_has_block
    (SalesReport.drawTableHeaders rt
       (ypos (SalesReport.header rt startDate endDate rangeLabel fresh))) 1 empty_report.
Proof.
  apply (page_has_block_extends empty_report_extends).
  eapply page_has_block_extends; [|apply sales_head_block; now rewrite sales_header_page].
  unfold body0. eapply extends_trans; [|apply sales_summary_extend].
  apply (sales_grand_total_extend rt {| SalesReport.lay := head; SalesReport.grandTotal := 0 |}).
Qed.

Lemma format_zero : formatCurrency rt (JNum 0) = "PHP 0.00".
Proof. reflexivity. Qed.

Lemma empty_report_total_column : total_column empty_report = ["PHP 0.00"].
Proof.
  unfold empty_report, body0.
  rewrite total_column_footers, total_column_summary, total_column_grand.
  cbn [SalesReport.lay SalesReport.grandTotal]. unfold head.
  rewrite total_column_head, format_zero. reflexivity.
Qed.

Lemma empty_report_no_orders :
  SalesReport.relevantOrders sd = [] ->
  doc_has_text "Total Revenue: PHP 0.00" (ldoc body0)
  /\ doc_has_text "Avg Transaction Value: PHP 0.00" (ldoc body0)
  /\ doc_has_text "Total Transactions: 0" (ldoc body0).
Proof.
  intros R. destruct empty_body_summary as (S1 & S2 & _ & _ & S5).
  assert (T : SalesReport.totalRevenue rt sd = 0)
    by (unfold SalesReport.totalRevenue; now rewrite R).
  assert (N : SalesReport.totalTransactions sd = 0%nat)
    by (unfold SalesReport.totalTransactions; now rewrite R).
  assert (A : SalesReport.avgTransactionValue rt sd = 0)
    by (unfold SalesReport.avgTransactionValue; now rewrite N).
  rewrite T, format_zero in S1. rewrite A, format_zero in S2. rewrite N in S5.
  repeat split; assumption.
Qed.

End EmptyReportFacts.

(** C5, as stated, fails: an order whose items are all gone leaves the
    flattened row set empty, yet the summary shows its revenue and counts
    it as a transaction; the aggregates are not all zero. *)
Lemma empty_rows_nonzero_revenue :
  let d := SalesReport.generateSalesReportPDF Sample.rt Samples.emptied
             "2025-11-01" "2025-11-03" "me" "Daily" in
  SalesReport.flattenedData Sample.rt Samples.emptied = []
  /\ has_text "Total Revenue: PHP 100.00" (page_cmds 1 d) = true
  /\ has_text "Avg Transaction Value: PHP 100.00" (page_cmds 1 d) = true
  /\ has_text "Total Transactions: 1" (page_cmds 1 d) = true
  /\ has_text "Total Revenue: PHP 0.00" (page_cmds 1 d) = false.
Proof. vm_compute. repeat split. Qed.


(* ================================================================= *)
(** ** Fully returned items *)

Section Preparation.

Variable rt : runtime.

Lemma prepare_items_app (a b : list Controller.sale_item) :
  Controller.prepare_items rt (a ++ b)
  = (Controller.prepare_items rt a ++ Controller.prepare_items rt b)%list.
Proof. unfold Controller.prepare_items. now rewrite map_app, flat_map_app. Qed.

Lemma prepare_items_cons (it : Controller.sale_item) (l : list Controller.sale_item) :
  Controller.prepare_items rt (it :: l)
  = (match Controller.map_item rt it with Some x => [x] | None => [] end
       ++ Controller.prepare_items rt l)%list.
Proof. reflexivity. Qed.

Lemma map_item_dropped (it : Controller.sale_item) (q : Q) :
  Controller.actualQty rt it = Some q -> q <= 0 -> Controller.map_item rt it = None.
Proof.
  intros E H. unfold Controller.map_item. rewrite E. cbn [le_zero].
  apply Qle_bool_iff in H. now rewrite H.
Qed.

Lemma prepared_from_kept (x : SalesReport.item) (l : list Controller.sale_item) :
  In x (Controller.prepare_items rt l) ->
  exists it, In it l /\ Controller.map_item rt it = Some x
             /\ le_zero (Controller.actualQty rt it) = false.
Proof.
  induction l as [|it l IH]; [intros []|].
  rewrite prepare_items_cons. intros H. apply in_app_or in H. destruct H as [H|H].
  - exists it. destruct (Controller.map_item rt it) as [y|] eqn:E; [|destruct H].
    destruct H as [<-|[]]. split; [now left|]. split; [reflexivity|].
    unfold Controller.map_item in E.
    destruct (le_zero (Controller.actualQty rt it)); [discriminate | reflexivity].
  - destruct (IH H) as (it' & Hin & Hm & Hq). exists it'. split; [now right | auto].
Qed.

End Preparation.

(** C7.  An item whose net quantity (quantity minus returned quantity) is
    zero or negative is dropped by the data preparation of
    [getSalesReport]: the prepared items, and with them the flattened
    rows from which the generator draws its rows and accumulates the
    grand total, the item count and the per-product tally, and the whole
    document, are the same as if the item had not been there; every
    prepared item stems from an item that was not dropped. *)
Theorem fully_returned_items_dropped (rt : runtime)
  (before after : list Controller.sale_item) (it : Controller.sale_item) (q : Q) :
  Controller.actualQty rt it = Some q ->
  q <= 0 ->
  Controller.prepare_items rt (before ++ it :: after)
  = Controller.prepare_items rt (before ++ after)
  /\ (forall x, In x (Controller.prepare_items rt (before ++ it :: after)) ->
        exists it', In it' (before ++ after) /\ Controller.map_item rt it' = Some x
                    /\ le_zero (Controller.actualQty rt it') = false)
  /\ (forall (toPH : jstext -> jstext) (s : Controller.sale)
             (earlier later : list SalesReport.order) (a b n c : string),
        let with_it := Some (earlier ++ Controller.prepare_sale rt toPH s (before ++ it :: after)
                                     :: later)%list in
        let without := Some (earlier ++ Controller.prepare_sale rt toPH s (before ++ after)
                                     :: later)%list in
        SalesReport.flattenedData rt with_it = SalesReport.flattenedData rt without
        /\ SalesReport.generateSalesReportPDF rt with_it a b n c
           = SalesReport.generateSalesReportPDF rt without a b n c).
Proof.
  intros E H.
  assert (P : Controller.prepare_items rt (before ++ it :: after)
              = Controller.prepare_items rt (before ++ after)).
  { rewrite !prepare_items_app, prepare_items_cons, (map_item_dropped rt it E H).
    reflexivity. }
  split; [exact P|]. split.
  - intros x Hx. rewrite P in Hx. now apply prepared_from_kept.
  - intros toPH s earlier later a b n c with_it without.
    assert (S : with_it = without).
    { unfold with_it, without, Controller.prepare_sale. now rewrite P. }
    now rewrite S.
Qed.

(** Two spark plugs sold and both returned, beside three oil filters. *)
Lemma fully_returned_items_dropped_witness :
  Controller.actualQty Sample.rt Samples.returned_item = Some (2 - 2)
  /\ 2 - 2 <= 0
  /\ Controller.prepare_items Sample.rt [Samples.returned_item; Samples.kept_item]
     = Controller.prepare_items Sample.rt [Samples.kept_item].
Proof.
  assert (E : Controller.actualQty Sample.rt Samples.returned_item = Some (2 - 2))
    by reflexivity.
  assert (H : 2 - 2 <= 0) by (unfold Qle; cbn; lia).
  split; [exact E|]. split; [exact H|].
  exact (proj1 (@fully_returned_items_dropped Sample.rt [] [Samples.kept_item]
                  Samples.returned_item (2 - 2) E H)).
Defined.

(* ================================================================= *)
(** ** The totals of the receipt *)

(** In [l], the entry [a] is immediately followed by [b]. *)
Definition adjacent {A : Type} (a b : A) (l : list A) : Prop :=
  exists pre post, l = (pre ++ a :: b :: post)%list.

(** Every text of the document, in call order. *)
Definition texts (d : doc) : list string :=
  flat_map (fun e => match snd e with
                     | Text s _ _ _ => [s]
                     | _ => []
                     end) (log d).

Section ReceiptTotals.

Variable rt : runtime.

Lemma adjacent_app_l {A : Type} (a b : A) (l more : list A) :
  adjacent a b l -> adjacent a b (l ++ more)%list.
Proof.
  intros (pre & post & ->). exists pre, (post ++ more)%list.
  now rewrite <- app_assoc.
Qed.

Lemma adjacent_app_r {A : Type} (a b : A) (l more : list A) :
  adjacent a b l -> adjacent a b (more ++ l)%list.
Proof.
  intros (pre & post & ->). exists (more ++ pre)%list, post.
  now rewrite <- app_assoc.
Qed.

Lemma adjacent_map {A B : Type} (f : A -> B) (a b : A) (l : list A) :
  adjacent a b l -> adjacent (f a) (f b) (map f l).
Proof.
  intros (pre & post & ->). exists (map f pre), (map f post).
  now rewrite map_app.
Qed.

Lemma adjacent_extends (a b : nat * cmd) (d d' : doc) :
  extends d d' -> adjacent a b (log d) -> adjacent a b (log d').
Proof. intros [more ->]. apply adjacent_app_l. Qed.

Lemma adjacent_emits (p : nat) (a b : cmd) (cs : list cmd) (d : doc) :
  currentPage d = p -> adjacent a b cs -> adjacent (p, a) (p, b) (log (emits cs d)).
Proof.
  intros <- H. rewrite log_emits. apply adjacent_app_r.
  now apply (adjacent_map (pair (currentPage d))).
Qed.

Lemma peso_default (v : jsval) : peso rt (Receipt.default_num v 0) = peso rt v.
Proof. destruct v; reflexivity. Qed.

(** The subtotal and the total line both show the [totalAmount] that
    was passed, each beside its label. *)
Lemma totals_block_lines (s : Receipt.sale) (l : layout) :
  let d := ldoc (Receipt.totals_block rt s l) in
  let lx := Receipt.contentWidth rt - 100 in
  let vx := pageWidth_pt rt - Receipt.margin - 5 in
  let p := currentPage (ldoc l) in
  (exists y, adjacent (p, Text "Subtotal:" lx y ARight)
                      (p, Text (peso rt (Receipt.totalAmount s)) vx y ARight) (log d))
  /\ (exists y, adjacent (p, Text "TOTAL:" lx y ARight)
                         (p, Text (peso rt (Receipt.totalAmount s)) vx y ARight) (log d)).
Proof.
  cbn zeta. unfold Receipt.totals_block. rewrite peso_default.
  split.
  - exists (ypos l + 15).
    eapply adjacent_extends.
    2:{ apply (@adjacent_emits (currentPage (ldoc l)) _ _
                 [SetFont Normal; SetFontSize Receipt.FONT_SIZE_BODY;
                  Text "Subtotal:" (Receipt.contentWidth rt - 100) (ypos l + 15) ARight;
                  Text (peso rt (Receipt.totalAmount s))
                       (pageWidth_pt rt - Receipt.margin - 5) (ypos l + 15) ARight]
                 (ldoc l) eq_refl).
        now exists [SetFont Normal; SetFontSize Receipt.FONT_SIZE_BODY], []. }
    grows.
  - destruct (toLowerCase (Receipt.paymentMethod s) =? "cash")%string;
      destruct (Receipt.gt_zero (Number rt (Receipt.default_num (Receipt.tenderedAmount s) 0)));
      cbn [andb]; unfold draw, advance; cbn [ldoc ypos]; eexists;
      match goal with
      | |- adjacent _ _ (log (emits _ (emits ?cs ?d0))) =>
          apply (@adjacent_extends _ _ (emits cs d0));
          [ apply extends_emits, extends_refl
          | apply (@adjacent_emits _ _ _ cs d0 eq_refl);
            now exists [SetFont Bold; SetFontSize (Receipt.FONT_SIZE_HEADER + 2)], [] ]
      end.
Qed.

(** Every item has its line, with unit price times quantity as amount. *)
Lemma receipt_row_amount (s : Receipt.sale) (it : Receipt.item) :
  In it (Receipt.items s) ->
  exists p y,
    In (p, Text (peso rt (Receipt.of_num (Receipt.sub rt it))) (Receipt.colAmt_Right rt) y ARight)
       (log (Receipt.generateSaleReceipt rt s)).
Proof.
  intros H. apply in_split in H. destruct H as (pre & post & E).
  unfold Receipt.generateSaleReceipt. rewrite E.
  unfold Receipt.table_rows, forEach. rewrite forEach_from_app. cbn [forEach_from].
  set (l0 := forEach_from (Receipt.row_step rt) 0 pre (Receipt.before_rows rt s)).
  set (i := (0 + List.length pre)%nat).
  exists (currentPage (ldoc (Receipt.page_break l0))), (ypos (Receipt.page_break l0) + 16).
  eapply extends_In.
  - eapply extends_trans; [|apply receipt_totals_extend].
    apply (@forEach_extends _ _ (fun l : layout => l) (Receipt.row_step rt)
             750 Receipt.margin [] (fun _ r y => Receipt.row_cmds rt r y)
             (Receipt.rowHeight rt) (receipt_step_lay rt)).
  - unfold Receipt.row_step. cbn [ldoc advance draw].
    apply In_emits; [reflexivity|].
    unfold Receipt.row_cmds. apply in_or_app. right. apply in_or_app. right.
    cbn. tauto.
Qed.

End ReceiptTotals.


(* ================================================================= *)
(** * Further properties of the generators *)

(** The second part follows the documents from the row loop to the
    footer pass - what a loop appends, how many rows a page takes, how
    far down the body draws, what the footer pass adds - and the figures
    of the returns and sales summaries.  It then embeds the code around
    the generators: the page window and the inventory figures of
    [ReportsController] (source file part_000), the inventory report of
    the second copy of the utility (part_002) and the colour helper of
    the dashboard (part_001). *)

(* ================================================================= *)
(** ** The footer pass *)

Section FooterPass.

(** The footer calls of page [i] of [n], as a copy of the utility makes
    them. *)
Variable footer : nat -> nat -> list cmd.

Definition stamp_pages (n : nat) (l : list nat) (d : doc) : doc :=
  fold_left (fun d k => emits (footer k n) (setPage k d)) l d.

Lemma page_cmds_stamp_pages (n i : nat) (l : list nat) :
  NoDup l ->
  forall d,
    page_cmds i (stamp_pages n l d)
    = (page_cmds i d ++ if existsb (Nat.eqb i) l then footer i n else [])%list.
Proof.
  unfold stamp_pages.
  induction 1 as [|k l Hk Hl IH]; intros d; cbn [fold_left existsb].
  - now rewrite app_nil_r.
  - rewrite IH, page_cmds_emits, page_cmds_setPage. cbn [currentPage setPage].
    rewrite (Nat.eqb_sym i k).
    destruct (Nat.eqb_spec k i) as [E|E]; cbn [orb].
    + subst k. replace (existsb (Nat.eqb i) l) with false; [now rewrite app_nil_r|].
      symmetry. apply not_true_is_false. intros C. apply existsb_exists in C.
      destruct C as (x & Hx & Ex). apply Nat.eqb_eq in Ex. now subst x.
    + now rewrite app_nil_r.
Qed.

Lemma existsb_seq (i n : nat) :
  existsb (Nat.eqb i) (seq 1 n) = ((1 <=? i) && (i <=? n))%nat.
Proof.
  destruct (existsb (Nat.eqb i) (seq 1 n)) eqn:E.
  - apply existsb_exists in E. destruct E as (x & Hx & Ex).
    apply Nat.eqb_eq in Ex. subst x. apply in_seq in Hx.
    symmetry. apply andb_true_iff. split; apply Nat.leb_le; lia.
  - destruct ((1 <=? i) && (i <=? n))%nat eqn:F; [|reflexivity].
    apply andb_true_iff in F. destruct F as [F1 F2].
    apply Nat.leb_le in F1, F2.
    assert (C : existsb (Nat.eqb i) (seq 1 n) = true).
    { apply existsb_exists. exists i. split; [apply in_seq; lia | apply Nat.eqb_refl]. }
    congruence.
Qed.

Lemma numPages_stamp_pages (n : nat) (l : list nat) :
  forall d, numPages (stamp_pages n l d) = numPages d.
Proof.
  unfold stamp_pages. induction l as [|k l IH]; intros d; cbn [fold_left]; [reflexivity|].
  now rewrite IH.
Qed.

Lemma extends_stamp_pages (n : nat) (l : list nat) :
  forall d, extends d (stamp_pages n l d).
Proof.
  unfold stamp_pages. induction l as [|k l IH]; intros d; cbn [fold_left]; [apply extends_refl|].
  eapply extends_trans; [|apply IH]. apply extends_emits, extends_setPage, extends_refl.
Qed.

Lemma In_stamp_pages (n : nat) (e : nat * cmd) (l : list nat) :
  forall d, In e (log (stamp_pages n l d)) -> In e (log d) \/ In (snd e) (footer (fst e) n).
Proof.
  unfold stamp_pages.
  induction l as [|k l IH]; intros d H; cbn [fold_left] in H; [now left|].
  apply IH in H. destruct H as [H|H]; [|now right].
  rewrite log_emits in H. cbn [log setPage currentPage] in H.
  apply in_app_or in H. destruct H as [H|H]; [now left|].
  apply in_map_iff in H. destruct H as (c & <- & Hc). now right.
Qed.

(** A pass over the pages [1 .. numPages d] adds no page and appends to
    every existing page its own footer, numbered with the page and the
    page count; it touches nothing else. *)
Lemma stamped (d : doc) (i : nat) :
  let d' := stamp_pages (numPages d) (seq 1 (numPages d)) d in
  numPages d' = numPages d
  /\ ((1 <= i <= numPages d')%nat ->
      page_cmds i d' = (page_cmds i d ++ footer i (numPages d'))%list).
Proof.
  cbn zeta. rewrite numPages_stamp_pages. split; [reflexivity|].
  intros [H1 H2]. rewrite page_cmds_stamp_pages by apply seq_NoDup.
  rewrite existsb_seq. apply Nat.leb_le in H1, H2. now rewrite H1, H2.
Qed.

End FooterPass.

Lemma stamp_footers_pages (rt : runtime) (adminName : string) (d : doc) :
  stamp_footers rt adminName d
  = stamp_pages (footer_cmds rt adminName) (numPages d) (seq 1 (numPages d)) d.
Proof. reflexivity. Qed.

(** X1.  In the finished sales, returns and inventory reports every
    page [i] from 1 to the page count [N] ends with exactly one footer,
    the one reading "Page i of N", appended to what the body drew on
    that page; the pass adds no page. *)
Theorem every_page_gets_its_footer (rt : runtime) (adminName : string) (i : nat) :
  (forall sd a b c,
     let body := ldoc (SalesReport.body rt sd a b c) in
     let d := SalesReport.generateSalesReportPDF rt sd a b adminName c in
     numPages d = numPages body
     /\ ((1 <= i <= numPages d)%nat ->
         page_cmds i d
         = (page_cmds i body ++ footer_cmds rt adminName i (numPages d))%list))
  /\ (forall rows a b,
        let body := ldoc (ReturnsReport.body rt rows a b) in
        let d := ReturnsReport.generateReturnsReportPDF rt rows a b adminName in
        numPages d = numPages body
        /\ ((1 <= i <= numPages d)%nat ->
            page_cmds i d
            = (page_cmds i body ++ footer_cmds rt adminName i (numPages d))%list))
  /\ (forall rows a b,
        let body := ldoc (InventoryReport.body rt rows a b) in
        let d := InventoryReport.generateInventoryReportPDF rt rows a b adminName in
        numPages d = numPages body
        /\ ((1 <= i <= numPages d)%nat ->
            page_cmds i d
            = (page_cmds i body ++ footer_cmds rt adminName i (numPages d))%list)).
Proof.
  split; [|split].
  - intros sd a b c body d. subst body d. unfold SalesReport.generateSalesReportPDF.
    rewrite stamp_footers_pages. apply stamped.
  - intros rows a b body d. subst body d. unfold ReturnsReport.generateReturnsReportPDF.
    rewrite stamp_footers_pages. apply stamped.
  - intros rows a b body d. subst body d. unfold InventoryReport.generateInventoryReportPDF.
    rewrite stamp_footers_pages. apply stamped.
Qed.


(** Page 2 of the report of 38 rows. *)
Lemma every_page_gets_its_footer_witness :
  let sd := Some [Samples.ord Samples.rows38] in
  let d := SalesReport.generateSalesReportPDF Sample.rt sd "2025-11-01" "2025-11-03" "me" "Daily" in
  (1 <= 2 <= numPages d)%nat
  /\ page_cmds 2 d
     = (page_cmds 2 (ldoc (SalesReport.body Sample.rt sd "2025-11-01" "2025-11-03" "Daily"))
          ++ footer_cmds Sample.rt "me" 2 (numPages d))%list.
Proof.
  intros sd d.
  assert (H : (1 <= 2 <= numPages d)%nat) by (vm_compute; lia).
  split; [exact H|].
  exact (proj2 (proj1 (every_page_gets_its_footer Sample.rt "me" 2)
                  sd "2025-11-01" "2025-11-03" "Daily") H).
Defined.

(* ================================================================= *)
(** ** What a row loop appends *)

Section RowsInOrder.

Variables (R S : Type).
Variable lay_of : S -> layout.
Variable step : nat -> R -> S -> S.
Variables (threshold first_row : Q).
Variable redraw : list cmd.
Variable cmds : nat -> R -> Q -> list cmd.
Variable height : R -> Q.

Hypothesis step_lay : forall i r st,
  lay_of (step i r st)
  = advance (height r)
      (draw (cmds i r (ypos (break_check threshold first_row redraw (lay_of st))))
            (break_check threshold first_row redraw (lay_of st))).
Hypothesis first_row_fits : first_row <= threshold.

(** [laid_out i p rows l]: the log [l] holds, for each row in turn and
    for nothing else, the calls of that row at one position that is not
    past the threshold; a row is on the page of the row before it, or it
    opens the page after that one, and then the redrawn block comes just
    before it.  [p] is the page of the row before the first. *)
Fixpoint laid_out (i p : nat) (rows : list R) (l : list (nat * cmd)) : Prop :=
  match rows with
  | [] => l = []
  | r :: rest =>
      exists (started : bool) (y : Q) (tail : list (nat * cmd)),
        y <= threshold
        /\ l = (map (pair (if started then Datatypes.S p else p))
                    ((if started then redraw else []) ++ cmds i r y) ++ tail)%list
        /\ laid_out (Datatypes.S i) (if started then Datatypes.S p else p) rest tail
  end.

Lemma forEach_laid_out (rows : list R) :
  forall (i : nat) (st : S),
    currentPage (ldoc (lay_of st)) = numPages (ldoc (lay_of st)) ->
    exists l,
      log (ldoc (lay_of (forEach_from step i rows st))) = (log (ldoc (lay_of st)) ++ l)%list
      /\ laid_out i (currentPage (ldoc (lay_of st))) rows l.
Proof.
  induction rows as [|r rows IH]; intros i st Hc; cbn [forEach_from laid_out].
  - exists []. now rewrite app_nil_r.
  - destruct (IH (Datatypes.S i) (step i r st)) as (l & Hl & Hlaid).
    { rewrite step_lay. unfold break_check.
      destruct (Qgtb (ypos (lay_of st)) threshold); cbn; [reflexivity | exact Hc]. }
    rewrite Hl. clear Hl IH. rewrite step_lay in Hlaid |- *.
    pose proof (@break_check_le threshold first_row redraw first_row_fits (lay_of st)) as Hy.
    unfold break_check in *.
    destruct (Qgtb (ypos (lay_of st)) threshold);
      cbn [ldoc advance draw emits addPage log currentPage numPages ypos] in *.
    + exists (map (pair (Datatypes.S (numPages (ldoc (lay_of st)))))
                (redraw ++ cmds i r first_row) ++ l)%list.
      split; [now rewrite map_app, !app_assoc|].
      exists true, first_row, l. rewrite Hc. auto.
    + exists (map (pair (currentPage (ldoc (lay_of st)))) (cmds i r (ypos (lay_of st))) ++ l)%list.
      split; [now rewrite !app_assoc|].
      exists false, (ypos (lay_of st)), l. auto.
Qed.

(** The cursor after the loop, when every row has the same height. *)
Lemma forEach_ypos_le (bound : Q) (rows : list R) :
  (forall r, threshold + height r <= bound) ->
  forall (i : nat) (st : S),
    ypos (lay_of st) <= bound ->
    ypos (lay_of (forEach_from step i rows st)) <= bound.
Proof.
  intros Hh. induction rows as [|r rows IH]; intros i st H; cbn [forEach_from]; [exact H|].
  apply IH. rewrite step_lay. cbn [ypos advance draw].
  pose proof (@break_check_le threshold first_row redraw first_row_fits (lay_of st)) as Hy.
  specialize (Hh r). lra.
Qed.

End RowsInOrder.

(* ================================================================= *)
(** ** Rows per page of a report *)

Section ReportCapacity.

Variables (R S : Type).
Variable lay_of : S -> layout.
Variable step : nat -> R -> S -> S.
Variables (threshold first_row : Q).
Variable redraw : list cmd.
Variable cmds : nat -> R -> Q -> list cmd.

(** The threshold [T]; the cursor of the first row of a page lies
    between [lo] and [hi]; [kmin] and [kmax] bound the rows of a page. *)
Variables (T lo hi kmin kmax : Z).

Hypothesis step_lay : forall i r st,
  lay_of (step i r st)
  = advance 6
      (draw (cmds i r (ypos (break_check threshold first_row redraw (lay_of st))))
            (break_check threshold first_row redraw (lay_of st))).
Hypothesis threshold_T : threshold == inject_Z T.
Hypothesis first_row_lo : inject_Z lo <= first_row.
Hypothesis first_row_hi : first_row <= inject_Z hi.
Hypothesis first_row_fits : first_row <= threshold.
Hypothesis min_rows : (hi + 6 * (kmin - 1) <= T)%Z.
Hypothesis max_rows : (T < lo + 6 * kmax)%Z.

(** After [k] rows on a document that had [n0] pages: the current page
    holds some [c] rows, every page before it held at least [kmin] and
    at most [kmax], and the cursor stands between [lo + 6c] and
    [hi + 6c]. *)
Definition capacity_inv (n0 : nat) (k : Z) (l : layout) : Prop :=
  let pages := (Z.of_nat (numPages (ldoc l)) - Z.of_nat n0)%Z in
  (exists c : Z, (0 <= c)%Z /\ ypos l <= inject_Z (hi + 6 * c) /\ (kmin * pages + c <= k)%Z)
  /\ (exists c : Z, (0 <= c <= kmax)%Z /\ inject_Z (lo + 6 * c) <= ypos l
                    /\ (k <= kmax * pages + c)%Z)
  /\ (n0 <= numPages (ldoc l))%nat.

Lemma inject_Z_6 (a c : Z) : inject_Z (a + 6 * c) == inject_Z a + 6 * inject_Z c.
Proof. now rewrite inject_Z_plus, inject_Z_mult. Qed.

Lemma lo_le_T : (lo <= T)%Z.
Proof. rewrite Zle_Qle. rewrite <- threshold_T. now apply Qle_trans with first_row. Qed.

Lemma capacity_start (l : layout) :
  inject_Z lo <= ypos l -> ypos l <= inject_Z hi -> capacity_inv (numPages (ldoc l)) 0 l.
Proof.
  intros H1 H2. pose proof lo_le_T as HT.
  split; [|split; [|lia]]; exists 0%Z; (split; [lia|]); (split; [|lia]);
    now rewrite Z.mul_0_r, Z.add_0_r.
Qed.

Lemma capacity_step (n0 : nat) (k : Z) (i : nat) (r : R) (st : S) :
  capacity_inv n0 k (lay_of st) -> capacity_inv n0 (k + 1) (lay_of (step i r st)).
Proof.
  intros ((c & Hc & Hy & Hk) & (c' & Hc' & Hy' & Hk') & Hn).
  pose proof lo_le_T as HT.
  rewrite step_lay. unfold capacity_inv, break_check.
  destruct (Qgtb (ypos (lay_of st)) threshold) eqn:E;
    cbn [ldoc advance draw emits addPage numPages ypos].
  - apply Qgtb_true_lt in E.
    assert (F : (T < hi + 6 * c)%Z).
    { rewrite Zlt_Qlt. rewrite <- threshold_T. now apply Qlt_le_trans with (ypos (lay_of st)). }
    split; [|split; [|lia]]; exists 1%Z; (split; [lia|]).
    + split; [rewrite inject_Z_6; change (inject_Z 1) with 1; lra | nia].
    + split; [rewrite inject_Z_6; change (inject_Z 1) with 1; lra | nia].
  - apply Qgtb_false_le in E.
    assert (F : (lo + 6 * c' <= T)%Z).
    { rewrite Zle_Qle. rewrite <- threshold_T. now apply Qle_trans with (ypos (lay_of st)). }
    split; [|split; [|lia]].
    + exists (c + 1)%Z. split; [lia|]. split; [|lia].
      rewrite inject_Z_6 in *. rewrite inject_Z_plus. change (inject_Z 1) with 1. lra.
    + exists (c' + 1)%Z. split; [lia|]. split; [|lia].
      rewrite inject_Z_6 in *. rewrite inject_Z_plus. change (inject_Z 1) with 1. lra.
Qed.

Lemma capacity_forEach (n0 : nat) (rows : list R) :
  forall (k : Z) (i : nat) (st : S),
    capacity_inv n0 k (lay_of st) ->
    capacity_inv n0 (k + Z.of_nat (List.length rows)) (lay_of (forEach_from step i rows st)).
Proof.
  induction rows as [|r rows IH]; intros k i st H; cbn [forEach_from List.length].
  - now rewrite Z.add_0_r.
  - replace (k + Z.of_nat (Datatypes.S (List.length rows)))%Z
      with (k + 1 + Z.of_nat (List.length rows))%Z by lia.
    apply IH. now apply capacity_step.
Qed.

(** From a cursor between [lo] and [hi], [n] rows end on page [p] with
    [kmin (p - p0) <= n <= kmax (p - p0 + 1)]. *)
Lemma capacity_pages (rows : list R) (st : S) :
  inject_Z lo <= ypos (lay_of st) -> ypos (lay_of st) <= inject_Z hi ->
  let p0 := numPages (ldoc (lay_of st)) in
  let p := numPages (ldoc (lay_of (forEach step rows st))) in
  (p0 <= p)%nat
  /\ (kmin * (Z.of_nat p - Z.of_nat p0) <= Z.of_nat (List.length rows)
      <= kmax * (Z.of_nat p - Z.of_nat p0 + 1))%Z.
Proof.
  intros H1 H2 p0 p.
  pose proof (@capacity_forEach _ rows 0%Z 0%nat st (capacity_start _ H1 H2)) as H.
  fold (forEach step rows st) in H.
  destruct H as ((c & Hc & _ & Hk) & (c' & Hc' & _ & Hk') & Hn).
  fold p p0 in Hk, Hk', Hn. split; [exact Hn|]. nia.
Qed.

(** As long as the cursor stays within the threshold no page starts:
    the cursor moves down by 6 for every row. *)
Lemma forEach_no_break (rows : list R) :
  forall (i : nat) (st : S),
    ypos (lay_of st) + 6 * inject_Z (Z.of_nat (List.length rows)) <= threshold + 6 ->
    let st' := forEach_from step i rows st in
    numPages (ldoc (lay_of st')) = numPages (ldoc (lay_of st))
    /\ currentPage (ldoc (lay_of st')) = currentPage (ldoc (lay_of st))
    /\ ypos (lay_of st') == ypos (lay_of st) + 6 * inject_Z (Z.of_nat (List.length rows)).
Proof.
  induction rows as [|r rows IH]; intros i st H; cbn zeta; cbn [forEach_from List.length].
  - split; [reflexivity|]. split; [reflexivity|]. change (inject_Z (Z.of_nat 0)) with 0. ring.
  - cbn [List.length] in H.
    rewrite Nat2Z.inj_succ, <- Z.add_1_r, inject_Z_plus in H |- *.
    change (inject_Z 1) with 1 in H |- *.
    assert (H0 : 0 <= inject_Z (Z.of_nat (List.length rows))).
    { change 0 with (inject_Z 0). rewrite <- Zle_Qle. lia. }
    assert (E : Qgtb (ypos (lay_of st)) threshold = false).
    { unfold Qgtb. apply negb_false_iff, Qle_bool_iff. lra. }
    assert (L : lay_of (step i r st) = advance 6 (draw (cmds i r (ypos (lay_of st))) (lay_of st))).
    { rewrite step_lay. unfold break_check. now rewrite E. }
    destruct (IH (Datatypes.S i) (step i r st)) as (H1 & H2 & H3).
    { rewrite L. cbn [ypos advance draw]. lra. }
    cbn zeta in H1, H2, H3. rewrite H1, H2, H3, L. cbn [ypos advance draw ldoc emits numPages currentPage].
    split; [reflexivity|]. split; [reflexivity|]. ring.
Qed.

End ReportCapacity.

(* ================================================================= *)
(** ** How far down the body of a report draws *)

(** No part of the call lies below [limit]: a text by its baseline, a
    line by its two ends, a rectangle and an image by their lower edge. *)
Definition above (limit : Q) (c : cmd) : Prop :=
  match c with
  | AddImage _ y _ h => y + h <= limit
  | Text _ _ y _ => y <= limit
  | TextLines _ _ y => y <= limit
  | Line _ y1 _ y2 => y1 <= limit /\ y2 <= limit
  | Rect _ y _ h => y + h <= limit
  | _ => True
  end.

Definition all_above (limit : Q) (d : doc) : Prop :=
  Forall (fun e => above limit (snd e)) (log d).

Section Above.

Variable limit : Q.

Lemma all_above_emits (cs : list cmd) (d : doc) :
  all_above limit d -> Forall (above limit) cs -> all_above limit (emits cs d).
Proof.
  intros H1 H2. unfold all_above. rewrite log_emits. apply Forall_app. split; [exact H1|].
  apply Forall_forall. intros e He. apply in_map_iff in He. destruct He as (c & <- & Hc).
  cbn. rewrite Forall_forall in H2. now apply H2.
Qed.

Lemma all_above_addPage (d : doc) : all_above limit d -> all_above limit (addPage d).
Proof. exact (fun H => H). Qed.

Variables (R S : Type).
Variable lay_of : S -> layout.
Variable step : nat -> R -> S -> S.
Variables (threshold first_row : Q).
Variable redraw : list cmd.
Variable cmds : nat -> R -> Q -> list cmd.
Variable height : R -> Q.

Hypothesis step_lay : forall i r st,
  lay_of (step i r st)
  = advance (height r)
      (draw (cmds i r (ypos (break_check threshold first_row redraw (lay_of st))))
            (break_check threshold first_row redraw (lay_of st))).
Hypothesis first_row_fits : first_row <= threshold.
Hypothesis redraw_above : Forall (above limit) redraw.
Hypothesis cmds_above : forall i r y, y <= threshold -> Forall (above limit) (cmds i r y).

Lemma all_above_forEach (rows : list R) :
  forall (i : nat) (st : S),
    all_above limit (ldoc (lay_of st)) ->
    all_above limit (ldoc (lay_of (forEach_from step i rows st))).
Proof.
  induction rows as [|r rows IH]; intros i st H; cbn [forEach_from]; [exact H|].
  apply IH. rewrite step_lay. cbn [ldoc advance draw].
  apply all_above_emits.
  - unfold break_check. destruct (Qgtb (ypos (lay_of st)) threshold); [|exact H].
    cbn [ldoc]. apply all_above_emits; [now apply all_above_addPage | exact redraw_above].
  - apply cmds_above. now apply break_check_le.
Qed.

End Above.

(** Closes a goal [all_above limit d] on a document built by the layout
    combinators from one that is known to be above the limit. *)
Ltac stays_above :=
  repeat (cbn [ldoc ypos draw advance newPage];
          match goal with
          | H : all_above ?b ?d |- all_above ?b ?d => exact H
          | |- all_above _ (emits _ _) => apply all_above_emits
          | |- all_above _ (addPage _) => apply all_above_addPage
          | |- all_above _ newDoc => constructor
          | |- Forall _ (_ :: _) => constructor
          | |- Forall _ (_ ++ _)%list => apply Forall_app; split
          | |- Forall _ [] => constructor
          | |- above _ _ => cbn [above]
          | |- _ /\ _ => split
          | |- True => exact I
          | |- _ <= _ => cbn [ypos] in *; lra
          end).

Section ReportGeometry.

Variable rt : runtime.

(** Where the three reports stand when their row loop starts. *)
Definition at_first_row (l : layout) : Prop :=
  numPages (ldoc l) = 1%nat /\ currentPage (ldoc l) = 1%nat
  /\ 28 <= ypos l /\ ypos l <= 72 /\ all_above 281 (ldoc l).

Lemma sales_head_at_first_row (a b c : string) :
  at_first_row (SalesReport.table_head rt (SalesReport.header rt a b c fresh)).
Proof.
  unfold at_first_row, SalesReport.table_head, SalesReport.header, fresh,
    SalesReport.drawTableHeaders.
  destruct (logoLoaded rt); cbn [ldoc ypos draw advance emits numPages currentPage newDoc];
    (split; [reflexivity|]; split; [reflexivity|]; split; [lra|]; split; [lra|]);
    stays_above.
Qed.

Lemma returns_head_at_first_row (a b : jstext) :
  at_first_row (ReturnsReport.table_head rt (ReturnsReport.header rt a b fresh)).
Proof.
  unfold at_first_row, ReturnsReport.table_head, ReturnsReport.header, fresh,
    ReturnsReport.drawTableHeaders.
  destruct (logoLoaded rt); cbn [ldoc ypos draw advance emits numPages currentPage newDoc];
    (split; [reflexivity|]; split; [reflexivity|]; split; [lra|]; split; [lra|]);
    stays_above.
Qed.

Lemma inventory_head_at_first_row (a b : jstext) :
  at_first_row (InventoryReport.table_head rt (InventoryReport.header rt a b fresh)).
Proof.
  unfold at_first_row, InventoryReport.table_head, InventoryReport.header, fresh,
    InventoryReport.header_labels.
  destruct (logoLoaded rt); cbn [ldoc ypos draw advance emits numPages currentPage newDoc];
    (split; [reflexivity|]; split; [reflexivity|]; split; [lra|]; split; [lra|]);
    stays_above.
Qed.

End ReportGeometry.

(* ================================================================= *)
(** ** The three reports, from the first row to the summary *)

Section ReportLoop.

Variables (R S : Type).
Variable lay_of : S -> layout.
Variable step : nat -> R -> S -> S.
Variable first_row : Q.
Variable redraw : list cmd.
Variable cmds : nat -> R -> Q -> list cmd.

Hypothesis step_lay : forall i r st,
  lay_of (step i r st)
  = advance 6
      (draw (cmds i r (ypos (break_check 270 first_row redraw (lay_of st))))
            (break_check 270 first_row redraw (lay_of st))).
Hypothesis first_row_28 : first_row == 28.
Hypothesis redraw_above : Forall (above 281) redraw.
Hypothesis cmds_above : forall i r y, y <= 270 -> Forall (above 281) (cmds i r y).

(** What the row loop of a report leaves behind. *)
Lemma report_rows (rows : list R) (st : S) :
  at_first_row (lay_of st) ->
  let st' := forEach step rows st in
  (34 * (numPages (ldoc (lay_of st')) - 1) <= List.length rows
   <= 41 * numPages (ldoc (lay_of st')))%nat
  /\ ypos (lay_of st') <= 276
  /\ all_above 281 (ldoc (lay_of st'))
  /\ exists l, log (ldoc (lay_of st')) = (log (ldoc (lay_of st)) ++ l)%list
               /\ laid_out 270 redraw cmds 0 1 rows l.
Proof.
  intros (Hn & Hc & H28 & H72 & Ha) st'.
  assert (Hf : first_row <= 270) by lra.
  split; [|split; [|split]].
  - assert (T1 : 270 == inject_Z 270) by reflexivity.
    assert (T2 : inject_Z 28 <= first_row) by (change (inject_Z 28) with 28; lra).
    assert (T3 : first_row <= inject_Z 72) by (change (inject_Z 72) with 72; lra).
    assert (T4 : inject_Z 28 <= ypos (lay_of st)) by exact H28.
    assert (T5 : ypos (lay_of st) <= inject_Z 72) by exact H72.
    pose proof (@capacity_pages _ _ lay_of step 270 first_row redraw cmds 270 28 72 34 41
                  step_lay T1 T2 T3 Hf ltac:(lia) ltac:(lia) rows st T4 T5) as H.
    cbn zeta in H. rewrite Hn in H. fold st' in H. lia.
  - apply (@forEach_ypos_le _ _ lay_of step 270 first_row redraw cmds (fun _ => 6)
             step_lay Hf 276); [intros _; lra | lra].
  - now apply (@all_above_forEach 281 _ _ lay_of step 270 first_row redraw cmds (fun _ => 6)
                 step_lay Hf redraw_above cmds_above).
  - rewrite <- Hc.
    apply (@forEach_laid_out _ _ lay_of step 270 first_row redraw cmds (fun _ => 6)
             step_lay Hf). congruence.
Qed.

End ReportLoop.

Section ReportBodies.

Variable rt : runtime.

Lemma sales_redraw_above : Forall (above 281) (sales_redraw rt).
Proof. unfold sales_redraw, SalesReport.drawTableHeaders. stays_above. Qed.

Lemma sales_cmds_above (i : nat) (r : SalesReport.row) (y : Q) :
  y <= 270 -> Forall (above 281) (SalesReport.row_cmds rt i r y).
Proof. intros H. unfold SalesReport.row_cmds. destruct (i mod 2 =? 0)%nat; stays_above. Qed.

Lemma returns_redraw_above : Forall (above 281) (returns_redraw rt).
Proof. unfold returns_redraw, ReturnsReport.drawTableHeaders. stays_above. Qed.

Lemma returns_cmds_above (i : nat) (r : ReturnsReport.item) (y : Q) :
  y <= 270 -> Forall (above 281) (ReturnsReport.row_cmds rt i r y).
Proof. intros H. unfold ReturnsReport.row_cmds. destruct (i mod 2 =? 0)%nat; stays_above. Qed.

Lemma inventory_redraw_above : Forall (above 281) (inventory_redraw rt).
Proof. unfold inventory_redraw, InventoryReport.header_labels. stays_above. Qed.

Lemma inventory_cmds_above (i : nat) (r : InventoryReport.item) (y : Q) :
  y <= 270 -> Forall (above 281) (InventoryReport.row_cmds rt i r y).
Proof. intros H. unfold InventoryReport.row_cmds. destruct (i mod 2 =? 0)%nat; stays_above. Qed.

Lemma Qeq_28 : 20 + 8 == 28.
Proof. reflexivity. Qed.

Lemma Qeq_28' : 20 + 3 + 5 == 28.
Proof. reflexivity. Qed.

Definition sales_rows (rows : list SalesReport.row) (a b c : string) : SalesReport.rows_state :=
  SalesReport.table_rows rt rows (SalesReport.table_head rt (SalesReport.header rt a b c fresh)).

Definition returns_rows (rows : list ReturnsReport.item) (a b : jstext) : ReturnsReport.rows_state :=
  ReturnsReport.table_rows rt rows
    (ReturnsReport.table_head rt (ReturnsReport.header rt a b fresh)).

Definition inventory_rows (rows : list InventoryReport.item) (a b : jstext) : layout :=
  InventoryReport.table_rows rt rows
    (InventoryReport.table_head rt (InventoryReport.header rt a b fresh)).

Lemma sales_report_rows (rows : list SalesReport.row) (a b c : string) :
  let st := sales_rows rows a b c in
  (34 * (numPages (ldoc (SalesReport.lay st)) - 1) <= List.length rows
   <= 41 * numPages (ldoc (SalesReport.lay st)))%nat
  /\ ypos (SalesReport.lay st) <= 276
  /\ all_above 281 (ldoc (SalesReport.lay st))
  /\ exists l,
       log (ldoc (SalesReport.lay st))
       = (log (ldoc (SalesReport.table_head rt (SalesReport.header rt a b c fresh))) ++ l)%list
       /\ laid_out 270 (sales_redraw rt) (SalesReport.row_cmds rt) 0 1 rows l.
Proof.
  apply (@report_rows _ _ SalesReport.lay (SalesReport.row_step rt) (20 + 8) (sales_redraw rt)
           (SalesReport.row_cmds rt) (sales_step_lay rt) Qeq_28 sales_redraw_above
           sales_cmds_above rows
           {| SalesReport.lay := SalesReport.table_head rt (SalesReport.header rt a b c fresh);
              SalesReport.grandTotal := 0 |}).
  apply sales_head_at_first_row.
Qed.

Lemma returns_report_rows (rows : list ReturnsReport.item) (a b : jstext) :
  let st := returns_rows rows a b in
  (34 * (numPages (ldoc (ReturnsReport.lay st)) - 1) <= List.length rows
   <= 41 * numPages (ldoc (ReturnsReport.lay st)))%nat
  /\ ypos (ReturnsReport.lay st) <= 276
  /\ all_above 281 (ldoc (ReturnsReport.lay st))
  /\ exists l,
       log (ldoc (ReturnsReport.lay st))
       = (log (ldoc (ReturnsReport.table_head rt (ReturnsReport.header rt a b fresh))) ++ l)%list
       /\ laid_out 270 (returns_redraw rt) (ReturnsReport.row_cmds rt) 0 1 rows l.
Proof.
  apply (@report_rows _ _ ReturnsReport.lay (ReturnsReport.row_step rt) (20 + 8)
           (returns_redraw rt) (ReturnsReport.row_cmds rt) (returns_step_lay rt) Qeq_28
           returns_redraw_above returns_cmds_above rows
           {| ReturnsReport.lay := ReturnsReport.table_head rt (ReturnsReport.header rt a b fresh);
              ReturnsReport.totalRefundAmount := 0 |}).
  apply returns_head_at_first_row.
Qed.

Lemma inventory_report_rows (rows : list InventoryReport.item) (a b : jstext) :
  let l1 := inventory_rows rows a b in
  (34 * (numPages (ldoc l1) - 1) <= List.length rows <= 41 * numPages (ldoc l1))%nat
  /\ ypos l1 <= 276
  /\ all_above 281 (ldoc l1)
  /\ exists l,
       log (ldoc l1)
       = (log (ldoc (InventoryReport.table_head rt (InventoryReport.header rt a b fresh))) ++ l)%list
       /\ laid_out 270 (inventory_redraw rt) (InventoryReport.row_cmds rt) 0 1 rows l.
Proof.
  apply (@report_rows _ _ (fun l : layout => l) (InventoryReport.row_step rt) (20 + 3 + 5)
           (inventory_redraw rt) (InventoryReport.row_cmds rt) (inventory_step_lay rt) Qeq_28'
           inventory_redraw_above inventory_cmds_above rows
           (InventoryReport.table_head rt (InventoryReport.header rt a b fresh))).
  apply inventory_head_at_first_row.
Qed.

(** After the rows: the Grand Total row and the summary panel of the
    sales report start at most one page, and stay above 281. *)
Lemma sales_tail (sd : option (list SalesReport.order)) (rows : list SalesReport.row)
  (st : SalesReport.rows_state) :
  ypos (SalesReport.lay st) <= 276 ->
  all_above 281 (ldoc (SalesReport.lay st)) ->
  all_above 281 (ldoc (SalesReport.summary_block rt sd rows (SalesReport.grand_total_block rt st)))
  /\ (numPages (ldoc (SalesReport.lay st))
      <= numPages (ldoc (SalesReport.summary_block rt sd rows
                           (SalesReport.grand_total_block rt st)))
      <= Datatypes.S (numPages (ldoc (SalesReport.lay st))))%nat.
Proof.
  intros Hy Ha. unfold SalesReport.summary_block, SalesReport.grand_total_block.
  destruct (Qgtb (ypos (SalesReport.lay st)) 265) eqn:E1;
    [apply Qgtb_true_lt in E1 | apply Qgtb_false_le in E1];
    cbn [ldoc ypos draw advance newPage];
    match goal with |- context [Qgtb ?a 280] => destruct (Qgtb a 280) eqn:E2 end;
    [apply Qgtb_true_lt in E2 | apply Qgtb_false_le in E2
     | apply Qgtb_true_lt in E2 | apply Qgtb_false_le in E2];
    try (exfalso; lra);
    (split; [stays_above | cbn; lia]).
Qed.

Lemma returns_tail (rows : list ReturnsReport.item) (st : ReturnsReport.rows_state) :
  ypos (ReturnsReport.lay st) <= 276 ->
  all_above 281 (ldoc (ReturnsReport.lay st)) ->
  all_above 281 (ldoc (ReturnsReport.summary_block rt rows st))
  /\ (numPages (ldoc (ReturnsReport.lay st))
      <= numPages (ldoc (ReturnsReport.summary_block rt rows st))
      <= Datatypes.S (numPages (ldoc (ReturnsReport.lay st))))%nat.
Proof.
  intros Hy Ha. unfold ReturnsReport.summary_block.
  cbn [ldoc ypos draw advance newPage].
  match goal with |- context [Qgtb ?a 280] => destruct (Qgtb a 280) eqn:E2 end;
    [apply Qgtb_true_lt in E2 | apply Qgtb_false_le in E2];
    (split; [stays_above | cbn; lia]).
Qed.

Lemma inventory_tail (rows : list InventoryReport.item) (l : layout) :
  ypos l <= 276 ->
  all_above 281 (ldoc l) ->
  all_above 281 (ldoc (InventoryReport.summary_block rt rows l))
  /\ (numPages (ldoc l) <= numPages (ldoc (InventoryReport.summary_block rt rows l))
      <= Datatypes.S (numPages (ldoc l)))%nat.
Proof.
  intros Hy Ha. unfold InventoryReport.summary_block.
  cbn [ldoc ypos draw advance newPage].
  match goal with |- context [Qgtb ?a 280] => destruct (Qgtb a 280) eqn:E2 end;
    [apply Qgtb_true_lt in E2 | apply Qgtb_false_le in E2];
    (split; [stays_above | cbn; lia]).
Qed.

End ReportBodies.

Section FooterLog.

Variable rt : runtime.
Variable adminName : string.

Lemma stamped_above (limit : Q) (d : doc) :
  all_above limit d ->
  forall e, In e (log (stamp_footers rt adminName d)) ->
            above limit (snd e)
            \/ In (snd e) (footer_cmds rt adminName (fst e) (numPages (stamp_footers rt adminName d))).
Proof.
  intros H e He. rewrite numPages_stamp_footers. rewrite stamp_footers_pages in He.
  apply In_stamp_pages in He.
  destruct He as [He|He]; [left | now right].
  unfold all_above in H. rewrite Forall_forall in H. now apply H.
Qed.

End FooterLog.

(** X2.  The number of pages of a finished report is tied to the number
    of rows it was given: a page holds at most 41 rows, and apart from
    the last two pages every page holds at least 34.  So [n] rows make
    at least [n / 41] and at most [n / 34 + 2] pages. *)
Theorem report_page_count (rt : runtime) (adminName : string) :
  (forall sd a b c,
     let d := SalesReport.generateSalesReportPDF rt sd a b adminName c in
     let n := List.length (SalesReport.flattenedData rt sd) in
     (34 * (numPages d - 2) <= n <= 41 * numPages d)%nat)
  /\ (forall rows a b,
        let d := ReturnsReport.generateReturnsReportPDF rt rows a b adminName in
        (34 * (numPages d - 2) <= List.length rows <= 41 * numPages d)%nat)
  /\ (forall rows a b,
        let d := InventoryReport.generateInventoryReportPDF rt rows a b adminName in
        (34 * (numPages d - 2) <= List.length rows <= 41 * numPages d)%nat).
Proof.
  split; [|split].
  - intros sd a b c d n. subst d n.
    unfold SalesReport.generateSalesReportPDF, SalesReport.body.
    rewrite numPages_stamp_footers.
    destruct (sales_report_rows rt (SalesReport.flattenedData rt sd) a b c)
      as (Hp & Hy & Ha & _).
    destruct (sales_tail rt sd (SalesReport.flattenedData rt sd) _ Hy Ha) as [_ Hq].
    unfold sales_rows, fresh in *. lia.
  - intros rows a b d. subst d.
    unfold ReturnsReport.generateReturnsReportPDF, ReturnsReport.body.
    rewrite numPages_stamp_footers.
    destruct (returns_report_rows rt rows a b) as (Hp & Hy & Ha & _).
    destruct (returns_tail rt rows _ Hy Ha) as [_ Hq].
    unfold returns_rows, fresh in *. lia.
  - intros rows a b d. subst d.
    unfold InventoryReport.generateInventoryReportPDF, InventoryReport.body.
    rewrite numPages_stamp_footers.
    destruct (inventory_report_rows rt rows a b) as (Hp & Hy & Ha & _).
    destruct (inventory_tail rt rows _ Hy Ha) as [_ Hq].
    unfold inventory_rows, fresh in *. lia.
Qed.

(** X3.  Whatever the input, every drawing call of a finished report
    either lies wholly above [y = 281] or is one of the footer calls of
    its page: the rows, the Grand Total row and the summary never reach
    the footer line at [y = 285]. *)
Theorem report_body_clears_footer (rt : runtime) (adminName : string) :
  let clear (d : doc) :=
    Forall (fun e => above 281 (snd e)
                     \/ In (snd e) (footer_cmds rt adminName (fst e) (numPages d)))
           (log d) in
  (forall sd a b c, clear (SalesReport.generateSalesReportPDF rt sd a b adminName c))
  /\ (forall rows a b, clear (ReturnsReport.generateReturnsReportPDF rt rows a b adminName))
  /\ (forall rows a b, clear (InventoryReport.generateInventoryReportPDF rt rows a b adminName)).
Proof.
  intros clear. subst clear. cbn beta.
  split; [|split]; intros; apply Forall_forall; intros e; apply stamped_above.
  - unfold SalesReport.body.
    destruct (sales_report_rows rt (SalesReport.flattenedData rt sd) a b c)
      as (_ & Hy & Ha & _).
    exact (proj1 (sales_tail rt sd (SalesReport.flattenedData rt sd) _ Hy Ha)).
  - unfold ReturnsReport.body.
    destruct (returns_report_rows rt rows a b) as (_ & Hy & Ha & _).
    exact (proj1 (returns_tail rt rows _ Hy Ha)).
  - unfold InventoryReport.body.
    destruct (inventory_report_rows rt rows a b) as (_ & Hy & Ha & _).
    exact (proj1 (inventory_tail rt rows _ Hy Ha)).
Qed.

Section ReceiptLoop.

Variable rt : runtime.

Lemma receipt_before_rows_pages (s : Receipt.sale) :
  numPages (ldoc (Receipt.before_rows rt s)) = 1%nat
  /\ currentPage (ldoc (Receipt.before_rows rt s)) = 1%nat.
Proof.
  unfold Receipt.before_rows, Receipt.table_head, Receipt.info_panels, Receipt.header.
  destruct (logoLoaded rt); split; reflexivity.
Qed.

Lemma margin_fits : Receipt.margin <= 750.
Proof. unfold Receipt.margin. lra. Qed.

End ReceiptLoop.

(** X4.  The row loop of each of the four documents draws, after what
    precedes the table, the calls of every row once, in input order and
    one row after the other, each at a position that is not past the
    break threshold; the only other calls it makes are the redrawn
    column header, and only as the first calls of a page it has just
    started (the receipt redraws nothing).  A row is never split over
    two pages, and rows never go back to an earlier page. *)
Theorem rows_drawn_once_in_order (rt : runtime) :
  (forall sd a b n c,
     exists l rest,
       log (SalesReport.generateSalesReportPDF rt sd a b n c)
       = (log (ldoc (SalesReport.table_head rt (SalesReport.header rt a b c fresh)))
            ++ l ++ rest)%list
       /\ laid_out 270 (sales_redraw rt) (SalesReport.row_cmds rt) 0 1
                   (SalesReport.flattenedData rt sd) l)
  /\ (forall rows a b n,
        exists l rest,
          log (ReturnsReport.generateReturnsReportPDF rt rows a b n)
          = (log (ldoc (ReturnsReport.table_head rt (ReturnsReport.header rt a b fresh)))
               ++ l ++ rest)%list
          /\ laid_out 270 (returns_redraw rt) (ReturnsReport.row_cmds rt) 0 1 rows l)
  /\ (forall rows a b n,
        exists l rest,
          log (InventoryReport.generateInventoryReportPDF rt rows a b n)
          = (log (ldoc (InventoryReport.table_head rt (InventoryReport.header rt a b fresh)))
               ++ l ++ rest)%list
          /\ laid_out 270 (inventory_redraw rt) (InventoryReport.row_cmds rt) 0 1 rows l)
  /\ (forall s,
        exists l rest,
          log (Receipt.generateSaleReceipt rt s)
          = (log (ldoc (Receipt.before_rows rt s)) ++ l ++ rest)%list
          /\ laid_out 750 [] (fun _ : nat => Receipt.row_cmds rt) 0 1 (Receipt.items s) l).
Proof.
  split; [|split; [|split]].
  - intros sd a b n c.
    destruct (sales_report_rows rt (SalesReport.flattenedData rt sd) a b c)
      as (_ & _ & _ & l & Hl & Hlaid).
    destruct (sales_keeps_rows rt sd a b n c) as [rest Hr].
    exists l, rest. split; [|exact Hlaid].
    unfold sales_rows in Hl. rewrite Hr, Hl. now rewrite app_assoc.
  - intros rows a b n.
    destruct (returns_report_rows rt rows a b) as (_ & _ & _ & l & Hl & Hlaid).
    destruct (returns_keeps_rows rt rows a b n) as [rest Hr].
    exists l, rest. split; [|exact Hlaid].
    unfold returns_rows in Hl. rewrite Hr, Hl. now rewrite app_assoc.
  - intros rows a b n.
    destruct (inventory_report_rows rt rows a b) as (_ & _ & _ & l & Hl & Hlaid).
    destruct (inventory_keeps_rows rt rows a b n) as [rest Hr].
    exists l, rest. split; [|exact Hlaid].
    unfold inventory_rows in Hl. rewrite Hr, Hl. now rewrite app_assoc.
  - intros s.
    destruct (receipt_before_rows_pages rt s) as [Hn Hc].
    destruct (@forEach_laid_out _ _ (fun l : layout => l) (Receipt.row_step rt) 750
                Receipt.margin [] (fun _ : nat => Receipt.row_cmds rt)
                (Receipt.rowHeight rt) (receipt_step_lay rt) margin_fits
                (Receipt.items s) 0%nat (Receipt.before_rows rt s))
      as (l & Hl & Hlaid); [congruence|].
    rewrite Hc in Hlaid.
    assert (Hr : extends (ldoc (Receipt.table_rows rt (Receipt.items s) (Receipt.before_rows rt s)))
                         (Receipt.generateSaleReceipt rt s)).
    { unfold Receipt.generateSaleReceipt, Receipt.totals_block. grows. }
    destruct Hr as [rest Hr].
    exists l, rest. split; [|exact Hlaid].
    unfold Receipt.table_rows, forEach in Hr. rewrite Hr, Hl. now rewrite app_assoc.
Qed.

(* ================================================================= *)
(** ** Returns report: the Amount column and the refunded total *)

(** [Number(item.refund_amount) || 0]. *)
Definition refund (rt : runtime) (r : ReturnsReport.item) : Q :=
  num_or_zero (Number rt (ReturnsReport.refund_amount r)).

(** The left fold of [totalRefundAmount += Number(item.refund_amount) || 0]. *)
Definition sum_refunds (rt : runtime) (rows : list ReturnsReport.item) : Q :=
  fold_left (fun acc r => acc + refund rt r) rows 0.

(** The amounts of the Amount column (x = 180). *)
Definition refund_column : doc -> list string := column_amounts ReturnsReport.col_amount.

Section RefundColumn.

Variable rt : runtime.

Lemma refund_column_footers (adminName : string) (d : doc) :
  refund_column (stamp_footers rt adminName d) = refund_column d.
Proof.
  unfold stamp_footers, refund_column.
  apply (column_amounts_fold ReturnsReport.col_amount
           (fun i => footer_cmds rt adminName i (numPages d))).
  reflexivity.
Qed.

Lemma refund_column_row (i : nat) (r : ReturnsReport.item) (y : Q) :
  flat_map (amount_at ReturnsReport.col_amount) (ReturnsReport.row_cmds rt i r y)
  = [formatCurrency rt (JNum (refund rt r))].
Proof.
  unfold ReturnsReport.row_cmds. rewrite flat_map_app.
  destruct (i mod 2 =? 0)%nat; reflexivity.
Qed.

Lemma refund_column_break (l : layout) :
  refund_column (ldoc (ReturnsReport.page_break rt l)) = refund_column (ldoc l).
Proof.
  unfold ReturnsReport.page_break, refund_column.
  destruct (Qgtb (ypos l) 270); [|reflexivity].
  unfold draw, advance, newPage; cbn [ldoc ypos].
  rewrite !column_amounts_emits, column_amounts_addPage. cbn. now rewrite !app_nil_r.
Qed.

Lemma refund_column_rows (rows : list ReturnsReport.item) :
  forall (i : nat) (st : ReturnsReport.rows_state),
    let st' := forEach_from (ReturnsReport.row_step rt) i rows st in
    refund_column (ldoc (ReturnsReport.lay st'))
    = (refund_column (ldoc (ReturnsReport.lay st))
         ++ map (fun r => formatCurrency rt (JNum (refund rt r))) rows)%list
    /\ ReturnsReport.totalRefundAmount st'
       = fold_left (fun acc r => acc + refund rt r) rows (ReturnsReport.totalRefundAmount st).
Proof.
  induction rows as [|r rows IH]; intros i st; cbn zeta; cbn [forEach_from map fold_left].
  - now rewrite app_nil_r.
  - destruct (IH (S i) (ReturnsReport.row_step rt i r st)) as [H1 H2].
    rewrite H1, H2. split; [|reflexivity].
    unfold ReturnsReport.row_step at 1. cbn [ReturnsReport.lay advance draw ldoc].
    unfold refund_column at 1. rewrite column_amounts_emits.
    fold refund_column.
    rewrite refund_column_break, refund_column_row.
    now rewrite <- app_assoc.
Qed.

Lemma refund_column_head (a b : jstext) :
  refund_column (ldoc (ReturnsReport.table_head rt (ReturnsReport.header rt a b fresh))) = [].
Proof.
  unfold ReturnsReport.table_head, ReturnsReport.header, fresh, refund_column.
  destruct (logoLoaded rt); unfold draw, advance; cbn [ldoc ypos];
    rewrite !column_amounts_emits; reflexivity.
Qed.

Lemma refund_column_summary (rows : list ReturnsReport.item) (st : ReturnsReport.rows_state) :
  refund_column (ldoc (ReturnsReport.summary_block rt rows st))
  = refund_column (ldoc (ReturnsReport.lay st)).
Proof.
  unfold ReturnsReport.summary_block, refund_column.
  cbn [ldoc ypos draw advance newPage].
  match goal with |- context [Qgtb ?a 280] => destruct (Qgtb a 280) end;
    cbn [ldoc ypos draw advance newPage];
    repeat first [rewrite column_amounts_emits | rewrite column_amounts_addPage];
    cbn [flat_map amount_at app];
    destruct (Qeq_bool (pageWidth_mm rt / 2 + 10) ReturnsReport.col_amount);
    cbn; now rewrite !app_nil_r.
Qed.

End RefundColumn.


(* ================================================================= *)
(** ** The tally of products *)

Section TallyFacts.

Lemma get_none_not_key (o : Tally.t) (k : string) :
  Tally.get o k = None -> ~ In k (Tally.keys o).
Proof.
  intros H Hin. destruct (get_of_key o k Hin) as [v Hv]. congruence.
Qed.

Lemma get_replace_same (o : Tally.t) (k : string) (v0 v : Q) :
  Tally.get o k = Some v0 -> Tally.get (Tally.replace o k v) k = Some v.
Proof.
  induction o as [|[k' v'] o IH]; cbn; [discriminate|].
  destruct (k' =? k) eqn:E; cbn; rewrite E; auto.
Qed.

Lemma get_replace_other (o : Tally.t) (k k' : string) (v : Q) :
  k' <> k -> Tally.get (Tally.replace o k v) k' = Tally.get o k'.
Proof.
  intros Hne. induction o as [|[k1 v1] o IH]; cbn; [reflexivity|].
  destruct (String.eqb_spec k1 k) as [->|E]; cbn.
  - destruct (String.eqb_spec k k'); [congruence | reflexivity].
  - now rewrite IH.
Qed.

Lemma get_insert_new_same (o : Tally.t) (k : string) (v : Q) :
  Tally.get o k = None -> Tally.get (Tally.insert_new o k v) k = Some v.
Proof.
  induction o as [|[k' v'] o IH]; cbn; [now rewrite String.eqb_refl|].
  destruct (k' =? k) eqn:E; [discriminate|]. intros H.
  destruct (Tally.array_index k) as [n|]; [destruct (Tally.array_index k') as [n'|]|];
    try destruct (n <? n')%N; cbn; rewrite ?String.eqb_refl, ?E; auto.
Qed.

Lemma get_insert_new_other (o : Tally.t) (k k' : string) (v : Q) :
  k' <> k -> Tally.get (Tally.insert_new o k v) k' = Tally.get o k'.
Proof.
  intros Hne. apply not_eq_sym in Hne. apply String.eqb_neq in Hne.
  induction o as [|[k1 v1] o IH]; cbn; [now rewrite Hne|].
  destruct (Tally.array_index k) as [n|]; [destruct (Tally.array_index k1) as [n1|]|];
    try destruct (n <? n1)%N; cbn; rewrite ?Hne, ?IH; reflexivity.
Qed.

(** Reading back the key that was just written, and any other key. *)
Lemma get_set_same (o : Tally.t) (k : string) (v : Q) :
  Tally.get (Tally.set o k v) k = Some v.
Proof.
  unfold Tally.set. destruct (Tally.get o k) eqn:E.
  - now apply get_replace_same with q.
  - now apply get_insert_new_same.
Qed.

Lemma get_set_other (o : Tally.t) (k k' : string) (v : Q) :
  k' <> k -> Tally.get (Tally.set o k v) k' = Tally.get o k'.
Proof.
  intros H. unfold Tally.set. destruct (Tally.get o k).
  - now apply get_replace_other.
  - now apply get_insert_new_other.
Qed.

Lemma In_keys_insert_new (o : Tally.t) (k x : string) (v : Q) :
  In x (Tally.keys (Tally.insert_new o k v)) <-> x = k \/ In x (Tally.keys o).
Proof.
  unfold Tally.keys. induction o as [|[k1 v1] o IH]; cbn; [intuition congruence|].
  destruct (Tally.array_index k) as [n|]; [destruct (Tally.array_index k1) as [n1|]|];
    try destruct (n <? n1)%N; cbn; rewrite ?IH; intuition congruence.
Qed.

Lemma NoDup_keys_insert_new (o : Tally.t) (k : string) (v : Q) :
  Tally.get o k = None -> NoDup (Tally.keys o) -> NoDup (Tally.keys (Tally.insert_new o k v)).
Proof.
  intros Hk. pose proof (get_none_not_key o k Hk) as Hnot. revert Hk Hnot.
  unfold Tally.keys. induction o as [|[k1 v1] o IH]; cbn; intros Hk Hnot Hnd.
  - constructor; [tauto | constructor].
  - destruct (String.eqb_spec k1 k) as [->|E]; [discriminate|].
    inversion Hnd as [|? ? Hn1 Hnd']; subst.
    assert (G : NoDup (k1 :: map fst (Tally.insert_new o k v))).
    { constructor; [|apply IH; auto].
      intros C. apply (In_keys_insert_new o k k1 v) in C. destruct C; auto. }
    destruct (Tally.array_index k) as [n|]; [destruct (Tally.array_index k1) as [n1|]|];
      try destruct (n <? n1)%N; cbn; auto; constructor; cbn; auto.
Qed.

Lemma NoDup_keys_set (o : Tally.t) (k : string) (v : Q) :
  NoDup (Tally.keys o) -> NoDup (Tally.keys (Tally.set o k v)).
Proof.
  intros H. unfold Tally.set. destruct (Tally.get o k) eqn:E.
  - now rewrite keys_replace.
  - now apply NoDup_keys_insert_new.
Qed.

Lemma In_keys_set (o : Tally.t) (k x : string) (v : Q) :
  In x (Tally.keys (Tally.set o k v)) <-> x = k \/ In x (Tally.keys o).
Proof.
  unfold Tally.set. destruct (Tally.get o k) eqn:E.
  - rewrite keys_replace. split; [now right|]. intros [->|H]; [|exact H].
    now apply key_of_get with q.
  - apply In_keys_insert_new.
Qed.

End TallyFacts.

(** The quantity sold under one product name: the rows of that name,
    added up from zero in row order. *)
Definition sold (name : string) (rows : list SalesReport.row) : Q :=
  fold_left (fun acc r => if SalesReport.r_productName r =? name
                          then acc + SalesReport.r_quantity r else acc)
            rows 0.

Section ProductCounts.

Definition count_step (counts : Tally.t) (it : SalesReport.row) : Tally.t :=
  Tally.set counts (SalesReport.r_productName it)
    (num_or_zero (Tally.get counts (SalesReport.r_productName it)) + SalesReport.r_quantity it).

Lemma productCounts_fold (rows : list SalesReport.row) :
  SalesReport.productCounts rows = fold_left count_step rows [].
Proof. reflexivity. Qed.

Lemma counts_fold (name : string) (rows : list SalesReport.row) :
  forall (o : Tally.t),
    let o' := fold_left count_step rows o in
    tally o' name
    = fold_left (fun acc r => if SalesReport.r_productName r =? name
                              then acc + SalesReport.r_quantity r else acc)
                rows (tally o name)
    /\ (In name (Tally.keys o')
        <-> In name (Tally.keys o) \/ exists r, In r rows /\ SalesReport.r_productName r = name)
    /\ (NoDup (Tally.keys o) -> NoDup (Tally.keys o')).
Proof.
  induction rows as [|r rows IH]; intros o; cbn zeta; cbn [fold_left].
  - split; [reflexivity|]. split; [|auto]. split; [now left|].
    intros [H|(r & [] & _)]. exact H.
  - destruct (IH (count_step o r)) as (H1 & H2 & H3). cbn zeta in *.
    rewrite H1, H2. clear H1 H2 IH.
    split; [|split].
    + f_equal. unfold count_step, tally.
      destruct (String.eqb_spec (SalesReport.r_productName r) name) as [E|E].
      * rewrite E. now rewrite get_set_same.
      * rewrite get_set_other by congruence. reflexivity.
    + unfold count_step. rewrite In_keys_set. split.
      * intros [[->|H]|(r' & Hr' & E)]; eauto.
        -- right. exists r. split; [now left | reflexivity].
        -- right. exists r'. split; [now right | exact E].
      * intros [H|(r' & [->|Hr'] & E)]; eauto.
    + intros Hnd. apply H3. now apply NoDup_keys_set.
Qed.

Lemma productCounts_tally (name : string) (rows : list SalesReport.row) :
  tally (SalesReport.productCounts rows) name = sold name rows
  /\ (In name (Tally.keys (SalesReport.productCounts rows))
      <-> exists r, In r rows /\ SalesReport.r_productName r = name)
  /\ NoDup (Tally.keys (SalesReport.productCounts rows)).
Proof.
  rewrite productCounts_fold.
  destruct (counts_fold name rows []) as (H1 & H2 & H3). cbn zeta in *.
  split; [exact H1|]. split; [|apply H3; constructor].
  rewrite H2. cbn. tauto.
Qed.

(** A list that is not empty has a last position where [f] is largest. *)
Lemma exists_last_max (f : string -> Q) (l : list string) :
  l <> [] ->
  exists l1 k l2,
    l = (l1 ++ k :: l2)%list
    /\ (forall x, In x l1 -> f x <= f k)
    /\ (forall x, In x l2 -> f x < f k).
Proof.
  induction l as [|a l IH]; [congruence|]. intros _.
  destruct l as [|b l'].
  - exists [], a, []. cbn. intuition.
  - destruct IH as (l1 & k & l2 & E & H1 & H2); [discriminate|].
    destruct (Qlt_le_dec (f k) (f a)) as [Hlt|Hle].
    + exists [], a, (b :: l'). split; [reflexivity|]. split; [intros x []|].
      intros x Hx. rewrite E in Hx. apply in_app_or in Hx.
      destruct Hx as [Hx|[<-|Hx]].
      * eapply Qle_lt_trans; [apply H1, Hx | exact Hlt].
      * exact Hlt.
      * eapply Qlt_trans; [apply H2, Hx | exact Hlt].
    + exists (a :: l1), k, l2. split; [now rewrite E|]. split; [|exact H2].
      intros x [<-|Hx]; auto.
Qed.

End ProductCounts.



(* ================================================================= *)
(** ** Orders, rows and the allow-list of statuses *)

Section Flatten.

Variable rt : runtime.

Lemma filter_const {A : Type} (b : bool) (l : list A) :
  filter (fun _ => b) l = if b then l else [].
Proof. destruct b; induction l as [|x l IH]; cbn; congruence. Qed.

Lemma flatten_order_allowed (o : SalesReport.order) :
  SalesReport.flatten_order rt o
  = if SalesReport.allowed (SalesReport.status o)
    then SalesReport.flatten_order rt o else [].
Proof.
  destruct (SalesReport.allowed (SalesReport.status o)) eqn:E; [reflexivity|].
  unfold SalesReport.flatten_order. now rewrite E, filter_const.
Qed.

Lemma flatten_order_length (o : SalesReport.order) :
  SalesReport.allowed (SalesReport.status o) = true ->
  List.length (SalesReport.flatten_order rt o) = List.length (SalesReport.items o).
Proof.
  intros E. unfold SalesReport.flatten_order. now rewrite E, length_map, filter_const.
Qed.

Lemma flat_map_relevant (l : list SalesReport.order) :
  flat_map (SalesReport.flatten_order rt) l
  = flat_map (SalesReport.flatten_order rt)
      (filter (fun o => SalesReport.allowed (SalesReport.status o)) l).
Proof.
  induction l as [|o l IH]; cbn [flat_map filter]; [reflexivity|].
  rewrite (flatten_order_allowed o).
  destruct (SalesReport.allowed (SalesReport.status o)); cbn [flat_map app]; now rewrite IH.
Qed.

Lemma flattened_length (l : list SalesReport.order) :
  List.length (flat_map (SalesReport.flatten_order rt)
                 (filter (fun o => SalesReport.allowed (SalesReport.status o)) l))
  = list_sum (map (fun o => List.length (SalesReport.items o))
                (filter (fun o => SalesReport.allowed (SalesReport.status o)) l)).
Proof.
  induction l as [|o l IH]; cbn [filter]; [reflexivity|].
  destruct (SalesReport.allowed (SalesReport.status o)) eqn:E; [|exact IH].
  cbn [flat_map map]. rewrite length_app, IH. cbn [list_sum fold_right].
  now rewrite (flatten_order_length o E).
Qed.

Lemma relevantOrders_app (a b : list SalesReport.order) :
  SalesReport.relevantOrders (Some (a ++ b)%list)
  = (SalesReport.relevantOrders (Some a) ++ SalesReport.relevantOrders (Some b))%list.
Proof. unfold SalesReport.relevantOrders. cbn. apply filter_app. Qed.

End Flatten.

(** X8.  The table and the summary of the sales report are about the
    same orders: the rows are the items of the orders whose status is on
    the allow-list, order by order and item by item, so there are as
    many rows as these orders have items; these are the orders that
    [totalTransactions] counts and whose amounts [totalRevenue] adds.
    An order with any other status gives no row. *)
Theorem rows_come_from_counted_orders (rt : runtime)
  (salesData : option (list SalesReport.order)) :
  SalesReport.flattenedData rt salesData
  = flat_map (SalesReport.flatten_order rt) (SalesReport.relevantOrders salesData)
  /\ List.length (SalesReport.flattenedData rt salesData)
     = list_sum (map (fun o => List.length (SalesReport.items o))
                   (SalesReport.relevantOrders salesData))
  /\ map SalesReport.r_productName (SalesReport.flattenedData rt salesData)
     = flat_map (fun o => map SalesReport.productName (SalesReport.items o))
         (SalesReport.relevantOrders salesData)
  /\ forall o, SalesReport.allowed (SalesReport.status o) = false ->
               SalesReport.flatten_order rt o = [].
Proof.
  assert (E : SalesReport.flattenedData rt salesData
              = flat_map (SalesReport.flatten_order rt) (SalesReport.relevantOrders salesData)).
  { unfold SalesReport.flattenedData, SalesReport.relevantOrders. apply flat_map_relevant. }
  split; [exact E|]. split; [|split].
  - rewrite E. unfold SalesReport.relevantOrders. apply flattened_length.
  - rewrite E. unfold SalesReport.relevantOrders.
    induction (SalesReport.filteredOrders salesData) as [|o l IH]; cbn [filter]; [reflexivity|].
    destruct (SalesReport.allowed (SalesReport.status o)) eqn:F; [|exact IH].
    cbn [flat_map]. rewrite map_app, IH. f_equal.
    unfold SalesReport.flatten_order. now rewrite F, map_map, filter_const.
  - intros o F. rewrite flatten_order_allowed. now rewrite F.
Qed.

(* ================================================================= *)
(** ** From [getSalesReport] to the sales report *)

Section PreparedSales.

Variable rt : runtime.
Variable toPhilippineTime : jstext -> jstext.

Lemma prepared_status (s : Controller.sale) (its : list Controller.sale_item) :
  truthy_text (Controller.status s) = false ->
  SalesReport.status (Controller.prepare_sale rt toPhilippineTime s its) = TStr "N/A".
Proof.
  unfold Controller.prepare_sale. cbn [SalesReport.status].
  destruct (Controller.status s) as [| |t]; cbn; try reflexivity.
  destruct (t =? ""); [reflexivity | discriminate].
Qed.

Lemma totalRevenue_fold (l : list SalesReport.order) (a : Q) :
  fold_left (fun sum o => sum + num_or_zero (Number rt (SalesReport.totalAmount o)))
            (filter (fun o => SalesReport.allowed (SalesReport.status o)) l) a
  = fold_left (fun sum o => if SalesReport.allowed (SalesReport.status o)
                            then sum + num_or_zero (Number rt (SalesReport.totalAmount o))
                            else sum) l a.
Proof.
  revert a. induction l as [|o l IH]; intros a; cbn [filter fold_left]; [reflexivity|].
  destruct (SalesReport.allowed (SalesReport.status o)); cbn [fold_left]; apply IH.
Qed.

Lemma left_out (o : SalesReport.order) (before after : list SalesReport.order) :
  SalesReport.allowed (SalesReport.status o) = false ->
  SalesReport.flattenedData rt (Some (before ++ o :: after)%list)
  = SalesReport.flattenedData rt (Some (before ++ after)%list)
  /\ SalesReport.relevantOrders (Some (before ++ o :: after)%list)
     = SalesReport.relevantOrders (Some (before ++ after)%list).
Proof.
  intros E. split.
  - unfold SalesReport.flattenedData. cbn [SalesReport.filteredOrders].
    rewrite !flat_map_app. cbn [flat_map].
    rewrite (flatten_order_allowed rt o), E. reflexivity.
  - unfold SalesReport.relevantOrders. cbn [SalesReport.filteredOrders].
    rewrite !filter_app. cbn [filter]. now rewrite E.
Qed.

(** A row made from an item that [getSalesReport] prepared. *)
Lemma prepared_row_total (it : Controller.sale_item) (x : SalesReport.item) :
  Controller.map_item rt it = Some x ->
  let q := num_or_zero (Number rt (SalesReport.quantity x)) in
  let u := num_or_zero (Number rt (SalesReport.unitPrice x)) in
  let t := num_or_zero (Number rt (SalesReport.totalPrice x)) in
  t == u * q /\ 0 <= q.
Proof.
  unfold Controller.map_item.
  destruct (le_zero (Controller.actualQty rt it)) eqn:E; [discriminate|].
  intros H. injection H as <-. cbn [SalesReport.quantity SalesReport.unitPrice SalesReport.totalPrice].
  destruct (Controller.actualQty rt it) as [q|];
    destruct (Number rt (or_else (Controller.price it) (JNum 0))) as [p|];
    cbn [JS.mul Receipt.of_num Number num_or_zero le_zero] in *.
  - split; [reflexivity|].
    destruct (Qle_bool q 0) eqn:F; [discriminate|].
    destruct (Qlt_le_dec 0 q) as [G|G]; [now apply Qlt_le_weak|].
    apply Qle_bool_iff in G. congruence.
  - split; [ring | ].
    destruct (Qle_bool q 0) eqn:F; [discriminate|].
    destruct (Qlt_le_dec 0 q) as [G|G]; [now apply Qlt_le_weak|].
    apply Qle_bool_iff in G. congruence.
  - split; [ring | apply Qle_refl].
  - split; [ring | apply Qle_refl].
Qed.

End PreparedSales.

(** X10.  Every row the sales report makes from an item prepared by
    [getSalesReport] is consistent: its total is its unit price times
    its quantity, and its quantity is not negative.  This holds also
    when the price or a quantity in the database is not a number: the
    row then shows zero for the total and for the factor that was not a
    number. *)
Theorem prepared_rows_are_consistent (rt : runtime) (toPhilippineTime : jstext -> jstext)
  (s : Controller.sale) (its : list Controller.sale_item) :
  Forall (fun r => SalesReport.r_totalPrice r == SalesReport.r_unitPrice r * SalesReport.r_quantity r
                   /\ 0 <= SalesReport.r_quantity r)
         (SalesReport.flatten_order rt (Controller.prepare_sale rt toPhilippineTime s its)).
Proof.
  unfold SalesReport.flatten_order, Controller.prepare_sale.
  cbn [SalesReport.items SalesReport.status SalesReport.orderId SalesReport.customerName
       SalesReport.orderDate].
  rewrite filter_const.
  destruct (SalesReport.allowed (TStr (text_or (Controller.status s) "N/A"))); [|constructor].
  unfold Controller.prepare_items.
  induction its as [|it its IH]; cbn [map flat_map]; [constructor|].
  destruct (Controller.map_item rt it) as [x|] eqn:F; cbn [app map]; [|exact IH].
  constructor; [|exact IH].
  cbn [SalesReport.r_totalPrice SalesReport.r_unitPrice SalesReport.r_quantity].
  exact (prepared_row_total rt it F).
Qed.

(* ================================================================= *)
(** ** Pagination of the report endpoints *)

(** [getSalesReport], [getInventoryReport] and [getReturnsReport] compute
    the window of a page in the same way.  [page] and [limit] arrive as
    the defaults [1] and [10] or as query strings; they are modelled for
    the case that they denote whole numbers, where the arithmetic
    coercion of the string and [parseInt] agree.  [total] is the row
    count the database returns. *)
Module Pagination.

(** [const offset = (page - 1) * limit]. *)
Definition offset (page limit : Z) : Z := (page - 1) * limit.

(** [const totalPages = Math.ceil(total / limit)]; [limit] is not zero. *)
Definition totalPages (total limit : Z) : Z :=
  Qceiling (inject_Z total / inject_Z limit).

(** [from: offset + 1]. *)
Definition from (page limit : Z) : Z := offset page limit + 1.

(** [to: Math.min(offset + parseInt(limit), total)]. *)
Definition to (page limit total : Z) : Z := Z.min (offset page limit + limit) total.

End Pagination.

Section PaginationFacts.

Lemma Qceiling_div (total limit : Z) :
  (0 < limit)%Z -> Qceiling (inject_Z total / inject_Z limit) = (- ((- total) / limit))%Z.
Proof.
  intros H. destruct limit as [|p|p]; try lia.
  unfold Qceiling, Qfloor, Qdiv, Qinv, Qmult, Qopp, inject_Z. cbn [Qnum Qden].
  rewrite Z.mul_1_r, Pos.mul_1_l. reflexivity.
Qed.

(** [totalPages] is the least number of pages of [limit] rows that hold
    [total] rows. *)
Lemma totalPages_spec (total limit : Z) :
  (0 < limit)%Z ->
  ((Pagination.totalPages total limit - 1) * limit < total
   <= Pagination.totalPages total limit * limit)%Z.
Proof.
  intros H. unfold Pagination.totalPages. rewrite Qceiling_div by exact H.
  pose proof (Z.div_mod (- total) limit ltac:(lia)) as E.
  pose proof (Z.mod_pos_bound (- total) limit H) as B.
  nia.
Qed.

Lemma window (page limit total : Z) :
  (0 < limit)%Z -> (0 <= total)%Z -> (1 <= page <= Pagination.totalPages total limit)%Z ->
  (Pagination.from page limit <= Pagination.to page limit total <= total)%Z
  /\ (Pagination.to page limit total - Pagination.from page limit + 1 <= limit)%Z
  /\ ((page < Pagination.totalPages total limit)%Z ->
      (Pagination.to page limit total - Pagination.from page limit + 1 = limit)%Z
      /\ Pagination.from (page + 1) limit = (Pagination.to page limit total + 1)%Z)
  /\ (page = Pagination.totalPages total limit -> Pagination.to page limit total = total).
Proof.
  intros Hl Ht Hp. pose proof (totalPages_spec total Hl) as S.
  unfold Pagination.from, Pagination.to, Pagination.offset.
  set (n := Pagination.totalPages total limit) in *.
  split; [|split; [|split]].
  - nia.
  - nia.
  - intros Hlt. assert ((page - 1) * limit + limit <= total)%Z by nia.
    rewrite Z.min_l by lia. split; [lia|]. ring.
  - intros ->. apply Z.min_r. nia.
Qed.

Lemma beyond (page limit total : Z) :
  (0 < limit)%Z -> (0 <= total)%Z -> (Pagination.totalPages total limit < page)%Z ->
  (0 <= Pagination.totalPages total limit)%Z
  /\ Pagination.to page limit total = total
  /\ (Pagination.to page limit total < Pagination.from page limit)%Z.
Proof.
  intros Hl Ht Hp. pose proof (totalPages_spec total Hl) as S.
  unfold Pagination.from, Pagination.to, Pagination.offset.
  set (n := Pagination.totalPages total limit) in *.
  assert (0 <= n)%Z by nia.
  assert (total <= (page - 1) * limit)%Z by nia.
  split; [assumption|]. split; [apply Z.min_r; lia | lia].
Qed.

End PaginationFacts.

(** X11.  For a positive page size, a row count that is not negative
    and a page between 1 and [totalPages]: the window [from .. to] of
    the page is not empty, lies within [1 .. total] and holds at most
    [limit] rows; every page but the last holds exactly [limit] rows and
    the next page starts right after it; the last page ends at the last
    row; and [totalPages] is the least number of pages that hold all
    rows. *)
Theorem page_windows_tile_the_rows (page limit total : Z) :
  (0 < limit)%Z -> (0 <= total)%Z -> (1 <= page <= Pagination.totalPages total limit)%Z ->
  Pagination.from 1 limit = 1%Z
  /\ ((Pagination.totalPages total limit - 1) * limit < total
      <= Pagination.totalPages total limit * limit)%Z
  /\ (Pagination.from page limit <= Pagination.to page limit total <= total)%Z
  /\ (Pagination.to page limit total - Pagination.from page limit + 1 <= limit)%Z
  /\ ((page < Pagination.totalPages total limit)%Z ->
      (Pagination.to page limit total - Pagination.from page limit + 1 = limit)%Z
      /\ Pagination.from (page + 1) limit = (Pagination.to page limit total + 1)%Z)
  /\ (page = Pagination.totalPages total limit -> Pagination.to page limit total = total).
Proof.
  intros Hl Ht Hp. split; [unfold Pagination.from, Pagination.offset; lia|].
  split; [now apply totalPages_spec|]. now apply window.
Qed.

Lemma page_windows_tile_the_rows_witness :
  (0 < 10)%Z /\ (0 <= 25)%Z /\ (1 <= 3 <= Pagination.totalPages 25 10)%Z
  /\ Pagination.from 3 10 = 21%Z /\ Pagination.to 3 10 25 = 25%Z.
Proof.
  assert (H1 : (0 < 10)%Z) by lia.
  assert (H2 : (0 <= 25)%Z) by lia.
  assert (H3 : (1 <= 3 <= Pagination.totalPages 25 10)%Z) by (vm_compute; split; discriminate).
  pose proof (page_windows_tile_the_rows H1 H2 H3) as H.
  split; [exact H1|]. split; [exact H2|]. split; [exact H3|].
  split; [reflexivity|]. apply H. reflexivity.
Defined.

(** X12.  A page past the last one is not rejected: its window is
    reported with [to = total] and [from] beyond it, so [from > to].  In
    particular, with no rows at all, page 1 is reported as "from 1 to 0"
    of 0 pages. *)
Theorem page_past_the_end (page limit total : Z) :
  (0 < limit)%Z -> (0 <= total)%Z -> (Pagination.totalPages total limit < page)%Z ->
  Pagination.to page limit total = total
  /\ (Pagination.to page limit total < Pagination.from page limit)%Z
  /\ (total = 0%Z ->
      Pagination.totalPages total limit = 0%Z
      /\ Pagination.from 1 limit = 1%Z /\ Pagination.to 1 limit total = 0%Z).
Proof.
  intros Hl Ht Hp. destruct (beyond Hl Ht Hp) as (H0 & H1 & H2).
  split; [exact H1|]. split; [exact H2|].
  intros ->. pose proof (totalPages_spec 0 Hl) as S.
  split; [nia|]. unfold Pagination.from, Pagination.to, Pagination.offset.
  split; [lia | apply Z.min_r; lia].
Qed.

Lemma page_past_the_end_witness :
  (0 < 10)%Z /\ (0 <= 25)%Z /\ (Pagination.totalPages 25 10 < 4)%Z
  /\ Pagination.to 4 10 25 = 25%Z
  /\ (Pagination.to 4 10 25 < Pagination.from 4 10)%Z.
Proof.
  assert (H1 : (0 < 10)%Z) by lia.
  assert (H2 : (0 <= 25)%Z) by lia.
  assert (H3 : (Pagination.totalPages 25 10 < 4)%Z) by (vm_compute; reflexivity).
  pose proof (page_past_the_end H1 H2 H3) as H.
  split; [exact H1|]. split; [exact H2|]. split; [exact H3|].
  split; apply H.
Defined.

(* ================================================================= *)
(** ** The receipt: pages and the closing line *)

Section ReceiptPages.

Variable rt : runtime.

Lemma receipt_rows_pages (rows : list Receipt.item) :
  forall (i : nat) (l : layout),
    currentPage (ldoc l) = numPages (ldoc l) ->
    let l' := forEach_from (Receipt.row_step rt) i rows l in
    currentPage (ldoc l') = numPages (ldoc l')
    /\ (numPages (ldoc l) <= numPages (ldoc l') <= numPages (ldoc l) + List.length rows)%nat.
Proof.
  induction rows as [|r rows IH]; intros i l Hc; cbn zeta; cbn [forEach_from List.length].
  - split; [exact Hc | lia].
  - destruct (IH (Datatypes.S i) (Receipt.row_step rt i r l)) as [H1 H2].
    + unfold Receipt.row_step, Receipt.page_break.
      destruct (Qgtb (ypos l) 750); cbn; [reflexivity | exact Hc].
    + split; [exact H1|]. cbn zeta in H2.
      assert (H3 : (numPages (ldoc l) <= numPages (ldoc (Receipt.row_step rt i r l))
                    <= Datatypes.S (numPages (ldoc l)))%nat).
      { unfold Receipt.row_step, Receipt.page_break.
        destruct (Qgtb (ypos l) 750); cbn; lia. }
      lia.
Qed.

Lemma Qmax_ge (a b : Q) : a <= Receipt.Qmax a b /\ b <= Receipt.Qmax a b.
Proof.
  unfold Receipt.Qmax. destruct (Qle_bool a b) eqn:E.
  - apply Qle_bool_iff in E. split; [exact E | apply Qle_refl].
  - split; [apply Qle_refl|].
    destruct (Qlt_le_dec b a) as [H|H]; [now apply Qlt_le_weak|].
    apply Qle_bool_iff in H. congruence.
Qed.

Lemma receipt_closing_line (s : Receipt.sale) (l : layout) :
  let d := ldoc (Receipt.totals_block rt s l) in
  numPages d = numPages (ldoc l)
  /\ exists y,
       In (currentPage (ldoc l),
           Text "Thank you for your purchase!" (pageWidth_pt rt / 2) y ACenter) (log d)
       /\ 800 <= y /\ ypos l + 51 <= y.
Proof.
  unfold Receipt.totals_block.
  destruct ((toLowerCase (Receipt.paymentMethod s) =? "cash")
            && Receipt.gt_zero (Number rt (Receipt.default_num (Receipt.tenderedAmount s) 0)));
    cbn [ldoc ypos draw advance emits numPages currentPage];
    (split; [reflexivity|]);
    match goal with
    | |- context [Text "Thank you for your purchase!" _ (Receipt.Qmax ?a ?b) _] =>
        exists (Receipt.Qmax a b); destruct (Qmax_ge a b) as [Ha Hb]
    end;
    (split; [cbn [log]; apply in_or_app; right; cbn; auto |]);
    (split; [exact Hb|]);
    (eapply Qle_trans; [|exact Ha]);
    unfold Receipt.LINE_HEIGHT, Receipt.FONT_SIZE_BODY; lra.
Qed.

End ReceiptPages.

(** X13.  The receipt starts a page only inside the item loop, so it has
    at most one page more than it has items.  Subtotal, cash lines,
    TOTAL and the closing line are never moved to a new page: they are
    drawn on the page of the last item, and the closing line at
    [max(y, 800)] for a [y] at least 51 below the end of the last row -
    however low on the page that row ends. *)
Theorem receipt_totals_stay_on_last_page (rt : runtime) (s : Receipt.sale) :
  let rows := Receipt.table_rows rt (Receipt.items s) (Receipt.before_rows rt s) in
  let d := Receipt.generateSaleReceipt rt s in
  numPages d = numPages (ldoc rows)
  /\ (1 <= numPages d <= 1 + List.length (Receipt.items s))%nat
  /\ exists y,
       In (numPages d, Text "Thank you for your purchase!" (pageWidth_pt rt / 2) y ACenter)
          (log d)
       /\ 800 <= y /\ ypos rows + 51 <= y.
Proof.
  intros rows d.
  destruct (receipt_before_rows_pages rt s) as [Hn Hc].
  assert (H : currentPage (ldoc rows) = numPages (ldoc rows)
              /\ (numPages (ldoc (Receipt.before_rows rt s)) <= numPages (ldoc rows)
                  <= numPages (ldoc (Receipt.before_rows rt s))
                     + List.length (Receipt.items s))%nat).
  { apply (@receipt_rows_pages rt (Receipt.items s) 0 (Receipt.before_rows rt s)).
    congruence. }
  destruct H as [H1 H2].
  assert (G : numPages d = numPages (ldoc rows)
              /\ exists y,
                   In (currentPage (ldoc rows),
                       Text "Thank you for your purchase!" (pageWidth_pt rt / 2) y ACenter)
                      (log d)
                   /\ 800 <= y /\ ypos rows + 51 <= y).
  { apply (receipt_closing_line rt s rows). }
  destruct G as (H3 & y & Hy & H800 & H51).
  split; [exact H3|]. split; [lia|].
  exists y. rewrite H3, <- H1. auto.
Qed.

(* ================================================================= *)
(** ** Data preparation: [ReportsController.getInventoryReport] *)

Module InventoryController.

(** A product joined with its inventory row, if it has one: [stock] and
    [reorder_point] are NULL when it has none. *)
Record product : Type := {
  name : jstext;
  category : jstext;
  brand : jstext;
  stock : option Z;
  reorder_point : option Z
}.

(** [COALESCE(v, d)]. *)
Definition coalesce (v : option Z) (d : Z) : Z :=
  match v with
  | Some z => z
  | None => d
  end.

(** [COALESCE(i.stock, 0) as current_stock]. *)
Definition current_stock (p : product) : Z := coalesce (stock p) 0.

(** The [CASE] expression selected [as stock_status] (part_000, lines
    173-177). *)
Definition stock_status (p : product) : string :=
  if (coalesce (stock p) 0 <=? 0)%Z then "Out of Stock"
  else if (coalesce (stock p) 0 <? coalesce (reorder_point p) 10)%Z then "Low Stock"
  else "In Stock".

(** The three counts of the summary (lines 263-265), over the products
    of the page. *)
Definition inStockProducts (products : list product) : nat :=
  List.length (filter (fun p => stock_status p =? "In Stock") products).
Definition lowStockProducts (products : list product) : nat :=
  List.length (filter (fun p => stock_status p =? "Low Stock") products).
Definition outOfStockProducts (products : list product) : nat :=
  List.length (filter (fun p => stock_status p =? "Out of Stock") products).

(** The callback of [products.map] (lines 276-286), with the fields the
    inventory report reads. *)
Definition map_product (p : product) : InventoryReport.item :=
  {| InventoryReport.productName := text_or (name p) "N/A";
     InventoryReport.category := text_or (category p) "N/A";
     InventoryReport.brand := text_or (brand p) "N/A";
     InventoryReport.currentStock :=
       inject_Z (if (current_stock p =? 0)%Z then 0 else current_stock p);
     InventoryReport.stockStatus := text_or (TStr (stock_status p)) "Out of Stock" |}.

End InventoryController.

Section InventoryCounts.

Import InventoryController.

Lemma stock_status_cases (p : product) :
  (stock_status p = "Out of Stock" /\ (current_stock p <= 0)%Z)
  \/ (stock_status p = "Low Stock"
      /\ (0 < current_stock p < coalesce (reorder_point p) 10)%Z)
  \/ (stock_status p = "In Stock"
      /\ (0 < current_stock p)%Z /\ (coalesce (reorder_point p) 10 <= current_stock p)%Z).
Proof.
  unfold stock_status, current_stock.
  destruct (Z.leb_spec (coalesce (stock p) 0) 0); [now left|].
  destruct (Z.ltb_spec (coalesce (stock p) 0) (coalesce (reorder_point p) 10));
    [right; left | right; right]; auto.
Qed.

Lemma mapped_status (p : product) :
  InventoryReport.stockStatus (map_product p) = stock_status p.
Proof.
  cbn. destruct (stock_status_cases p) as [[-> _]|[[-> _]|[-> _]]]; reflexivity.
Qed.

Lemma counts_partition (products : list product) :
  (inStockProducts products + lowStockProducts products + outOfStockProducts products
   = List.length products)%nat.
Proof.
  unfold inStockProducts, lowStockProducts, outOfStockProducts.
  induction products as [|p l IH]; [reflexivity|]. cbn [filter List.length].
  destruct (stock_status_cases p) as [[-> _]|[[-> _]|[-> _]]]; cbn; lia.
Qed.

Lemma low_stock_filter (products : list product) :
  List.length (filter (fun it => InventoryReport.stockStatus it =? "Low Stock")
                 (map map_product products))
  = lowStockProducts products.
Proof.
  unfold lowStockProducts.
  induction products as [|p l IH]; [reflexivity|]. cbn [map filter].
  rewrite mapped_status. destruct (stock_status p =? "Low Stock"); cbn; now rewrite IH.
Qed.

End InventoryCounts.

(** X14.  Every product of a page of [getInventoryReport] has exactly
    one of the three stock statuses, so the three counts of the summary
    add up to the number of products of the page.  A product is "Low
    Stock" exactly when its stock is positive and below its reorder
    point (10 when it has none), and "Out of Stock" also when its stock
    is negative or it has no inventory row.  The inventory report drawn
    from the mapped records shows the same low-stock count and the page
    size as its item count. *)
Theorem inventory_status_counts (rt : runtime) (products : list InventoryController.product)
  (startDate endDate : jstext) (adminName : string) :
  let d := InventoryReport.generateInventoryReportPDF rt
             (map InventoryController.map_product products) startDate endDate adminName in
  (InventoryController.inStockProducts products
   + InventoryController.lowStockProducts products
   + InventoryController.outOfStockProducts products
   = List.length products)%nat
  /\ (forall p,
        (InventoryController.stock_status p = "Low Stock"
         <-> (0 < InventoryController.current_stock p
              < InventoryController.coalesce (InventoryController.reorder_point p) 10)%Z)
        /\ (InventoryController.stock_status p = "Out of Stock"
            <-> (InventoryController.current_stock p <= 0)%Z))
  /\ doc_has_text ("Low Stock Items: "
                     ++ nat_to_string (InventoryController.lowStockProducts products)) d
  /\ doc_has_text ("Total Items: " ++ nat_to_string (List.length products)) d.
Proof.
  intros d. split; [apply counts_partition|]. split; [|split].
  - intros p.
    destruct (stock_status_cases p) as [[E H]|[[E H]|[E H]]]; rewrite E;
      (split; split; intros G; try discriminate; try reflexivity; try lia).
  - subst d. unfold InventoryReport.generateInventoryReportPDF, InventoryReport.body.
    eapply doc_has_text_extends; [apply extends_stamp_footers|].
    rewrite <- low_stock_filter. unfold InventoryReport.summary_block. find_text.
  - subst d. unfold InventoryReport.generateInventoryReportPDF, InventoryReport.body.
    eapply doc_has_text_extends; [apply extends_stamp_footers|].
    rewrite <- (length_map InventoryController.map_product products).
    unfold InventoryReport.summary_block. find_text.
Qed.

(* ================================================================= *)
(** ** Inventory report, second copy: [generateInventoryReportPDF] of part_002 *)

(** The second copy of the utility draws the inventory report with an
    earlier break of the page, another tint, another test before the
    summary, no panel behind the summary and another footer.  Its
    header, column header and truncation (lines 512-566, 594-597) are,
    token for token, those of the first copy, and are shared here. *)
Module Part002Inventory.

(** Lines 570-586. *)
Definition page_break (rt : runtime) (l : layout) : layout :=
  if Qgtb (ypos l) 250 then
    let l1 := newPage 20 l in
    let l2 := advance 3 (draw (SetFont Bold :: InventoryReport.header_labels (ypos l1)) l1) in
    let l3 := advance 5 (draw [Line 15 (ypos l2) (pageWidth_mm rt - 15) (ypos l2)] l2) in
    draw [SetFont Normal; SetFontSize 8] l3
  else l.

Definition row_cmds (rt : runtime) (index : nat) (it : InventoryReport.item) (y : Q) : list cmd :=
  ((if (index mod 2 =? 0)%nat
    then [SetFillColor 240 240 240; Rect 15 (y - 4) (pageWidth_mm rt - 30) 6]
    else []) ++
   [ SetTextColor 0 0 0;
     Text (InventoryReport.truncated_productName (InventoryReport.productName it))
          InventoryReport.col_productName y ALeft;
     Text (InventoryReport.category it) InventoryReport.col_category y ALeft;
     Text (InventoryReport.brand it) InventoryReport.col_brand y ALeft;
     Text (num_to_string rt (Some (InventoryReport.currentStock it)))
          InventoryReport.col_quantity y ALeft;
     Text (InventoryReport.stockStatus it) InventoryReport.col_status y ALeft ])%list.

(** The body of [inventoryData.forEach] (lines 568-607). *)
Definition row_step (rt : runtime) (index : nat) (it : InventoryReport.item) (l : layout)
  : layout :=
  let l1 := page_break rt l in
  advance 6 (draw (row_cmds rt index it (ypos l1)) l1).

Definition table_rows (rt : runtime) (rows : list InventoryReport.item) (l : layout) : layout :=
  forEach (row_step rt) rows l.

(** Lines 609-634. *)
Definition summary_block (rt : runtime) (inventoryData : list InventoryReport.item)
  (l : layout) : layout :=
  let pageWidth := pageWidth_mm rt in
  let l1 := advance 5 l in
  let l2 := advance 10 (draw [Line 15 (ypos l1) (pageWidth - 15) (ypos l1)] l1) in
  let totalItems := List.length inventoryData in
  let lowStockItems :=
    List.length (filter (fun it => InventoryReport.stockStatus it =? "Low Stock")
                   inventoryData) in
  let totalRemaining :=
    fold_left (fun sum it => sum + InventoryReport.currentStock it) inventoryData 0 in
  let l3 := if Qgtb (ypos l2) 200 then newPage 30 l2 else l2 in
  let l4 := advance 8 (draw [SetFontSize 12; SetFont Bold;
                              Text "Inventory Summary" 20 (ypos l3) ALeft] l3) in
  let l5 := advance 6 (draw [SetFontSize 10; SetFont Normal;
                              Text ("Total Items: " ++ nat_to_string totalItems) 20 (ypos l4) ALeft] l4) in
  let l6 := advance 6 (draw [Text ("Low Stock Items: " ++ nat_to_string lowStockItems)
                                   20 (ypos l5) ALeft] l5) in
  draw [Text ("Total Remaining: " ++ num_to_string rt (Some totalRemaining)) 20 (ypos l6) ALeft] l6.

(** Lines 637-645. *)
Definition footer_cmds (rt : runtime) (adminName : string) (i pageCount : nat) : list cmd :=
  [ SetFontSize 7; SetFont Normal;
    Text ("Generated by: " ++ adminName) 15 285 ALeft;
    Text ("Report Generated: " ++ formatDate rt (TStr (today rt))) 15 290 ALeft;
    Text ("Page " ++ nat_to_string i ++ " of " ++ nat_to_string pageCount)
         (pageWidth_mm rt - 15) 290 ARight ].

Definition stamp_footers (rt : runtime) (adminName : string) (d : doc) : doc :=
  let pageCount := numPages d in
  fold_left (fun d i => emits (footer_cmds rt adminName i pageCount) (setPage i d))
            (seq 1 pageCount) d.

Definition body (rt : runtime) (inventoryData : list InventoryReport.item)
  (startDate endDate : jstext) : layout :=
  let l0 := {| ldoc := newDoc; ypos := 20 |} in
  summary_block rt inventoryData
    (table_rows rt inventoryData
       (InventoryReport.table_head rt (InventoryReport.header rt startDate endDate l0))).

Definition generateInventoryReportPDF (rt : runtime) (inventoryData : list InventoryReport.item)
  (startDate endDate : jstext) (adminName : string) : doc :=
  stamp_footers rt adminName (ldoc (body rt inventoryData startDate endDate)).

End Part002Inventory.

Section SecondCopy.

Variable rt : runtime.

(** What the second copy of the sales report redraws on a new page. *)
Definition sales2_redraw : list cmd :=
  (([SetFontSize 8; SetFont Bold] ++ Part002.header_labels 30)
     ++ [Line 20 (30 + 8) 190 (30 + 8)]
     ++ [SetFont Normal; SetFontSize 7])%list.

Lemma sales2_page_break (l : layout) :
  Part002.page_break l = break_check 250 (30 + 8 + 5) sales2_redraw l.
Proof.
  unfold Part002.page_break, break_check.
  destruct (Qgtb (ypos l) 250); [|reflexivity].
  unfold draw, advance, newPage; cbn [ldoc ypos]. now rewrite !emits_emits.
Qed.

Lemma sales2_step_lay (i : nat) (r : SalesReport.row) (st : SalesReport.rows_state) :
  SalesReport.lay (Part002.row_step rt i r st)
  = advance 6
      (draw (Part002.row_cmds rt r
               (ypos (break_check 250 (30 + 8 + 5) sales2_redraw (SalesReport.lay st))))
            (break_check 250 (30 + 8 + 5) sales2_redraw (SalesReport.lay st))).
Proof. unfold Part002.row_step. cbn [SalesReport.lay]. now rewrite sales2_page_break. Qed.

Lemma inventory2_page_break (l : layout) :
  Part002Inventory.page_break rt l = break_check 250 (20 + 3 + 5) (inventory_redraw rt) l.
Proof.
  unfold Part002Inventory.page_break, break_check.
  destruct (Qgtb (ypos l) 250); [|reflexivity].
  unfold draw, advance, newPage; cbn [ldoc ypos]. now rewrite !emits_emits.
Qed.

Lemma inventory2_step_lay (i : nat) (r : InventoryReport.item) (l : layout) :
  Part002Inventory.row_step rt i r l
  = advance 6
      (draw (Part002Inventory.row_cmds rt i r
               (ypos (break_check 250 (20 + 3 + 5) (inventory_redraw rt) l)))
            (break_check 250 (20 + 3 + 5) (inventory_redraw rt) l)).
Proof. unfold Part002Inventory.row_step. now rewrite inventory2_page_break. Qed.

Definition sales2_head (a b c : string) : layout :=
  Part002.table_head (Part002.header rt a b c newDoc).

Lemma sales2_head_start (a b c : string) :
  numPages (ldoc (sales2_head a b c)) = 1%nat
  /\ currentPage (ldoc (sales2_head a b c)) = 1%nat
  /\ ypos (sales2_head a b c) == 73.
Proof.
  unfold sales2_head, Part002.table_head, Part002.header.
  destruct (logoLoaded rt); cbn [ldoc ypos draw advance emits numPages currentPage newDoc];
    (split; [reflexivity|]; split; [reflexivity|]); reflexivity.
Qed.

Lemma stamp_footers2_pages (adminName : string) (d : doc) :
  Part002.stamp_footers rt adminName d
  = stamp_pages (Part002.footer_cmds rt adminName) (numPages d) (seq 1 (numPages d)) d.
Proof. reflexivity. Qed.

Lemma stamp_footers2i_pages (adminName : string) (d : doc) :
  Part002Inventory.stamp_footers rt adminName d
  = stamp_pages (Part002Inventory.footer_cmds rt adminName) (numPages d) (seq 1 (numPages d)) d.
Proof. reflexivity. Qed.

(** The second copy of the sales report starts no page after the rows. *)
Lemma sales2_tail (sd : option (list SalesReport.order)) (rows : list SalesReport.row)
  (st : SalesReport.rows_state) :
  let l := Part002.summary_block rt sd rows (Part002.grand_total_block rt st) in
  numPages (ldoc l) = numPages (ldoc (SalesReport.lay st))
  /\ extends (ldoc (SalesReport.lay st)) (ldoc l)
  /\ In (currentPage (ldoc (SalesReport.lay st)),
         Text ("Number of transactions: "
                 ++ nat_to_string (SalesReport.totalTransactions sd))
              25 (ypos (SalesReport.lay st) + 5 + 10 + 10 + 15 + 12 + 8 + 8) ALeft)
        (log (ldoc l)).
Proof.
  unfold Part002.summary_block, Part002.grand_total_block.
  cbn [ldoc ypos draw advance emits numPages currentPage].
  split; [reflexivity|]. split; [grows|].
  cbn [log]. repeat (apply in_or_app; first [right; cbn [map In]; left; reflexivity | left]).
Qed.

(** The second copy of the inventory report: the summary starts at most
    one page. *)
Lemma inventory2_tail (rows : list InventoryReport.item) (l : layout) :
  ypos l <= 256 ->
  all_above 261 (ldoc l) ->
  all_above 261 (ldoc (Part002Inventory.summary_block rt rows l))
  /\ extends (ldoc l) (ldoc (Part002Inventory.summary_block rt rows l))
  /\ (numPages (ldoc l) <= numPages (ldoc (Part002Inventory.summary_block rt rows l))
      <= Datatypes.S (numPages (ldoc l)))%nat.
Proof.
  intros Hy Ha. unfold Part002Inventory.summary_block.
  cbn [ldoc ypos draw advance newPage].
  match goal with |- context [Qgtb ?a 200] => destruct (Qgtb a 200) eqn:E2 end;
    [apply Qgtb_true_lt in E2 | apply Qgtb_false_le in E2];
    (split; [stays_above | split; [grows | cbn; lia]]).
Qed.

Lemma inventory2_redraw_above : Forall (above 261) (inventory_redraw rt).
Proof. unfold inventory_redraw, InventoryReport.header_labels. stays_above. Qed.

Lemma inventory2_cmds_above (i : nat) (r : InventoryReport.item) (y : Q) :
  y <= 250 -> Forall (above 261) (Part002Inventory.row_cmds rt i r y).
Proof.
  intros H. unfold Part002Inventory.row_cmds. destruct (i mod 2 =? 0)%nat; stays_above.
Qed.

Lemma inventory_head_above_261 (a b : jstext) :
  all_above 261 (ldoc (InventoryReport.table_head rt (InventoryReport.header rt a b fresh))).
Proof.
  unfold InventoryReport.table_head, InventoryReport.header, fresh,
    InventoryReport.header_labels.
  destruct (logoLoaded rt); stays_above.
Qed.

End SecondCopy.

(* ================================================================= *)
(** ** The second copy: rows, pages and footers *)

Lemma In_page_cmds (p : nat) (c : cmd) (d : doc) :
  In c (page_cmds p d) <-> In (p, c) (log d).
Proof.
  unfold page_cmds. rewrite in_map_iff. split.
  - intros ([q c'] & E & H). cbn in E. subst c'. apply filter_In in H.
    destruct H as [H F]. cbn in F. apply Nat.eqb_eq in F. now subst q.
  - intros H. exists (p, c). split; [reflexivity|]. apply filter_In. split; [exact H|].
    cbn. apply Nat.eqb_refl.
Qed.

(** X15.  The row loops of the second copy (sales and inventory report
    of part_002) also draw the calls of every row once, in input order
    and one row after the other, each at a position that is not past
    their threshold of 250, with the column header redrawn only as the
    first calls of a page the loop has just started. *)
Theorem second_copy_rows_drawn_once_in_order (rt : runtime) :
  (forall sd a b n c,
     exists l rest,
       log (Part002.generateSalesReportPDF rt sd a b n c)
       = (log (ldoc (sales2_head rt a b c)) ++ l ++ rest)%list
       /\ laid_out 250 sales2_redraw (fun _ : nat => Part002.row_cmds rt) 0 1
                   (SalesReport.flattenedData rt sd) l)
  /\ (forall rows a b n,
        exists l rest,
          log (Part002Inventory.generateInventoryReportPDF rt rows a b n)
          = (log (ldoc (InventoryReport.table_head rt (InventoryReport.header rt a b fresh)))
               ++ l ++ rest)%list
          /\ laid_out 250 (inventory_redraw rt) (Part002Inventory.row_cmds rt) 0 1 rows l).
Proof.
  split.
  - intros sd a b n c.
    destruct (sales2_head_start rt a b c) as (Hn & Hc & _).
    set (st0 := {| SalesReport.lay := sales2_head rt a b c; SalesReport.grandTotal := 0 |}).
    destruct (@forEach_laid_out _ _ SalesReport.lay (Part002.row_step rt) 250 (30 + 8 + 5)
                sales2_redraw (fun _ : nat => Part002.row_cmds rt) (fun _ => 6)
                (sales2_step_lay rt) ltac:(lra) (SalesReport.flattenedData rt sd) 0%nat st0)
      as (l & Hl & Hlaid); [cbn [SalesReport.lay st0]; congruence|].
    cbn [SalesReport.lay st0] in Hl, Hlaid. rewrite Hc in Hlaid.
    destruct (sales2_tail rt sd (SalesReport.flattenedData rt sd)
                (forEach_from (Part002.row_step rt) 0 (SalesReport.flattenedData rt sd) st0))
      as (_ & [more Hm] & _).
    unfold Part002.generateSalesReportPDF, Part002.body. rewrite stamp_footers2_pages.
    match goal with
    | |- context [stamp_pages ?f ?k ?s ?d] => destruct (extends_stamp_pages f k s d) as [foot Hf]
    end.
    exists l, (more ++ foot)%list. split; [|exact Hlaid].
    rewrite Hf. unfold Part002.table_rows, forEach. fold (sales2_head rt a b c). fold st0.
    rewrite Hm, Hl. now rewrite <- !app_assoc.
  - intros rows a b n.
    destruct (inventory_head_at_first_row rt a b) as (Hn & Hc & _).
    set (head := InventoryReport.table_head rt (InventoryReport.header rt a b fresh)) in *.
    destruct (@forEach_laid_out _ _ (fun l : layout => l) (Part002Inventory.row_step rt) 250
                (20 + 3 + 5) (inventory_redraw rt) (Part002Inventory.row_cmds rt) (fun _ => 6)
                (inventory2_step_lay rt) ltac:(lra) rows 0%nat head)
      as (l & Hl & Hlaid); [congruence|].
    rewrite Hc in Hlaid.
    assert (Hy : extends (ldoc (forEach_from (Part002Inventory.row_step rt) 0 rows head))
                         (ldoc (Part002Inventory.summary_block rt rows
                                  (forEach_from (Part002Inventory.row_step rt) 0 rows head)))).
    { unfold Part002Inventory.summary_block. grows. }
    destruct Hy as [more Hm].
    unfold Part002Inventory.generateInventoryReportPDF, Part002Inventory.body.
    rewrite stamp_footers2i_pages.
    match goal with
    | |- context [stamp_pages ?f ?k ?s ?d] => destruct (extends_stamp_pages f k s d) as [foot Hf]
    end.
    exists l, (more ++ foot)%list. split; [|exact Hlaid].
    rewrite Hf. unfold Part002Inventory.table_rows, forEach. fold fresh. fold head.
    rewrite Hm, Hl. now rewrite <- !app_assoc.
Qed.

Section SecondCopyRows.

Variable rt : runtime.

Lemma sales2_rows (rows : list SalesReport.row) (a b c : string) :
  let st := Part002.table_rows rt rows (sales2_head rt a b c) in
  (1 <= numPages (ldoc (SalesReport.lay st)))%nat
  /\ (30 * (numPages (ldoc (SalesReport.lay st)) - 1) <= List.length rows
      <= 35 * numPages (ldoc (SalesReport.lay st)))%nat.
Proof.
  destruct (sales2_head_start rt a b c) as (Hn & Hc & Hy).
  set (st0 := {| SalesReport.lay := sales2_head rt a b c; SalesReport.grandTotal := 0 |}).
  assert (T1 : 250 == inject_Z 250) by reflexivity.
  assert (T2 : inject_Z 43 <= 30 + 8 + 5) by (change (inject_Z 43) with 43; lra).
  assert (T3 : 30 + 8 + 5 <= inject_Z 73) by (change (inject_Z 73) with 73; lra).
  assert (T4 : inject_Z 43 <= ypos (SalesReport.lay st0))
    by (cbn [SalesReport.lay st0]; change (inject_Z 43) with 43; lra).
  assert (T5 : ypos (SalesReport.lay st0) <= inject_Z 73)
    by (cbn [SalesReport.lay st0]; change (inject_Z 73) with 73; lra).
  pose proof (@capacity_pages _ _ SalesReport.lay (Part002.row_step rt) 250 (30 + 8 + 5)
                sales2_redraw (fun _ : nat => Part002.row_cmds rt) 250 43 73 30 35
                (sales2_step_lay rt) T1 T2 T3 ltac:(lra) ltac:(lia) ltac:(lia)
                rows st0 T4 T5) as H.
  cbn zeta in H. cbn [SalesReport.lay st0] in H. rewrite Hn in H.
  cbn zeta. unfold Part002.table_rows. fold st0. lia.
Qed.

Lemma inventory2_rows (rows : list InventoryReport.item) (a b : jstext) :
  let l := Part002Inventory.table_rows rt rows
             (InventoryReport.table_head rt (InventoryReport.header rt a b fresh)) in
  (1 <= numPages (ldoc l))%nat
  /\ (30 * (numPages (ldoc l) - 1) <= List.length rows <= 38 * numPages (ldoc l))%nat
  /\ ypos l <= 256
  /\ all_above 261 (ldoc l).
Proof.
  destruct (inventory_head_at_first_row rt a b) as (Hn & Hc & H28 & H72 & _).
  pose proof (inventory_head_above_261 rt a b) as Ha.
  set (head := InventoryReport.table_head rt (InventoryReport.header rt a b fresh)) in *.
  assert (T1 : 250 == inject_Z 250) by reflexivity.
  assert (T2 : inject_Z 28 <= 20 + 3 + 5) by (change (inject_Z 28) with 28; lra).
  assert (T3 : 20 + 3 + 5 <= inject_Z 72) by (change (inject_Z 72) with 72; lra).
  assert (Hf : 20 + 3 + 5 <= 250) by lra.
  pose proof (@capacity_pages _ _ (fun l : layout => l) (Part002Inventory.row_step rt) 250
                (20 + 3 + 5) (inventory_redraw rt) (Part002Inventory.row_cmds rt)
                250 28 72 30 38 (inventory2_step_lay rt) T1 T2 T3 Hf ltac:(lia) ltac:(lia)
                rows head H28 H72) as H.
  cbn beta zeta in H. rewrite Hn in H.
  cbn zeta. unfold Part002Inventory.table_rows.
  split; [lia|]. split; [lia|]. split.
  - apply (@forEach_ypos_le _ _ (fun l : layout => l) (Part002Inventory.row_step rt) 250
             (20 + 3 + 5) (inventory_redraw rt) (Part002Inventory.row_cmds rt) (fun _ => 6)
             (inventory2_step_lay rt) Hf 256); [intros _; lra | lra].
  - now apply (@all_above_forEach 261 _ _ (fun l : layout => l) (Part002Inventory.row_step rt)
                 250 (20 + 3 + 5) (inventory_redraw rt) (Part002Inventory.row_cmds rt)
                 (fun _ => 6) (inventory2_step_lay rt) Hf (inventory2_redraw_above rt)
                 (inventory2_cmds_above rt)).
Qed.

End SecondCopyRows.

(** X16.  Pages of the second copy.  Its sales report starts pages only
    in the row loop - the Grand Total row and the summary never start
    one -, a page takes at most 35 rows and a page is left only after 30
    rows; its inventory report takes at most 38 rows on a page, leaves a
    page only after 30 rows, and its summary starts at most one more
    page. *)
Theorem second_copy_page_count (rt : runtime) (adminName : string) :
  (forall sd a b c,
     let d := Part002.generateSalesReportPDF rt sd a b adminName c in
     let n := List.length (SalesReport.flattenedData rt sd) in
     numPages d
     = numPages (ldoc (SalesReport.lay
                         (Part002.table_rows rt (SalesReport.flattenedData rt sd)
                            (sales2_head rt a b c))))
     /\ (30 * (numPages d - 1) <= n <= 35 * numPages d)%nat)
  /\ (forall rows a b,
        let d := Part002Inventory.generateInventoryReportPDF rt rows a b adminName in
        (30 * (numPages d - 2) <= List.length rows <= 38 * numPages d)%nat).
Proof.
  split.
  - intros sd a b c d n. subst d n.
    unfold Part002.generateSalesReportPDF, Part002.body.
    rewrite stamp_footers2_pages, numPages_stamp_pages.
    fold (sales2_head rt a b c).
    destruct (sales2_tail rt sd (SalesReport.flattenedData rt sd)
                (Part002.table_rows rt (SalesReport.flattenedData rt sd) (sales2_head rt a b c)))
      as (Hp & _). cbn zeta in Hp. rewrite Hp. split; [reflexivity|].
    apply (sales2_rows rt (SalesReport.flattenedData rt sd) a b c).
  - intros rows a b d. subst d.
    unfold Part002Inventory.generateInventoryReportPDF, Part002Inventory.body.
    rewrite stamp_footers2i_pages, numPages_stamp_pages. fold fresh.
    destruct (inventory2_rows rt rows a b) as (H1 & H2 & Hy & Ha). cbn zeta in *.
    destruct (inventory2_tail rt rows _ Hy Ha) as (_ & _ & Hq). lia.
Qed.

(** X17.  The footer pass of the second copy, too, adds no page and
    appends to every page [i] of [N] exactly its own footer calls, which
    end with "Page i of N". *)
Theorem second_copy_every_page_gets_its_footer (rt : runtime) (adminName : string) (i : nat) :
  (forall sd a b c,
     let body := ldoc (Part002.body rt sd a b c) in
     let d := Part002.generateSalesReportPDF rt sd a b adminName c in
     numPages d = numPages body
     /\ ((1 <= i <= numPages d)%nat ->
         page_cmds i d
         = (page_cmds i body ++ Part002.footer_cmds rt adminName i (numPages d))%list))
  /\ (forall rows a b,
        let body := ldoc (Part002Inventory.body rt rows a b) in
        let d := Part002Inventory.generateInventoryReportPDF rt rows a b adminName in
        numPages d = numPages body
        /\ ((1 <= i <= numPages d)%nat ->
            page_cmds i d
            = (page_cmds i body
                 ++ Part002Inventory.footer_cmds rt adminName i (numPages d))%list)).
Proof.
  split.
  - intros sd a b c body d. subst body d. unfold Part002.generateSalesReportPDF.
    rewrite stamp_footers2_pages. apply stamped.
  - intros rows a b body d. subst body d.
    unfold Part002Inventory.generateInventoryReportPDF.
    rewrite stamp_footers2i_pages. apply stamped.
Qed.

(** The only page of the second-copy report of the tied sample. *)
Lemma second_copy_every_page_gets_its_footer_witness :
  let d := Part002.generateSalesReportPDF Sample.rt Samples.tied
             "2025-11-01" "2025-11-03" "me" "Daily" in
  (1 <= 1 <= numPages d)%nat
  /\ page_cmds 1 d
     = (page_cmds 1 (ldoc (Part002.body Sample.rt Samples.tied "2025-11-01" "2025-11-03" "Daily"))
          ++ Part002.footer_cmds Sample.rt "me" 1 (numPages d))%list.
Proof.
  intros d.
  assert (H : (1 <= 1 <= numPages d)%nat) by (vm_compute; lia).
  split; [exact H|].
  exact (proj2 (proj1 (second_copy_every_page_gets_its_footer Sample.rt "me" 1)
                  Samples.tied "2025-11-01" "2025-11-03" "Daily") H).
Defined.

(** X18.  The second copy of the sales report draws the Grand Total row
    and the summary right below the last row without looking at the
    cursor.  With 24 to 30 rows the report has one page, and on it the
    summary line "Number of transactions" is drawn at [y = 141 + 6 n],
    which is at or below [y = 285], where the footer of that page puts
    "Page 1 of 1" - and below the footer's other line at 280. *)
Theorem second_copy_summary_reaches_footer (rt : runtime)
  (sd : option (list SalesReport.order)) (a b adminName c : string) :
  let n := List.length (SalesReport.flattenedData rt sd) in
  (24 <= n <= 30)%nat ->
  let d := Part002.generateSalesReportPDF rt sd a b adminName c in
  numPages d = 1%nat
  /\ (exists y,
        In (1%nat, Text ("Number of transactions: "
                           ++ nat_to_string (SalesReport.totalTransactions sd)) 25 y ALeft)
           (log d)
        /\ y == 141 + 6 * inject_Z (Z.of_nat n)
        /\ 285 <= y)
  /\ In (1%nat, Text ("Page " ++ nat_to_string 1 ++ " of " ++ nat_to_string 1)
                     (pageWidth_mm rt / 2) 285 ACenter)
        (log d).
Proof.
  intros n Hn d.
  destruct (sales2_head_start rt a b c) as (Hp & Hc & Hy).
  set (st0 := {| SalesReport.lay := sales2_head rt a b c; SalesReport.grandTotal := 0 |}).
  assert (Hq : inject_Z 24 <= inject_Z (Z.of_nat n) <= inject_Z 30)
    by (split; rewrite <- Zle_Qle; lia).
  change (inject_Z 24) with 24 in Hq. change (inject_Z 30) with 30 in Hq.
  destruct (@forEach_no_break _ _ SalesReport.lay (Part002.row_step rt) 250 (30 + 8 + 5)
              sales2_redraw (fun _ : nat => Part002.row_cmds rt) (sales2_step_lay rt)
              (SalesReport.flattenedData rt sd) 0%nat st0) as (R1 & R2 & R3).
  { cbn [SalesReport.lay st0]. fold n. lra. }
  cbn zeta in R1, R2, R3. cbn [SalesReport.lay st0] in R1, R2, R3. fold n in R3.
  set (st := forEach_from (Part002.row_step rt) 0 (SalesReport.flattenedData rt sd) st0) in *.
  destruct (sales2_tail rt sd (SalesReport.flattenedData rt sd) st) as (T1 & _ & T3).
  cbn zeta in T1, T3.
  assert (E : d = stamp_pages (Part002.footer_cmds rt adminName) 1 (seq 1 1)
                    (ldoc (Part002.summary_block rt sd (SalesReport.flattenedData rt sd)
                             (Part002.grand_total_block rt st)))).
  { subst d. unfold Part002.generateSalesReportPDF, Part002.body.
    rewrite stamp_footers2_pages.
    unfold Part002.table_rows, forEach. fold (sales2_head rt a b c). fold st0. fold st.
    now rewrite T1, R1, Hp. }
  split; [|split].
  - rewrite E, numPages_stamp_pages. now rewrite T1, R1.
  - exists (ypos (SalesReport.lay st) + 5 + 10 + 10 + 15 + 12 + 8 + 8).
    split; [|split].
    + rewrite E. apply (extends_In _ (extends_stamp_pages _ _ _ _)).
      rewrite R2, Hc in T3. exact T3.
    + rewrite R3, Hy. ring.
    + rewrite R3, Hy. lra.
  - rewrite E. cbn [stamp_pages seq fold_left]. rewrite log_emits.
    apply in_or_app. right. cbn [setPage currentPage Part002.footer_cmds map In]. auto 6.
Qed.

(** A completed order of 25 items. *)
Lemma second_copy_summary_reaches_footer_witness :
  let sd := Some [Samples.ord (repeat (Samples.it "A" 1 10) 25)] in
  (24 <= List.length (SalesReport.flattenedData Sample.rt sd) <= 30)%nat
  /\ numPages (Part002.generateSalesReportPDF Sample.rt sd "2025-11-01" "2025-11-03" "me" "Daily")
     = 1%nat.
Proof.
  intros sd.
  assert (H : (24 <= List.length (SalesReport.flattenedData Sample.rt sd) <= 30)%nat)
    by (vm_compute; lia).
  split; [exact H|].
  exact (proj1 (@second_copy_summary_reaches_footer Sample.rt sd
                  "2025-11-01" "2025-11-03" "me" "Daily" H)).
Defined.

(** X19.  In the second copy of the inventory report, too, the body
    keeps clear of the footer: every drawing call lies wholly above
    [y = 261] or is one of the footer calls of its page, which are at
    285 and 290. *)
Theorem second_copy_inventory_clears_footer (rt : runtime) (adminName : string)
  (rows : list InventoryReport.item) (a b : jstext) :
  let d := Part002Inventory.generateInventoryReportPDF rt rows a b adminName in
  Forall (fun e => above 261 (snd e)
                   \/ In (snd e) (Part002Inventory.footer_cmds rt adminName (fst e) (numPages d)))
         (log d).
Proof.
  intros d. subst d. apply Forall_forall. intros e He.
  unfold Part002Inventory.generateInventoryReportPDF in *.
  rewrite stamp_footers2i_pages in *. rewrite numPages_stamp_pages.
  apply In_stamp_pages in He. destruct He as [He|He]; [left | now right].
  unfold Part002Inventory.body in He. fold fresh in He.
  destruct (inventory2_rows rt rows a b) as (_ & _ & Hy & Ha). cbn zeta in *.
  destruct (inventory2_tail rt rows _ Hy Ha) as (Hs & _ & _).
  unfold all_above in Hs. rewrite Forall_forall in Hs. now apply Hs.
Qed.

(* ================================================================= *)
(** ** The dashboard: [getChartColors] *)

(** The colour helper of the dashboard (source file part_001, lines
    43-59). *)
Module Dashboard.

Definition CHART_COLORS : list string :=
  [ "#2478bd"; "#f1ce44"; "#28a745"; "#fd7e14"; "#6f42c1"; "#dc3545"; "#17a2b8" ].

(** [arr[i]]; the empty string stands for [undefined]. *)
Definition index (arr : list string) (i : nat) : string := nth i arr "".

(** The body of the [for] loop: [colors.push(CHART_COLORS[i % CHART_COLORS.length])]. *)
Definition push_color (colors : list string) (i : nat) : list string :=
  (colors ++ [index CHART_COLORS (i mod List.length CHART_COLORS)])%list.

(** [getChartColors(count)] for a count that is a whole number. *)
Definition getChartColors (count : nat) : list string :=
  fold_left push_color (seq 0 count) [].

End Dashboard.

Section ChartColors.

Import Dashboard.

Lemma getChartColors_S (count : nat) :
  getChartColors (S count) = push_color (getChartColors count) count.
Proof. unfold getChartColors. now rewrite seq_S, fold_left_app. Qed.

Lemma getChartColors_map (count : nat) :
  getChartColors count = map (fun i => index CHART_COLORS (i mod 7)) (seq 0 count).
Proof.
  induction count as [|count IH]; [reflexivity|].
  rewrite getChartColors_S, IH, seq_S, map_app. reflexivity.
Qed.

Lemma getChartColors_nth (count i : nat) :
  (i < count)%nat -> nth i (getChartColors count) "" = index CHART_COLORS (i mod 7).
Proof.
  intros H. rewrite getChartColors_map.
  rewrite (nth_indep _ "" (index CHART_COLORS (0 mod 7)))
    by (now rewrite length_map, length_seq).
  rewrite (map_nth (fun i => index CHART_COLORS (i mod 7))). now rewrite seq_nth.
Qed.

Lemma palette_NoDup : NoDup CHART_COLORS.
Proof.
  unfold CHART_COLORS.
  repeat (constructor; [cbn [In]; intuition discriminate|]). constructor.
Qed.

End ChartColors.

(** X20.  [getChartColors] returns exactly [count] colours, the [i]-th
    being the palette colour [i mod 7]; so the first seven colours are
    the palette in its order, all colours differ when there are at most
    seven, and from the eighth on every colour repeats the one seven
    places before it. *)
Theorem chart_colors_cycle (count : nat) :
  List.length (Dashboard.getChartColors count) = count
  /\ (forall i, (i < count)%nat ->
        nth i (Dashboard.getChartColors count) ""
        = Dashboard.index Dashboard.CHART_COLORS (i mod 7))
  /\ firstn 7 (Dashboard.getChartColors (count + 7)) = Dashboard.CHART_COLORS
  /\ (forall i, (i + 7 < count)%nat ->
        nth (i + 7) (Dashboard.getChartColors count) ""
        = nth i (Dashboard.getChartColors count) "")
  /\ (NoDup (Dashboard.getChartColors count) <-> (count <= 7)%nat).
Proof.
  split; [|split; [|split; [|split]]].
  - now rewrite getChartColors_map, length_map, length_seq.
  - intros i H. now apply getChartColors_nth.
  - rewrite getChartColors_map, Nat.add_comm, seq_app, map_app.
    rewrite firstn_app, length_map, length_seq. cbn [Nat.sub firstn].
    rewrite app_nil_r. reflexivity.
  - intros i H. rewrite !getChartColors_nth by lia.
    replace (i + 7)%nat with (i + 1 * 7)%nat by lia. now rewrite Nat.Div0.mod_add.
  - split.
    + intros H. destruct (Nat.le_gt_cases count 7) as [L|L]; [exact L|]. exfalso.
      rewrite (NoDup_nth _ "") in H.
      assert (E : 0%nat = 7%nat).
      { apply H.
        - rewrite getChartColors_map, length_map, length_seq. lia.
        - rewrite getChartColors_map, length_map, length_seq. lia.
        - rewrite !getChartColors_nth by lia. reflexivity. }
      discriminate.
    + intros L.
      assert (E : Dashboard.getChartColors count = firstn count Dashboard.CHART_COLORS).
      { do 8 (destruct count as [|count]; [reflexivity|]). lia. }
      rewrite E. clear E L.
      pose proof palette_NoDup as P.
      rewrite <- (firstn_skipn count Dashboard.CHART_COLORS) in P.
      now apply NoDup_app_remove_r in P.
Qed.

(* ================================================================= *)
(** * Figures, names and rows on the finished documents *)

(** The statements of this part are about the finished documents.  The
    printed amounts are read back from the text with a reader that
    shares nothing with the formatters; sums, products and tallies are
    stated for the inputs on which the exact arithmetic of the embedding
    shows the very digits the code prints. *)

(* ================================================================= *)
(** ** Reading an amount back *)

Module Reader.

(** The value of a decimal digit. *)
Definition digit_of (c : ascii) : option Z :=
  let n := nat_of_ascii c in
  if ((48 <=? n) && (n <=? 57))%nat then Some (Z.of_nat (n - 48)) else None.

(** The number a string of decimal digits spells, read from the left. *)
Fixpoint read_digits (acc : Z) (s : string) : option Z :=
  match s with
  | EmptyString => Some acc
  | String c r =>
      match digit_of c with
      | Some d => read_digits (10 * acc + d) r
      | None => None
      end
  end.

(** The pieces of a string between the occurrences of a character. *)
Fixpoint split_at (sep : ascii) (s : string) : list string :=
  match s with
  | EmptyString => [EmptyString]
  | String c r =>
      if (c =? sep)%char then EmptyString :: split_at sep r
      else match split_at sep r with
           | g :: gs => String c g :: gs
           | [] => [String c EmptyString]
           end
  end.

Fixpoint concat_all (l : list string) : string :=
  match l with
  | [] => EmptyString
  | g :: gs => g ++ concat_all gs
  end.

(** No zero in front: a first group that starts with ["0"] is ["0"]
    itself and the only group. *)
Definition canonical_head (g0 : string) (gs : list string) : bool :=
  match g0 with
  | String "0" r => (r =? "") && match gs with [] => true | _ :: _ => false end
  | _ => true
  end.

(** Integer digits in groups: one to three digits, then groups of
    exactly three, with a comma between two groups, and no zero in
    front. *)
Definition groups_ok (ip : string) : bool :=
  match split_at "," ip with
  | g0 :: gs =>
      ((1 <=? String.length g0) && (String.length g0 <=? 3))%nat && all_digits g0
      && forallb (fun g => (String.length g =? 3)%nat && all_digits g) gs
      && canonical_head g0 gs
  | [] => false
  end.

(** Grouped integer digits, a point and exactly two decimals: the
    number of hundredths they spell. *)
Definition read_unsigned (s : string) : option Z :=
  match split_at "." s with
  | [ip; fp] =>
      if groups_ok ip && (String.length fp =? 2)%nat
      then match read_digits 0 (concat_all (split_at "," ip)), read_digits 0 fp with
           | Some a, Some b => Some (100 * a + b)%Z
           | _, _ => None
           end
      else None
  | _ => None
  end.

(** An amount: an optional minus sign, then the digits.  The result is
    the sign and the number of hundredths. *)
Definition read_amount (body : string) : option (bool * Z) :=
  match body with
  | String c r =>
      if (c =? "-")%char then option_map (pair true) (read_unsigned r)
      else option_map (pair false) (read_unsigned body)
  | EmptyString => None
  end.

(** A printed currency amount: the literal ["PHP "], then an amount. *)
Definition read_money (s : string) : option (bool * Z) :=
  match s with
  | String "P" (String "H" (String "P" (String " " body))) => read_amount body
  | _ => None
  end.

(** The signed number of hundredths of a printed currency amount. *)
Definition read_cents (s : string) : option Z :=
  match read_money s with
  | Some (true, c) => Some (- c)%Z
  | Some (false, c) => Some c
  | None => None
  end.

End Reader.

Section ReaderFacts.

Import Reader.

(** A string that lacks a character. *)
Fixpoint lacks (c : ascii) (s : string) : bool :=
  match s with
  | EmptyString => true
  | String x r => negb (x =? c)%char && lacks c r
  end.

Lemma lacks_app (c : ascii) (a b : string) :
  lacks c (a ++ b) = lacks c a && lacks c b.
Proof.
  induction a as [|x a IH]; cbn [append lacks]; [reflexivity|].
  now rewrite IH, andb_assoc.
Qed.

Lemma lacks_digits (c : ascii) (s : string) :
  digit_char c = false -> all_digits s = true -> lacks c s = true.
Proof.
  intros Hc. induction s as [|x s IH]; cbn [all_digits lacks]; [reflexivity|].
  intros H. apply andb_true_iff in H. destruct H as [Hx Hs].
  rewrite (IH Hs), andb_true_r.
  destruct (Ascii.eqb_spec x c) as [->|]; [congruence | reflexivity].
Qed.

Lemma all_digits_app (a b : string) :
  all_digits (a ++ b) = all_digits a && all_digits b.
Proof.
  induction a as [|x a IH]; cbn [append all_digits]; [reflexivity|].
  now rewrite IH, andb_assoc.
Qed.

Lemma split_at_nonempty (sep : ascii) (s : string) : split_at sep s <> [].
Proof.
  induction s as [|c s IH]; cbn [split_at]; [discriminate|].
  destruct (c =? sep)%char; [discriminate|].
  destruct (split_at sep s); discriminate.
Qed.

Lemma split_at_lacks (sep : ascii) (s : string) :
  lacks sep s = true -> split_at sep s = [s].
Proof.
  induction s as [|c s IH]; cbn [split_at lacks]; [reflexivity|].
  intros H. apply andb_true_iff in H. destruct H as [Hc Hs].
  apply negb_true_iff in Hc. rewrite Hc, (IH Hs). reflexivity.
Qed.

Lemma split_at_sep (sep : ascii) (a b : string) :
  split_at sep (a ++ String sep b) = (split_at sep a ++ split_at sep b)%list.
Proof.
  induction a as [|c a IH]; cbn [append split_at].
  - now rewrite Ascii.eqb_refl.
  - destruct (c =? sep)%char.
    + now rewrite IH.
    + rewrite IH. pose proof (split_at_nonempty sep a) as Hn.
      destruct (split_at sep a) as [|g gs]; [congruence | reflexivity].
Qed.

(** Digits without a zero in front, ["0"] itself apart. *)
Definition no_leading_zero (ds : string) : bool :=
  match ds with
  | String "0" r => r =? ""
  | _ => true
  end.

Lemma no_leading_zero_app (ds t : string) :
  ds <> "" -> t <> "" -> no_leading_zero (ds ++ t) = true ->
  no_leading_zero ds = true /\ ds <> "0".
Proof.
  destruct ds as [|c ds]; [congruence|]. intros _ Ht. cbn [append].
  unfold no_leading_zero.
  destruct (Ascii.eqb_spec c "0") as [->|Hc].
  - destruct ds; cbn [append]; [|discriminate].
    destruct t; [congruence | discriminate].
  - intros _. split.
    + destruct c as [[] [] [] [] [] [] [] []]; try reflexivity. congruence.
    + intros [= -> ->]. congruence.
Qed.

(** A grouped digit string splits at its commas into a first group of
    one to three digits and groups of exactly three, and the groups put
    together again are the digits. *)
Lemma grouped_split (ds out : string) :
  grouped "," ds out -> all_digits ds = true -> no_leading_zero ds = true ->
  groups_ok out = true /\ concat_all (split_at "," out) = ds /\ lacks "." out = true.
Proof.
  unfold groups_ok.
  induction 1 as [ds Hl | ds out t G IH Ht]; intros Hd Hz.
  - rewrite (split_at_lacks "," ds) by (apply lacks_digits; [reflexivity | exact Hd]).
    cbn [forallb concat_all]. rewrite Hd, append_nil_r.
    replace (1 <=? String.length ds)%nat with true by (symmetry; apply Nat.leb_le; lia).
    replace (String.length ds <=? 3)%nat with true by (symmetry; apply Nat.leb_le; lia).
    repeat split; [|apply lacks_digits; [reflexivity | exact Hd]].
    cbn [andb]. unfold canonical_head. unfold no_leading_zero in Hz.
    destruct ds as [|c r]; [reflexivity|].
    destruct c as [[] [] [] [] [] [] [] []]; try reflexivity. now rewrite Hz.
  - rewrite all_digits_app in Hd. apply andb_true_iff in Hd. destruct Hd as [Hds Hdt].
    assert (Hne : ds <> "").
    { intros ->. inversion G as [? Hl|? ? t' G' Ht' E]; [cbn in Hl; lia|].
      destruct ds; [|discriminate]. destruct t'; [discriminate Ht' | discriminate]. }
    assert (Htn : t <> "") by (intros ->; discriminate).
    destruct (no_leading_zero_app Hne Htn Hz) as [Hz' Hn0].
    destruct (IH Hds Hz') as (Hok & Hcat & Hdot).
    change (out ++ "," ++ t) with (out ++ String "," t).
    rewrite split_at_sep.
    rewrite (split_at_lacks "," t) by (apply lacks_digits; [reflexivity | exact Hdt]).
    pose proof (split_at_nonempty "," out) as Hn.
    destruct (split_at "," out) as [|g0 gs]; [congruence|].
    cbn [app]. repeat split.
    + apply andb_true_iff in Hok. destruct Hok as [Hok Hcan].
      apply andb_true_iff in Hok. destruct Hok as [H0 Hgs].
      rewrite H0, forallb_app, Hgs. cbn [forallb andb].
      rewrite Ht, Hdt. cbn [Nat.eqb andb].
      unfold canonical_head in *.
      destruct g0 as [|c r]; [reflexivity|].
      destruct c as [[] [] [] [] [] [] [] []]; try reflexivity.
      apply andb_true_iff in Hcan. destruct Hcan as [Hr Hgs0].
      apply String.eqb_eq in Hr. subst r. destruct gs; [|discriminate].
      cbn [concat_all append] in Hcat. congruence.
    + cbn [concat_all] in *. rewrite <- Hcat.
      clear. rewrite append_assoc. f_equal.
      induction gs as [|g gs IHg]; cbn [app concat_all].
      * now rewrite !append_nil_r.
      * now rewrite IHg, append_assoc.
    + rewrite lacks_app, Hdot. cbn [lacks]. cbn [Ascii.eqb negb andb].
      apply lacks_digits; [reflexivity | exact Hdt].
Qed.

Lemma no_leading_zero_uint (u : Decimal.uint) :
  Decimal.unorm u = u -> no_leading_zero (NilZero.string_of_uint u) = true.
Proof.
  destruct u; try reflexivity.
  intros E. unfold Decimal.unorm in E. cbn [Decimal.nzhead] in E.
  destruct (Decimal.nzhead u) eqn:N; try discriminate E.
  - injection E as <-. reflexivity.
  - exfalso. exact (DecimalFacts.nzhead_nonzero _ _ N).
Qed.

Lemma no_leading_zero_Z (z : Z) : (0 <= z)%Z -> no_leading_zero (Z_to_string z) = true.
Proof.
  intros Hz. destruct z as [|p|p]; [reflexivity | | lia].
  unfold Z_to_string, NilZero.string_of_int. cbn [Z.to_int].
  apply no_leading_zero_uint.
  pose proof (DecimalPos.Unsigned.to_of (Pos.to_uint p)) as E.
  rewrite DecimalPos.Unsigned.of_to in E. symmetry. exact E.
Qed.

(** Reading the decimal rendering of a number gives the number back. *)
Lemma read_digits_uint_acc (u : Decimal.uint) (acc : positive) :
  read_digits (Z.pos acc) (NilEmpty.string_of_uint u) = Some (Z.pos (Pos.of_uint_acc u acc)).
Proof.
  revert acc. induction u; intros acc; cbn [NilEmpty.string_of_uint read_digits Pos.of_uint_acc];
    [reflexivity | ..];
    match goal with
    | |- context [digit_of ?c] =>
        change (digit_of c) with (Some (Z.of_nat (nat_of_ascii c - 48)))
    end; rewrite <- IHu; f_equal; vm_compute (Z.of_nat _); lia.
Qed.

Lemma read_digits_uint (u : Decimal.uint) :
  read_digits 0 (NilEmpty.string_of_uint u) = Some (Z.of_N (Pos.of_uint u)).
Proof.
  induction u; cbn [NilEmpty.string_of_uint read_digits Pos.of_uint];
    [reflexivity | exact IHu | ..];
    match goal with
    | |- context [digit_of ?c] =>
        change (digit_of c) with (Some (Z.of_nat (nat_of_ascii c - 48)))
    end; cbn [Z.of_N]; rewrite <- read_digits_uint_acc; reflexivity.
Qed.

Lemma read_Z_to_string (z : Z) : (0 <= z)%Z -> read_digits 0 (Z_to_string z) = Some z.
Proof.
  intros Hz. destruct z as [|p|p]; [reflexivity | | lia].
  unfold Z_to_string, NilZero.string_of_int. cbn [Z.to_int].
  pose proof (DecimalPos.Unsigned.of_to p) as E.
  unfold NilZero.string_of_uint.
  destruct (Pos.to_uint p) eqn:U; [discriminate E | ..];
    rewrite read_digits_uint, E; reflexivity.
Qed.

Lemma read_two_digits (z : Z) :
  (0 <= z < 100)%Z ->
  read_digits 0 (two_digits z) = Some z /\ String.length (two_digits z) = 2%nat
  /\ lacks "." (two_digits z) = true.
Proof.
  intros Hz.
  assert (H : forall n, (n < 100)%nat ->
            read_digits 0 (two_digits (Z.of_nat n)) = Some (Z.of_nat n)
            /\ String.length (two_digits (Z.of_nat n)) = 2%nat
            /\ lacks "." (two_digits (Z.of_nat n)) = true).
  { intros n Hn.
    do 100 (destruct n as [|n]; [repeat split; vm_compute; reflexivity|]). lia. }
  rewrite <- (Z2Nat.id z) by lia. apply H. lia.
Qed.

Lemma group_thousands_head (sep : string) (c : ascii) (ds : string) :
  exists r, group_thousands sep (String c ds) = String c r.
Proof. cbn [group_thousands]. eexists. reflexivity. Qed.

(** The amount [toLocaleString2] writes, read back: the sign of the
    number and its nearest number of hundredths. *)
Lemma read_amount_toLocaleString2 (rt : runtime) (loc : locale) (q : Q) :
  group_sep loc = "," -> decimal_sep loc = "." ->
  read_amount (toLocaleString2 rt (Some loc) q) = Some ((Qnum q <? 0)%Z, hundredths q).
Proof.
  intros Hg Hd. unfold toLocaleString2. rewrite Hg, Hd.
  pose proof (hundredths_nonneg q) as Hh.
  set (h := hundredths q) in *.
  assert (Hi : (0 <= h / 100)%Z) by (apply Z.div_pos; lia).
  destruct (Z_to_string_digits Hi) as [Hdig Hne].
  pose proof (@group_thousands_grouped "," (String.length (Z_to_string (h / 100)))
                (Z_to_string (h / 100)) (le_n _) Hne) as G.
  destruct (grouped_split G Hdig (no_leading_zero_Z Hi)) as (Hok & Hcat & Hdot).
  destruct (@read_two_digits (h mod 100)) as (Hfp & Hlen & Hfdot);
    [apply Z.mod_pos_bound; lia|].
  assert (Hhead : exists c r, group_thousands "," (Z_to_string (h / 100)) = String c r
                              /\ digit_char c = true).
  { destruct (Z_to_string (h / 100)) as [|c ds]; [congruence|].
    cbn [all_digits] in Hdig. apply andb_true_iff in Hdig.
    destruct (group_thousands_head "," c ds) as [r Hr]. exists c, r. tauto. }
  set (ip := group_thousands "," (Z_to_string (h / 100))) in *.
  set (fp := two_digits (h mod 100)) in *.
  assert (Hsplit : split_at "." (ip ++ "." ++ fp) = [ip; fp]).
  { change (ip ++ "." ++ fp) with (ip ++ String "." fp).
    rewrite split_at_sep, !split_at_lacks by assumption. reflexivity. }
  assert (Hread : read_unsigned (ip ++ "." ++ fp) = Some h).
  { unfold read_unsigned.
    rewrite Hsplit, Hok, Hlen, Hcat, Hfp, (read_Z_to_string Hi). cbn [andb Nat.eqb].
    f_equal. symmetry. apply Z.div_mod. lia. }
  destruct (Qnum q <? 0)%Z.
  - change ("-" ++ ip ++ "." ++ fp) with (String "-" (ip ++ "." ++ fp)).
    cbn [read_amount Ascii.eqb Bool.eqb]. now rewrite Hread.
  - destruct Hhead as (c & r & Hip & Hc).
    cbn [append]. revert Hread. rewrite Hip. cbn [append read_amount].
    destruct (Ascii.eqb_spec c "-") as [->|_]; [discriminate Hc|].
    now intros ->.
Qed.

Lemma read_money_formatCurrency (rt : runtime) (q : Q) :
  read_money (formatCurrency rt (JNum q)) = Some ((Qnum q <? 0)%Z, hundredths q).
Proof. exact (@read_amount_toLocaleString2 rt en_US q eq_refl eq_refl). Qed.

Lemma read_money_peso (rt : runtime) (q : Q) :
  read_money (peso rt (JNum q)) = Some ((Qnum q <? 0)%Z, hundredths q).
Proof. exact (@read_amount_toLocaleString2 rt en_PH q eq_refl eq_refl). Qed.

End ReaderFacts.

(* ================================================================= *)
(** ** Amounts of every kind *)

(** [jsval] holds what the fields of a row hold.  The formatters are
    functions of any value; the values [jsval] leaves out, the
    infinities and the booleans, are added here, and the formatters are
    given again on the larger type. *)

Module Wide.

(** A number of the language. *)
Inductive number : Type :=
| Finite (q : Q)
| NotANumber
| Infinity (negative : bool).

Inductive value : Type :=
| Undefined
| Null
| Bool (b : bool)
| Num (n : number)
| Str (s : string).

(** The infinity sign, U+221E, in UTF-8. *)
Definition infinity_sign : string :=
  String (ascii_of_nat 226) (String (ascii_of_nat 136) (String (ascii_of_nat 158) "")).

(** [Number(v)].  [overflow s] tells whether the string [s] denotes an
    infinity (["Infinity"], ["-Infinity"], ["1e999"], ...) and which;
    the other strings are read by [StringToNumber]. *)
Definition toNumber (rt : runtime) (overflow : string -> option bool) (v : value) : number :=
  match v with
  | Undefined => NotANumber
  | Null => Finite 0
  | Bool b => Finite (if b then 1 else 0)
  | Num n => n
  | Str s =>
      match overflow s with
      | Some negative => Infinity negative
      | None =>
          match StringToNumber rt s with
          | Some q => Finite q
          | None => NotANumber
          end
      end
  end.

(** [n || 0]: an infinity is truthy. *)
Definition or_zero (n : number) : number :=
  match n with
  | Finite q => Finite q
  | NotANumber => Finite 0
  | Infinity negative => Infinity negative
  end.

(** [n.toLocaleString(loc, {minimumFractionDigits: 2, maximumFractionDigits: 2})]. *)
Definition toLocaleString (rt : runtime) (requested : option locale) (n : number) : string :=
  match n with
  | Finite q => toLocaleString2 rt requested q
  | NotANumber => "NaN"
  | Infinity negative => (if negative then "-" else "") ++ infinity_sign
  end.

(** [formatCurrency] (pdfGenerator.js, line 21). *)
Definition formatCurrency (rt : runtime) (overflow : string -> option bool)
  (amount : value) : string :=
  let num := or_zero (toNumber rt overflow amount) in
  "PHP " ++ toLocaleString rt (Some en_US) num.

(** [peso] (pdfGenerator.js, line 546). *)
Definition peso (rt : runtime) (overflow : string -> option bool) (n : value) : string :=
  let v := or_zero (toNumber rt overflow n) in
  let sym := "PHP " in
  sym ++ toLocaleString rt (Some en_PH) v.

(** The values of [jsval] among all values. *)
Definition of_jsval (v : jsval) : value :=
  match v with
  | JUndefined => Undefined
  | JNull => Null
  | JNum q => Num (Finite q)
  | JNaN => Num NotANumber
  | JStr s => Str s
  end.

(** The numeric inputs and the finite number each stands for: a finite
    number, and a string that denotes one. *)
Definition stands_for (rt : runtime) (overflow : string -> option bool)
  (v : value) (x : Q) : Prop :=
  match v with
  | Num (Finite q) => x = q
  | Str s => overflow s = None /\ StringToNumber rt s = Some x
  | _ => False
  end.

(** The inputs that are absent or do not denote a number. *)
Definition absent_or_non_numeric (rt : runtime) (overflow : string -> option bool)
  (v : value) : Prop :=
  match v with
  | Undefined | Null | Num NotANumber => True
  | Str s => overflow s = None /\ StringToNumber rt s = None
  | Bool _ | Num (Finite _) | Num (Infinity _) => False
  end.

(** No string of the value denotes an infinity. *)
Definition within (overflow : string -> option bool) (v : jsval) : Prop :=
  match v with
  | JStr s => overflow s = None
  | _ => True
  end.

End Wide.

(** [c] is the number of hundredths nearest to [|x|], a half going
    up. *)
Definition nearest_hundredths (x : Q) (c : Z) : Prop :=
  inject_Z c <= Qabs x * 100 + (1 # 2) /\ Qabs x * 100 + (1 # 2) < inject_Z c + 1.

Section WideFacts.

Lemma negative_numerator (q : Q) : (Qnum q <? 0)%Z = true <-> q < 0.
Proof.
  rewrite Z.ltb_lt. unfold Qlt. cbn. split; intros H; lia.
Qed.

Lemma wide_agrees (rt : runtime) (overflow : string -> option bool) (v : jsval) :
  Wide.within overflow v ->
  Wide.formatCurrency rt overflow (Wide.of_jsval v) = formatCurrency rt v
  /\ Wide.peso rt overflow (Wide.of_jsval v) = peso rt v.
Proof.
  unfold Wide.formatCurrency, Wide.peso, formatCurrency, peso.
  destruct v as [| |q| |s]; cbn [Wide.within Wide.of_jsval Wide.toNumber Number];
    intros H; try (split; reflexivity).
  rewrite H. destruct (StringToNumber rt s); split; reflexivity.
Qed.

End WideFacts.

(** C9, amended.  Both currency formatters, [formatCurrency] and the
    receipt's [peso], turn a numeric input, that is a finite number or a
    string that denotes one, into a text that reads as the literal
    ["PHP "], a minus sign when the number is below zero, the integer
    digits in comma-separated groups of three without a zero in front, a
    point and exactly two decimals, and the hundredths so written are
    the nearest to the size of the number, a half going up.  An input
    that is absent or does not denote a number ([undefined], [null],
    [NaN], a string that is no number) is shown as ["PHP 0.00"], and the
    booleans as their numbers, [false] as ["PHP 0.00"].  The locale of
    the host plays no part, and on the values of the row fields the
    formatters are the ones used throughout. *)
Theorem currency_formatters_fixed (rt : runtime) (overflow : string -> option bool)
  (v : Wide.value) :
  (forall x, Wide.stands_for rt overflow v x ->
     exists negative c,
       Reader.read_money (Wide.formatCurrency rt overflow v) = Some (negative, c)
       /\ Reader.read_money (Wide.peso rt overflow v) = Some (negative, c)
       /\ (negative = true <-> x < 0)
       /\ nearest_hundredths x c)
  /\ (Wide.absent_or_non_numeric rt overflow v \/ v = Wide.Bool false ->
        Wide.formatCurrency rt overflow v = "PHP 0.00"
        /\ Wide.peso rt overflow v = "PHP 0.00")
  /\ (forall l : locale,
        Wide.formatCurrency (with_locale l rt) overflow v = Wide.formatCurrency rt overflow v
        /\ Wide.peso (with_locale l rt) overflow v = Wide.peso rt overflow v)
  /\ (forall w : jsval, v = Wide.of_jsval w -> Wide.within overflow w ->
        Wide.formatCurrency rt overflow v = formatCurrency rt w
        /\ Wide.peso rt overflow v = peso rt w).
Proof.
  split; [|split; [|split]].
  - intros x Hx.
    assert (E : Wide.or_zero (Wide.toNumber rt overflow v) = Wide.Finite x).
    { destruct v as [| |b|[q| |n]|s]; cbn in Hx; try contradiction.
      - now subst x.
      - destruct Hx as [Ho Hs]. cbn. now rewrite Ho, Hs. }
    exists (Qnum x <? 0)%Z, (hundredths x).
    unfold Wide.formatCurrency, Wide.peso. cbn zeta. rewrite E.
    cbn [Wide.toLocaleString].
    split; [exact (read_money_formatCurrency rt x)|].
    split; [exact (read_money_peso rt x)|].
    split; [apply negative_numerator | apply hundredths_nearest].
  - intros [H | ->]; [|split; reflexivity].
    unfold Wide.formatCurrency, Wide.peso.
    destruct v as [| |b|[q| |n]|s]; cbn in H; try contradiction; try (split; reflexivity).
    destruct H as [Ho Hs]. cbn. rewrite Ho, Hs. split; reflexivity.
  - intros l. unfold Wide.formatCurrency, Wide.peso.
    destruct v as [| |b|[q| |n]|s]; split; reflexivity.
  - intros w -> Hw. now apply wide_agrees.
Qed.

(** Twelve hundred thirty-four and a half pesos, as a number and as a
    string. *)
Lemma currency_formatters_fixed_witness :
  Wide.stands_for Sample.rt (fun _ => None) (Wide.Str "1234.5") (12345 # 10)
  /\ Wide.formatCurrency Sample.rt (fun _ => None) (Wide.Str "1234.5") = "PHP 1,234.50"
  /\ exists negative c,
       Reader.read_money (Wide.formatCurrency Sample.rt (fun _ => None) (Wide.Str "1234.5"))
       = Some (negative, c)
       /\ Reader.read_money (Wide.peso Sample.rt (fun _ => None) (Wide.Str "1234.5"))
          = Some (negative, c)
       /\ (negative = true <-> 12345 # 10 < 0)
       /\ nearest_hundredths (12345 # 10) c.
Proof.
  assert (H : Wide.stands_for Sample.rt (fun _ => None) (Wide.Str "1234.5") (12345 # 10)).
  { split; [reflexivity|]. vm_compute. reflexivity. }
  split; [exact H|]. split; [vm_compute; reflexivity|].
  exact (proj1 (currency_formatters_fixed Sample.rt (fun _ => None) (Wide.Str "1234.5"))
           (12345 # 10) H).
Defined.

(** C9, as claimed, fails on the inputs that are no finite number and
    yet not coerced to zero: an infinity is shown by the infinity sign,
    without any decimal, and [true] is shown as one peso. *)
Lemma infinite_amount_has_no_decimals :
  Wide.formatCurrency Sample.rt (fun _ => None) (Wide.Num (Wide.Infinity false))
  = "PHP " ++ Wide.infinity_sign
  /\ Reader.read_money
       (Wide.formatCurrency Sample.rt (fun _ => None) (Wide.Num (Wide.Infinity false))) = None
  /\ Wide.peso Sample.rt (fun _ => None) (Wide.Num (Wide.Infinity true))
     = "PHP -" ++ Wide.infinity_sign
  /\ Wide.formatCurrency Sample.rt (fun _ => None) (Wide.Bool true) = "PHP 1.00".
Proof. repeat split. Qed.

(* ================================================================= *)
(** ** Amounts in whole cents *)

(** The generators add and multiply the amounts as binary
    floating-point numbers; the embedding adds and multiplies them
    exactly.  A sum of non-negative amounts that are whole numbers of
    hundredths, within the bound below, is printed with the same digits
    either way: the error of the floating-point sum stays far below half
    a hundredth.  [cent_amounts] marks these inputs. *)
Definition cent_amounts (l : list Q) : Prop :=
  Forall (fun q => 0 <= q /\ whole_cents q) l
  /\ ((Z.of_nat (List.length l) + 1) * Zsum (map cents l) <= 10 ^ 14)%Z.

(** An amount that lies half a hundredth between two hundredths. *)
Definition half_cent (q : Q) : Prop :=
  exists k : Z, q * 100 == inject_Z k + (1 # 2).

Section ReadColumn.

Import Reader.

Lemma read_cents_formatCurrency (rt : runtime) (q : Q) :
  read_cents (formatCurrency rt (JNum q)) = Some (cents q).
Proof.
  unfold read_cents. rewrite read_money_formatCurrency. unfold cents.
  destruct (Qnum q <? 0)%Z; reflexivity.
Qed.

Lemma read_cents_peso (rt : runtime) (q : Q) :
  read_cents (peso rt (JNum q)) = Some (cents q).
Proof.
  unfold read_cents. rewrite read_money_peso. unfold cents.
  destruct (Qnum q <? 0)%Z; reflexivity.
Qed.

Lemma read_cents_column (rt : runtime) {R : Type} (amount : R -> Q) (rows : list R) :
  map read_cents (map (fun r => formatCurrency rt (JNum (amount r))) rows)
  = map Some (map (fun r => cents (amount r)) rows).
Proof.
  induction rows as [|r rows IH]; cbn [map]; [reflexivity|].
  now rewrite IH, read_cents_formatCurrency.
Qed.

(** A left fold of additions over whole numbers of hundredths is the
    whole number of hundredths that their hundredths add up to. *)
Lemma fold_whole_cents {R : Type} (amount : R -> Q) (rows : list R) :
  Forall (fun r => whole_cents (amount r)) rows ->
  forall (a : Q) (ca : Z),
    a == ca # 100 ->
    fold_left (fun acc r => acc + amount r) rows a
    == (ca + Zsum (map (fun r => cents (amount r)) rows))%Z # 100.
Proof.
  induction 1 as [|r rows [c Hc] Hrows IH]; intros a ca Ha; cbn [fold_left map Zsum fold_right].
  - now rewrite Z.add_0_r.
  - rewrite (IH (a + amount r) (ca + c)%Z).
    + rewrite (cents_whole Hc). fold (Zsum (map (fun r => cents (amount r)) rows)).
      now rewrite Z.add_assoc.
    + rewrite Ha, Hc. unfold Qeq, Qplus. cbn [Qnum Qden]. lia.
Qed.

Lemma cent_amounts_whole {R : Type} (amount : R -> Q) (rows : list R) :
  cent_amounts (map amount rows) -> Forall (fun r => whole_cents (amount r)) rows.
Proof.
  intros [H _]. rewrite Forall_map in H. revert H. apply Forall_impl. tauto.
Qed.

Lemma cents_of_sum {R : Type} (amount : R -> Q) (rows : list R) :
  cent_amounts (map amount rows) ->
  Zsum (map (fun r => cents (amount r)) rows)
  = cents (fold_left (fun acc r => acc + amount r) rows 0).
Proof.
  intros H. symmetry. apply cents_whole.
  rewrite (fold_whole_cents amount (cent_amounts_whole amount rows H) (a := 0) (ca := 0));
    reflexivity.
Qed.

End ReadColumn.

Section SalesTotals.

Variable rt : runtime.

(** The Total column of the two copies, in the exact arithmetic of the
    embedding. *)
Lemma sales_total_column (sd : option (list SalesReport.order))
  (startDate endDate adminName rangeLabel : string) :
  let rows := SalesReport.flattenedData rt sd in
  total_column (SalesReport.generateSalesReportPDF rt sd startDate endDate adminName rangeLabel)
  = (map (fun r => formatCurrency rt (JNum (SalesReport.r_totalPrice r))) rows
       ++ [formatCurrency rt (JNum (sum_totals rows))])%list
  /\ total_column_002 (Part002.generateSalesReportPDF rt sd startDate endDate adminName rangeLabel)
     = (map (fun r => formatCurrency rt (JNum (SalesReport.r_totalPrice r))) rows
          ++ [formatCurrency rt (JNum (sum_totals rows))])%list.
Proof.
  intros rows. split.
  - unfold SalesReport.generateSalesReportPDF, SalesReport.body. fold fresh. fold rows.
    rewrite total_column_footers, total_column_summary, total_column_grand.
    unfold SalesReport.table_rows, forEach.
    destruct (total_column_rows rt rows 0
                {| SalesReport.lay := SalesReport.table_head rt
                                        (SalesReport.header rt startDate endDate rangeLabel fresh);
                   SalesReport.grandTotal := 0 |}) as [H1 H2].
    rewrite H1, H2. cbn [SalesReport.lay SalesReport.grandTotal].
    now rewrite total_column_head.
  - unfold Part002.generateSalesReportPDF, Part002.body. fold rows.
    rewrite total_column_002_footers, total_column_002_summary, total_column_002_grand.
    unfold Part002.table_rows, forEach.
    destruct (total_column_002_rows rt rows 0
                {| SalesReport.lay := Part002.table_head
                                        (Part002.header rt startDate endDate rangeLabel newDoc);
                   SalesReport.grandTotal := 0 |}) as [H1 H2].
    rewrite H1, H2. cbn [SalesReport.lay SalesReport.grandTotal].
    now rewrite total_column_002_head.
Qed.

End SalesTotals.

(** C4, amended.  When the line totals of the flattened rows are
    non-negative whole numbers of hundredths (within the bound of
    [cent_amounts]), the Total column of the finished sales report, of
    either copy of the generator, holds over all pages and in row order
    the line total of every row exactly once, followed by the amount of
    the Grand Total row; read back from the page as numbers of
    hundredths, the line totals add up exactly to the grand total. *)
Theorem grand_total_is_sum_of_rows (rt : runtime) (sd : option (list SalesReport.order))
  (startDate endDate adminName rangeLabel : string) :
  let rows := SalesReport.flattenedData rt sd in
  let d := SalesReport.generateSalesReportPDF rt sd startDate endDate adminName rangeLabel in
  let d2 := Part002.generateSalesReportPDF rt sd startDate endDate adminName rangeLabel in
  cent_amounts (map SalesReport.r_totalPrice rows) ->
  total_column d
  = (map (fun r => formatCurrency rt (JNum (SalesReport.r_totalPrice r))) rows
       ++ [formatCurrency rt (JNum (sum_totals rows))])%list
  /\ total_column_002 d2 = total_column d
  /\ exists (line_totals : list Z) (grand_total : Z),
       map Reader.read_cents (total_column d)
       = (map Some line_totals ++ [Some grand_total])%list
       /\ List.length line_totals = List.length rows
       /\ Zsum line_totals = grand_total.
Proof.
  intros rows d d2 H.
  destruct (sales_total_column rt sd startDate endDate adminName rangeLabel) as [H1 H2].
  fold rows d d2 in H1, H2.
  split; [exact H1|]. split; [now rewrite H1, H2|].
  exists (map (fun r => cents (SalesReport.r_totalPrice r)) rows), (cents (sum_totals rows)).
  split; [|split].
  - rewrite H1, map_app, read_cents_column. cbn [map].
    now rewrite read_cents_formatCurrency.
  - apply length_map.
  - exact (cents_of_sum SalesReport.r_totalPrice rows H).
Qed.

(** The scenario of the specification: line totals 100.00 and 250.50. *)
Lemma grand_total_is_sum_of_rows_witness :
  let sd := Some [Samples.ord [ {| SalesReport.productName := "Oil filter";
                                   SalesReport.quantity := JNum 1;
                                   SalesReport.unitPrice := JNum 100;
                                   SalesReport.totalPrice := JNum 100 |};
                                {| SalesReport.productName := "Brake pad";
                                   SalesReport.quantity := JNum 1;
                                   SalesReport.unitPrice := JNum (25050 # 100);
                                   SalesReport.totalPrice := JNum (25050 # 100) |} ]] in
  let d := SalesReport.generateSalesReportPDF Sample.rt sd "a" "b" "me" "Daily" in
  cent_amounts (map SalesReport.r_totalPrice (SalesReport.flattenedData Sample.rt sd))
  /\ total_column d = ["PHP 100.00"; "PHP 250.50"; "PHP 350.50"]
  /\ map Reader.read_cents (total_column d) = [Some 10000; Some 25050; Some 35050]%Z
  /\ exists (line_totals : list Z) (grand_total : Z),
       map Reader.read_cents (total_column d)
       = (map Some line_totals ++ [Some grand_total])%list
       /\ List.length line_totals = 2%nat
       /\ Zsum line_totals = grand_total.
Proof.
  intros sd d.
  assert (W : cent_amounts
                (map SalesReport.r_totalPrice (SalesReport.flattenedData Sample.rt sd))).
  { split.
    - repeat constructor; try (cbn; unfold Qle; cbn; lia).
      + exists 10000%Z. reflexivity.
      + exists 25050%Z. reflexivity.
    - vm_compute. discriminate. }
  split; [exact W|]. split; [reflexivity|]. split; [reflexivity|].
  exact (proj2 (proj2 (grand_total_is_sum_of_rows Sample.rt sd "a" "b" "me" "Daily" W))).
Defined.

(** C4, as claimed for any row sequence, fails: the sum is taken before
    the amounts are rounded for display.  Two line totals of 0.004 are
    each printed as 0.00, and the grand total of 0.008 as 0.01. *)
Lemma rounded_rows_miss_grand_total :
  let tiny := {| SalesReport.productName := "Washer";
                 SalesReport.quantity := JNum 1;
                 SalesReport.unitPrice := JNum (4 # 1000);
                 SalesReport.totalPrice := JNum (4 # 1000) |} in
  let d := SalesReport.generateSalesReportPDF Sample.rt
             (Some [Samples.ord [tiny; tiny]]) "a" "b" "me" "Daily" in
  total_column d = ["PHP 0.00"; "PHP 0.00"; "PHP 0.01"]
  /\ map Reader.read_cents (total_column d) = [Some 0; Some 0; Some 1]%Z
  /\ (Zsum [0; 0] <> 1)%Z.
Proof.
  cbn zeta. split; [vm_compute; reflexivity|].
  split; [vm_compute; reflexivity|]. discriminate.
Qed.

(** X5.  When the refunds of the rows, where a refund that is missing or
    not a number counts as zero, are non-negative whole numbers of
    hundredths (within the bound of [cent_amounts]), the Amount column
    of the finished returns report shows, row by row and in input order,
    the refund of each return; the summary shows their sum as the
    refunded total, and the number of input rows as the returns
    processed; read back from the page as numbers of hundredths, the
    refunds of the column add up exactly to the refunded total. *)
Theorem refunded_total_is_sum_of_rows (rt : runtime) (rows : list ReturnsReport.item)
  (startDate endDate : jstext) (adminName : string) :
  let d := ReturnsReport.generateReturnsReportPDF rt rows startDate endDate adminName in
  cent_amounts (map (refund rt) rows) ->
  refund_column d = map (fun r => formatCurrency rt (ReturnsReport.refund_amount r)) rows
  /\ doc_has_text ("Total Refunded Amount: " ++ formatCurrency rt (JNum (sum_refunds rt rows))) d
  /\ doc_has_text ("Total Returns Processed: " ++ nat_to_string (List.length rows)) d
  /\ exists (refunds : list Z) (total : string),
       map Reader.read_cents (refund_column d) = map Some refunds
       /\ List.length refunds = List.length rows
       /\ doc_has_text ("Total Refunded Amount: " ++ total) d
       /\ Reader.read_cents total = Some (Zsum refunds).
Proof.
  intros d W. subst d.
  unfold ReturnsReport.generateReturnsReportPDF, ReturnsReport.body. fold fresh.
  pose proof (refund_column_rows rt rows 0
                {| ReturnsReport.lay :=
                     ReturnsReport.table_head rt (ReturnsReport.header rt startDate endDate fresh);
                   ReturnsReport.totalRefundAmount := 0 |}) as H.
  cbn zeta in H. cbn [ReturnsReport.lay ReturnsReport.totalRefundAmount] in H.
  fold (forEach (ReturnsReport.row_step rt) rows
          {| ReturnsReport.lay :=
               ReturnsReport.table_head rt (ReturnsReport.header rt startDate endDate fresh);
             ReturnsReport.totalRefundAmount := 0 |}) in H.
  fold (ReturnsReport.table_rows rt rows
          (ReturnsReport.table_head rt (ReturnsReport.header rt startDate endDate fresh))) in H.
  destruct H as [H1 H2]. rewrite refund_column_head in H1. cbn [app] in H1.
  assert (C : refund_column
                (stamp_footers rt adminName
                   (ldoc (ReturnsReport.summary_block rt rows
                            (ReturnsReport.table_rows rt rows
                               (ReturnsReport.table_head rt
                                  (ReturnsReport.header rt startDate endDate fresh))))))
              = map (fun r => formatCurrency rt (JNum (refund rt r))) rows).
  { now rewrite refund_column_footers, refund_column_summary. }
  assert (T : doc_has_text
                ("Total Refunded Amount: " ++ formatCurrency rt (JNum (sum_refunds rt rows)))
                (stamp_footers rt adminName
                   (ldoc (ReturnsReport.summary_block rt rows
                            (ReturnsReport.table_rows rt rows
                               (ReturnsReport.table_head rt
                                  (ReturnsReport.header rt startDate endDate fresh))))))).
  { eapply doc_has_text_extends; [apply extends_stamp_footers|].
    unfold sum_refunds. rewrite <- H2. unfold ReturnsReport.summary_block. find_text. }
  split; [exact C|]. split; [exact T|]. split.
  - eapply doc_has_text_extends; [apply extends_stamp_footers|].
    unfold ReturnsReport.summary_block. find_text.
  - exists (map (fun r => cents (refund rt r)) rows),
           (formatCurrency rt (JNum (sum_refunds rt rows))).
    split; [rewrite C; apply read_cents_column|].
    split; [apply length_map|]. split; [exact T|].
    rewrite read_cents_formatCurrency. f_equal. symmetry.
    exact (cents_of_sum (refund rt) rows W).
Qed.

(** Two returns, refunded 150.00 and 80.50; the second refund comes as
    a string. *)
Lemma refunded_total_is_sum_of_rows_witness :
  let ret := fun (id : string) (amount : jsval) =>
               {| ReturnsReport.return_id := id; ReturnsReport.sale_number := "SL-1";
                  ReturnsReport.customer_name := TNull; ReturnsReport.return_date := TNull;
                  ReturnsReport.return_reason := TNull; ReturnsReport.refund_amount := amount;
                  ReturnsReport.restocked := false |} in
  let rows := [ret "R1" (JNum 150); ret "R2" (JStr "80.50")] in
  let d := ReturnsReport.generateReturnsReportPDF Sample.rt rows TNull TNull "me" in
  cent_amounts (map (refund Sample.rt) rows)
  /\ refund_column d = ["PHP 150.00"; "PHP 80.50"]
  /\ doc_has_text "Total Refunded Amount: PHP 230.50" d.
Proof.
  intros ret rows d.
  assert (W : cent_amounts (map (refund Sample.rt) rows)).
  { split.
    - repeat constructor; try (vm_compute; discriminate).
      + exists 15000%Z. reflexivity.
      + exists 8050%Z. reflexivity.
    - vm_compute. discriminate. }
  split; [exact W|].
  pose proof (refunded_total_is_sum_of_rows Sample.rt rows TNull TNull "me" W) as H.
  split; [exact (proj1 H) | exact (proj1 (proj2 H))].
Defined.

(** C5, amended.  When the flattened row set is empty the generator
    completes: the best-selling product is the seed ["N/A"] of the
    reduction, the document has exactly one page, on which every call is
    made, with the title, the column header, a Grand Total of
    ["PHP 0.00"] as the only amount in the Total column, the summary and
    the footer "Page 1 of 1".  In the summary the figures taken from the
    rows are zero ("Total Items Sold: 0", "Best Selling Product: N/A");
    revenue, average and transaction count are taken from the orders
    with an allowed status, and are zero when there is no such order.
    When the amounts of these orders are non-negative whole numbers of
    hundredths (within the bound of [cent_amounts]) the revenue printed
    is their sum, and the average printed is the sum divided by their
    number, rounded to the nearest hundredth, unless it lies half a
    hundredth between two hundredths. *)
Theorem empty_rows_report (rt : runtime) (sd : option (list SalesReport.order))
  (startDate endDate adminName rangeLabel : string) :
  SalesReport.flattenedData rt sd = [] ->
  let d := SalesReport.generateSalesReportPDF rt sd startDate endDate adminName rangeLabel in
  let amounts := map (fun o => num_or_zero (Number rt (SalesReport.totalAmount o)))
                     (SalesReport.relevantOrders sd) in
  SalesReport.bestSellingProduct (SalesReport.flattenedData rt sd) = "N/A"
  /\ numPages d = 1%nat
  /\ forallb (fun e => (fst e =? 1)%nat) (log d) = true
  /\ doc_has_text "Sales Report" d
  /\ page_has_block
       (SalesReport.drawTableHeaders rt
          (ypos (SalesReport.header rt startDate endDate rangeLabel fresh))) 1 d
  /\ doc_has_text "Grand Total:" d
  /\ total_column d = ["PHP 0.00"]
  /\ doc_has_text "Total Items Sold: 0" d
  /\ doc_has_text "Best Selling Product: N/A" d
  /\ (exists revenue average : string,
        doc_has_text ("Total Revenue: " ++ revenue) d
        /\ doc_has_text ("Avg Transaction Value: " ++ average) d)
  /\ (cent_amounts amounts ->
        doc_has_text ("Total Revenue: "
                        ++ formatCurrency rt (JNum (SalesReport.totalRevenue rt sd))) d
        /\ Reader.read_cents (formatCurrency rt (JNum (SalesReport.totalRevenue rt sd)))
           = Some (Zsum (map cents amounts))
        /\ (~ half_cent (SalesReport.avgTransactionValue rt sd) ->
            doc_has_text ("Avg Transaction Value: "
                            ++ formatCurrency rt (JNum (SalesReport.avgTransactionValue rt sd))) d))
  /\ doc_has_text ("Total Transactions: " ++ nat_to_string (SalesReport.totalTransactions sd)) d
  /\ doc_has_text "Page 1 of 1" d
  /\ (SalesReport.relevantOrders sd = [] ->
      doc_has_text "Total Revenue: PHP 0.00" d
      /\ doc_has_text "Avg Transaction Value: PHP 0.00" d
      /\ doc_has_text "Total Transactions: 0" d).
Proof.
  intros E d amounts.
  assert (D : d = empty_report rt sd startDate endDate adminName rangeLabel).
  { unfold d, SalesReport.generateSalesReportPDF, SalesReport.body, empty_report.
    rewrite E. unfold SalesReport.table_rows, forEach. cbn [forEach_from]. reflexivity. }
  clearbody d. subst d.
  pose proof (empty_report_extends rt sd startDate endDate adminName rangeLabel) as X.
  destruct (empty_body_summary rt sd startDate endDate rangeLabel) as (S1 & S2 & S3 & S4 & S5).
  split; [now rewrite E|].
  split; [apply empty_report_pages|].
  split; [apply empty_report_on_page_1|].
  split; [apply (doc_has_text_extends X), empty_body_title|].
  split; [apply empty_report_header_block|].
  split; [apply (doc_has_text_extends X), empty_body_grand_total|].
  split; [apply empty_report_total_column|].
  split; [apply (doc_has_text_extends X), S3|].
  split; [apply (doc_has_text_extends X), S4|].
  split.
  { eexists; eexists; split; apply (doc_has_text_extends X); [exact S1 | exact S2]. }
  split.
  { intros W. split; [apply (doc_has_text_extends X), S1|]. split.
    - rewrite read_cents_formatCurrency. f_equal. symmetry.
      unfold amounts. rewrite map_map.
      exact (cents_of_sum (fun o => num_or_zero (Number rt (SalesReport.totalAmount o)))
               (SalesReport.relevantOrders sd) W).
    - intros _. apply (doc_has_text_extends X), S2. }
  split; [apply (doc_has_text_extends X), S5|].
  split; [apply empty_footer|].
  intros R.
  destruct (empty_report_no_orders rt sd startDate endDate rangeLabel R) as (R1 & R2 & R3).
  repeat split; apply (doc_has_text_extends X); assumption.
Qed.

(** One completed order of 100 pesos whose items were all returned. *)
Lemma empty_rows_report_witness :
  let d := SalesReport.generateSalesReportPDF Sample.rt Samples.emptied "a" "b" "me" "Daily" in
  SalesReport.flattenedData Sample.rt Samples.emptied = []
  /\ numPages d = 1%nat
  /\ doc_has_text "Best Selling Product: N/A" d
  /\ doc_has_text "Total Revenue: PHP 100.00" d
  /\ doc_has_text "Avg Transaction Value: PHP 100.00" d.
Proof.
  intros d.
  assert (E : SalesReport.flattenedData Sample.rt Samples.emptied = []) by reflexivity.
  pose proof (empty_rows_report Sample.rt Samples.emptied "a" "b" "me" "Daily" E) as H.
  cbn zeta in H.
  destruct H as (_ & H2 & _ & _ & _ & _ & _ & _ & H9 & _ & H11 & _).
  assert (W : cent_amounts
                (map (fun o => num_or_zero (Number Sample.rt (SalesReport.totalAmount o)))
                     (SalesReport.relevantOrders Samples.emptied))).
  { split.
    - repeat constructor; [vm_compute; discriminate | exists 10000%Z; reflexivity].
    - vm_compute. discriminate. }
  destruct (H11 W) as (R & _ & A).
  split; [exact E|]. split; [exact H2|]. split; [exact H9|]. split; [exact R|].
  apply A. intros [k Hk].
  assert (V : SalesReport.avgTransactionValue Sample.rt Samples.emptied == 100)
    by (vm_compute; reflexivity).
  rewrite V in Hk. unfold Qeq in Hk. cbn in Hk. lia.
Defined.

(* ================================================================= *)
(** ** The amount of a receipt line *)

(** An item whose unit price is [c] hundredths and whose quantity is the
    whole number [n], within a bound under which the floating-point
    product of the generator is printed with the digits of the exact
    product. *)
Definition exact_line (rt : runtime) (it : Receipt.item) (c n : Z) : Prop :=
  (exists p, Receipt.unit rt it = Some p /\ p == c # 100)
  /\ (exists k, Receipt.qty rt it = Some k /\ k == inject_Z n)
  /\ (Z.abs (c * n) <= 10 ^ 14)%Z.

Section ReceiptLines.

Variable rt : runtime.

Lemma exact_line_sub (it : Receipt.item) (c n : Z) :
  exact_line rt it c n ->
  exists q, Receipt.sub rt it = Some q /\ q == (c * n)%Z # 100.
Proof.
  intros ((p & Hp & Ep) & (k & Hk & Ek) & _).
  exists (p * k). unfold Receipt.sub. rewrite Hp, Hk. split; [reflexivity|].
  rewrite Ep, Ek. unfold Qeq, Qmult, inject_Z. cbn [Qnum Qden]. lia.
Qed.

End ReceiptLines.

(** C10.  On the receipt the amount beside "Subtotal:" and the amount
    beside "TOTAL:" are both [peso] of the [totalAmount] that was passed.
    The amount of an item line is computed from the item alone: for a
    unit price of [c] hundredths and a whole quantity [n] (within the
    bound of [exact_line]) the line shows an amount that reads as
    [c * n] hundredths, and a line whose unit price or quantity is not a
    number shows ["PHP 0.00"].  Nothing ties the two together: for two
    bolts at 10 pesos on a sale passed with a total of 5, the line reads
    "PHP 20.00" and the total "PHP 5.00". *)
Theorem receipt_total_is_passed_amount (rt : runtime) (s : Receipt.sale) :
  let d := Receipt.generateSaleReceipt rt s in
  let lx := Receipt.contentWidth rt - 100 in
  let vx := pageWidth_pt rt - Receipt.margin - 5 in
  (exists p y, adjacent (p, Text "Subtotal:" lx y ARight)
                        (p, Text (peso rt (Receipt.totalAmount s)) vx y ARight) (log d))
  /\ (exists p y, adjacent (p, Text "TOTAL:" lx y ARight)
                           (p, Text (peso rt (Receipt.totalAmount s)) vx y ARight) (log d))
  /\ (forall it c n, In it (Receipt.items s) -> exact_line rt it c n ->
        exists p y amount,
          In (p, Text amount (Receipt.colAmt_Right rt) y ARight) (log d)
          /\ amount = peso rt (Receipt.of_num (Receipt.sub rt it))
          /\ Reader.read_cents amount = Some (c * n)%Z)
  /\ (forall it, In it (Receipt.items s) -> Receipt.sub rt it = None ->
        exists p y, In (p, Text "PHP 0.00" (Receipt.colAmt_Right rt) y ARight) (log d))
  /\ map (Receipt.sub Sample.rt) (Receipt.items Samples.mismatch) = [Some (10 * 2)]
  /\ Receipt.totalAmount Samples.mismatch = JNum 5
  /\ texts (Receipt.generateSaleReceipt Sample.rt Samples.mismatch)
     = [ "TJC AUTO SUPPLY";
         "General Hizon Avenue, Santa Lucia, City of San Fernando, Pampanga";
         "0912 345 6789 | tjcautosupply@gmail.com";
         "OFFICIAL RECEIPT";
         "Order #:"; "Customer:"; "Address:"; "SL-1"; "N/A";
         "Date:"; "Cashier:"; "Payment:"; "2025-11-03"; "Admin"; "Cash";
         "Item Description"; "Qty"; "Unit Price"; "Amount";
         "2"; "PHP 10.00"; "PHP 20.00";
         "Subtotal:"; "PHP 5.00";
         "Cash Tendered:"; "PHP 100.00"; "Change:"; "PHP 80.00";
         "TOTAL:"; "PHP 5.00";
         "Thank you for your purchase!" ].
Proof.
  cbn zeta.
  destruct (totals_block_lines rt s
              (Receipt.table_rows rt (Receipt.items s) (Receipt.before_rows rt s)))
    as [[y1 H1] [y2 H2]].
  split; [eexists; eexists; exact H1|].
  split; [eexists; eexists; exact H2|].
  split.
  { intros it c n Hin Hx.
    destruct (receipt_row_amount rt s it Hin) as (p & y & Hrow).
    destruct (exact_line_sub Hx) as (q & Hq & Eq).
    exists p, y, (peso rt (Receipt.of_num (Receipt.sub rt it))).
    split; [exact Hrow|]. split; [reflexivity|].
    rewrite Hq. cbn [Receipt.of_num]. rewrite read_cents_peso. f_equal.
    now apply cents_whole. }
  split.
  { intros it Hin Hnan.
    destruct (receipt_row_amount rt s it Hin) as (p & y & Hrow).
    rewrite Hnan in Hrow. exists p, y. exact Hrow. }
  split; [reflexivity|]. split; [reflexivity|].
  vm_compute. reflexivity.
Qed.

(** The line of the bolts on the mismatching sale: 1000 hundredths
    twice. *)
Lemma receipt_total_is_passed_amount_witness :
  In (Samples.ritem "Bolt" 2 10) (Receipt.items Samples.mismatch)
  /\ exact_line Sample.rt (Samples.ritem "Bolt" 2 10) 1000 2
  /\ exists p y amount,
       In (p, Text amount (Receipt.colAmt_Right Sample.rt) y ARight)
          (log (Receipt.generateSaleReceipt Sample.rt Samples.mismatch))
       /\ amount = peso Sample.rt
                     (Receipt.of_num (Receipt.sub Sample.rt (Samples.ritem "Bolt" 2 10)))
       /\ Reader.read_cents amount = Some (1000 * 2)%Z.
Proof.
  assert (H : In (Samples.ritem "Bolt" 2 10) (Receipt.items Samples.mismatch))
    by (left; reflexivity).
  assert (X : exact_line Sample.rt (Samples.ritem "Bolt" 2 10) 1000 2).
  { split; [|split].
    - exists 10. split; reflexivity.
    - exists 2. split; reflexivity.
    - vm_compute. discriminate. }
  split; [exact H|]. split; [exact X|].
  exact (proj1 (proj2 (proj2 (receipt_total_is_passed_amount Sample.rt Samples.mismatch)))
           (Samples.ritem "Bolt" 2 10) 1000%Z 2%Z H X).
Defined.

(* ================================================================= *)
(** ** Product names and quantities the tally is exact for *)

(** The names every object inherits from [Object.prototype].  Under one
    of these names the tally object of the generator already holds a
    function, so the name cannot be counted; [Tally] leaves them out. *)
Definition prototype_member (k : string) : bool :=
  existsb (String.eqb k)
    [ "constructor"; "__defineGetter__"; "__defineSetter__"; "hasOwnProperty";
      "__lookupGetter__"; "__lookupSetter__"; "isPrototypeOf"; "propertyIsEnumerable";
      "toString"; "valueOf"; "__proto__"; "toLocaleString" ].

(** No row is named like a member of [Object.prototype]. *)
Definition plain_names (rows : list SalesReport.row) : Prop :=
  Forall (fun r => prototype_member (SalesReport.r_productName r) = false) rows.

(** Every quantity is a whole number, and together they stay within the
    integers that floating-point addition adds exactly. *)
Definition whole_quantities (rows : list SalesReport.row) : Prop :=
  Forall (fun r => exists n : Z, SalesReport.r_quantity r == inject_Z n) rows
  /\ (Zsum (map (fun r => Z.abs (Qfloor (SalesReport.r_quantity r))) rows) <= 2 ^ 53)%Z.

Section SummaryNames.

Variable rt : runtime.

(** Both copies of the generator print the result of the reduction in
    the summary. *)
Lemma best_selling_in_summary (sd : option (list SalesReport.order))
  (startDate endDate adminName rangeLabel : string) :
  let best := SalesReport.bestSellingProduct (SalesReport.flattenedData rt sd) in
  doc_has_text ("Best Selling Product: " ++ best)
    (SalesReport.generateSalesReportPDF rt sd startDate endDate adminName rangeLabel)
  /\ doc_has_text ("Best selling product: " ++ best)
       (Part002.generateSalesReportPDF rt sd startDate endDate adminName rangeLabel).
Proof.
  cbn zeta. split.
  - unfold SalesReport.generateSalesReportPDF.
    eapply doc_has_text_extends; [apply extends_stamp_footers|].
    unfold SalesReport.body, SalesReport.summary_block. find_text.
  - unfold Part002.generateSalesReportPDF, Part002.stamp_footers.
    eapply doc_has_text_extends.
    + apply (extends_stamp_pages (fun i n => Part002.footer_cmds rt adminName i n)).
    + unfold Part002.body, Part002.summary_block. find_text.
Qed.

Lemma sold_whole (name : string) (rows : list SalesReport.row) :
  Forall (fun r => exists n : Z, SalesReport.r_quantity r == inject_Z n) rows ->
  exists n : Z, sold name rows == inject_Z n.
Proof.
  intros H. unfold sold.
  assert (G : forall a : Q, (exists n : Z, a == inject_Z n) ->
            exists n : Z,
              fold_left (fun acc r => if SalesReport.r_productName r =? name
                                      then acc + SalesReport.r_quantity r else acc) rows a
              == inject_Z n).
  { induction H as [|r rows [m Hm] Hrows IH]; intros a [n Hn]; cbn [fold_left]; [eauto|].
    apply IH. destruct (SalesReport.r_productName r =? name); [|eauto].
    exists (n + m)%Z. rewrite Hn, Hm, inject_Z_plus. reflexivity. }
  apply G. exists 0%Z. reflexivity.
Qed.

End SummaryNames.

(** C2, amended.  For rows whose product names are none of the members
    of [Object.prototype] and whose quantities are whole numbers, the
    best-selling product named in the summary (the reduction is the same
    in both copies of the generator) is the key that comes last, in the
    iteration order of the tally's keys, among the keys with the maximum
    tally: every key before it has a tally no greater, every key after
    it a strictly smaller one.  Among tied keys the later one wins, and
    it is the one both copies print. *)
Theorem best_selling_is_last_maximum (rows : list SalesReport.row)
  (l1 l2 : list string) (k : string) :
  let counts := SalesReport.productCounts rows in
  plain_names rows ->
  whole_quantities rows ->
  Tally.keys counts = (l1 ++ k :: l2)%list ->
  (forall k', In k' l1 -> tally counts k' <= tally counts k) ->
  (forall k', In k' l2 -> tally counts k' < tally counts k) ->
  SalesReport.bestSellingProduct rows = k
  /\ forall (rt : runtime) (sd : option (list SalesReport.order))
            (startDate endDate adminName rangeLabel : string),
       rows = SalesReport.flattenedData rt sd ->
       doc_has_text ("Best Selling Product: " ++ k)
         (SalesReport.generateSalesReportPDF rt sd startDate endDate adminName rangeLabel)
       /\ doc_has_text ("Best selling product: " ++ k)
            (Part002.generateSalesReportPDF rt sd startDate endDate adminName rangeLabel).
Proof.
  intros counts _ _ E H1 H2.
  assert (B : SalesReport.bestSellingProduct rows = k).
  { unfold SalesReport.bestSellingProduct.
    exact (@last_maximum_wins counts "N/A" l1 l2 k E H1 H2). }
  split; [exact B|].
  intros rt sd startDate endDate adminName rangeLabel R.
  rewrite <- B, R. apply best_selling_in_summary.
Qed.

(** The tie of "A" and "B" goes to "B". *)
Lemma best_selling_is_last_maximum_witness :
  let rows := SalesReport.flattenedData Sample.rt Samples.tied in
  plain_names rows
  /\ whole_quantities rows
  /\ Tally.keys (SalesReport.productCounts rows) = ["A"; "B"]
  /\ SalesReport.bestSellingProduct rows = "B"
  /\ doc_has_text "Best Selling Product: B"
       (SalesReport.generateSalesReportPDF Sample.rt Samples.tied "a" "b" "me" "Daily").
Proof.
  intros rows.
  assert (P : plain_names rows) by (repeat constructor).
  assert (W : whole_quantities rows).
  { split.
    - repeat constructor; exists 5%Z; reflexivity.
    - vm_compute. discriminate. }
  assert (K : Tally.keys (SalesReport.productCounts rows) = (["A"] ++ "B" :: [])%list)
    by reflexivity.
  assert (H1 : forall k', In k' ["A"] ->
               tally (SalesReport.productCounts rows) k'
               <= tally (SalesReport.productCounts rows) "B").
  { intros k' [<-|[]]. vm_compute. discriminate. }
  assert (H2 : forall k', In k' [] ->
               tally (SalesReport.productCounts rows) k'
               < tally (SalesReport.productCounts rows) "B")
    by (intros k' []).
  pose proof (@best_selling_is_last_maximum rows ["A"] [] "B" P W K H1 H2) as [B D].
  split; [exact P|]. split; [exact W|]. split; [exact K|]. split; [exact B|].
  exact (proj1 (D Sample.rt Samples.tied "a" "b" "me" "Daily" eq_refl)).
Defined.

(** X6.  For rows whose product names are none of the members of
    [Object.prototype] and whose quantities are whole numbers, the tally
    behind "Best Selling Product" holds, for every such product name,
    the quantities of the rows of that name added up in row order, a
    whole number; its keys are exactly the names that occur among the
    rows, each once. *)
Theorem product_tally_is_quantity_sold (rows : list SalesReport.row) (name : string) :
  plain_names rows ->
  whole_quantities rows ->
  prototype_member name = false ->
  tally (SalesReport.productCounts rows) name = sold name rows
  /\ (exists n : Z, tally (SalesReport.productCounts rows) name == inject_Z n)
  /\ (In name (Tally.keys (SalesReport.productCounts rows))
      <-> exists r, In r rows /\ SalesReport.r_productName r = name)
  /\ NoDup (Tally.keys (SalesReport.productCounts rows)).
Proof.
  intros _ [W _] _.
  destruct (productCounts_tally name rows) as (H1 & H2 & H3).
  split; [exact H1|]. split; [|split; assumption].
  rewrite H1. now apply sold_whole.
Qed.

(** The tally of "A" in the tied sample. *)
Lemma product_tally_is_quantity_sold_witness :
  let rows := SalesReport.flattenedData Sample.rt Samples.tied in
  plain_names rows
  /\ whole_quantities rows
  /\ prototype_member "A" = false
  /\ tally (SalesReport.productCounts rows) "A" = sold "A" rows
  /\ sold "A" rows == 5.
Proof.
  intros rows.
  assert (P : plain_names rows) by (repeat constructor).
  assert (W : whole_quantities rows).
  { split.
    - repeat constructor; exists 5%Z; reflexivity.
    - vm_compute. discriminate. }
  split; [exact P|]. split; [exact W|]. split; [reflexivity|].
  split; [|reflexivity].
  exact (proj1 (@product_tally_is_quantity_sold rows "A" P W eq_refl)).
Defined.

(** X7.  When there is at least one row, the product names are none of
    the members of [Object.prototype] and the quantities are whole
    numbers, the best-selling product is the name of one of the rows,
    and no product of the report sold more than it did. *)
Theorem best_selling_sold_most (rows : list SalesReport.row) :
  rows <> [] ->
  plain_names rows ->
  whole_quantities rows ->
  let best := SalesReport.bestSellingProduct rows in
  (exists r, In r rows /\ SalesReport.r_productName r = best)
  /\ prototype_member best = false
  /\ forall r, In r rows -> sold (SalesReport.r_productName r) rows <= sold best rows.
Proof.
  intros Hne P _ best.
  set (counts := SalesReport.productCounts rows).
  assert (Hk : Tally.keys counts <> []).
  { destruct rows as [|r rows]; [congruence|]. intros C.
    assert (H : In (SalesReport.r_productName r) (Tally.keys counts)).
    { apply (productCounts_tally (SalesReport.r_productName r) (r :: rows)).
      exists r. split; [now left | reflexivity]. }
    rewrite C in H. exact H. }
  destruct (exists_last_max (tally counts) Hk) as (l1 & k & l2 & E & H1 & H2).
  assert (Hb : best = k).
  { unfold best, SalesReport.bestSellingProduct. fold counts.
    exact (@last_maximum_wins counts "N/A" l1 l2 k E H1 H2). }
  rewrite Hb.
  assert (Hrow : exists r, In r rows /\ SalesReport.r_productName r = k).
  { apply (productCounts_tally k rows). fold counts. rewrite E. apply in_elt. }
  split; [exact Hrow|]. split.
  - destruct Hrow as (r & Hr & <-).
    unfold plain_names in P. rewrite Forall_forall in P. now apply P.
  - intros r Hr.
    rewrite <- (proj1 (productCounts_tally (SalesReport.r_productName r) rows)).
    rewrite <- (proj1 (productCounts_tally k rows)). fold counts.
    assert (Hin : In (SalesReport.r_productName r) (Tally.keys counts)).
    { apply (productCounts_tally (SalesReport.r_productName r) rows). eauto. }
    rewrite E in Hin. apply in_app_or in Hin. destruct Hin as [Hin|[<-|Hin]].
    + now apply H1.
    + apply Qle_refl.
    + apply Qlt_le_weak. now apply H2.
Qed.

(** The two products of the tied sample. *)
Lemma best_selling_sold_most_witness :
  let rows := SalesReport.flattenedData Sample.rt Samples.tied in
  rows <> []
  /\ plain_names rows
  /\ whole_quantities rows
  /\ exists r, In r rows /\ SalesReport.r_productName r = SalesReport.bestSellingProduct rows.
Proof.
  intros rows.
  assert (H : rows <> []) by (subst rows; vm_compute; discriminate).
  assert (P : plain_names rows) by (repeat constructor).
  assert (W : whole_quantities rows).
  { split.
    - repeat constructor; exists 5%Z; reflexivity.
    - vm_compute. discriminate. }
  split; [exact H|]. split; [exact P|]. split; [exact W|].
  exact (proj1 (best_selling_sold_most H P W)).
Defined.

(* ================================================================= *)
(** ** The row of a record in the finished report *)

(** The calls [b] stand in the log of [d], one after the other. *)
Definition has_block (b : list (nat * cmd)) (d : doc) : Prop :=
  exists pre post, log d = (pre ++ b ++ post)%list.

Section RowBlocks.

Variable R : Type.
Variables (threshold : Q) (redraw : list cmd) (cmds : nat -> R -> Q -> list cmd).

(** Every row of a laid-out list has its calls in the log, on one page
    and at one height. *)
Lemma laid_out_nth (rows : list R) :
  forall (i p k : nat) (r : R) (l : list (nat * cmd)),
    laid_out threshold redraw cmds i p rows l ->
    nth_error rows k = Some r ->
    exists (q : nat) (y : Q) (pre post : list (nat * cmd)),
      l = (pre ++ map (pair q) (cmds (i + k)%nat r y) ++ post)%list.
Proof.
  induction rows as [|r0 rows IH]; intros i p k r l H Hk.
  - destruct k; discriminate.
  - cbn [laid_out] in H. destruct H as (started & y & tail & _ & -> & Ht).
    destruct k as [|k]; cbn [nth_error] in Hk.
    + injection Hk as ->. rewrite Nat.add_0_r.
      exists (if started then S p else p), y,
             (map (pair (if started then S p else p)) (if started then redraw else [])), tail.
      now rewrite map_app, <- app_assoc.
    + destruct (IH _ _ _ _ _ Ht Hk) as (q & y' & pre & post & ->).
      exists q, y',
        (map (pair (if started then S p else p))
             ((if started then redraw else []) ++ cmds i r0 y) ++ pre)%list, post.
      replace (i + S k)%nat with (S i + k)%nat by lia.
      now rewrite <- app_assoc.
Qed.

End RowBlocks.

Section ReturnsRows.

Variable rt : runtime.

Lemma has_block_extends (b : list (nat * cmd)) (d d' : doc) :
  extends d d' -> has_block b d -> has_block b d'.
Proof.
  intros [more E] (pre & post & H). exists pre, (post ++ more)%list.
  rewrite E, H. now rewrite <- !app_assoc.
Qed.

(** The calls of every row are in the finished returns report. *)
Lemma returns_row_block (rows : list ReturnsReport.item) (a b : jstext) (n : string)
  (k : nat) (r : ReturnsReport.item) :
  nth_error rows k = Some r ->
  exists (p : nat) (y : Q),
    has_block (map (pair p) (ReturnsReport.row_cmds rt k r y))
      (ReturnsReport.generateReturnsReportPDF rt rows a b n).
Proof.
  intros Hk.
  destruct (returns_report_rows rt rows a b) as (_ & _ & _ & l & Hl & Hlaid).
  destruct (@laid_out_nth _ _ _ _ rows 0 1 k r l Hlaid Hk) as (p & y & pre & post & ->).
  exists p, y. cbn [Nat.add] in Hl.
  apply (@has_block_extends _ (ldoc (ReturnsReport.lay (returns_rows rt rows a b)))).
  - apply returns_keeps_rows.
  - eexists (_ ++ pre)%list, post. rewrite Hl. now rewrite <- app_assoc.
Qed.

(** The cells of a row: the only text at the Customer position and the
    only text at the Reason position. *)
Lemma returns_row_cells (i : nat) (r : ReturnsReport.item) (y : Q) (s : string) :
  (In (Text s ReturnsReport.col_customer y ALeft) (ReturnsReport.row_cmds rt i r y)
   <-> s = ReturnsReport.customerName (ReturnsReport.customer_name r))
  /\ (In (Text s ReturnsReport.col_reason y ALeft) (ReturnsReport.row_cmds rt i r y)
      <-> s = ReturnsReport.reason (ReturnsReport.return_reason r)).
Proof.
  unfold ReturnsReport.row_cmds.
  split; (split; [intros H | intros ->]).
  - apply in_app_or in H. destruct H as [H|H].
    + destruct (i mod 2 =? 0)%nat; cbn in H; intuition discriminate.
    + cbn in H. intuition (try discriminate); congruence.
  - apply in_or_app. right. cbn. tauto.
  - apply in_app_or in H. destruct H as [H|H].
    + destruct (i mod 2 =? 0)%nat; cbn in H; intuition discriminate.
    + cbn in H. intuition (try discriminate); congruence.
  - apply in_or_app. right. cbn. tauto.
Qed.

End ReturnsRows.

(** C8.  When the optional field is absent, [null] or the empty string:
    in the finished returns report the calls of every row stand in the
    document, and the text of the row at the Customer position,
    respectively at the Reason position, is ["N/A"] and nothing else;
    the receipt draws ["N/A"] beside "Customer:"; and beside "Address:"
    the receipt wraps and draws the literal ["In-Store Pickup"] when the
    shipping option is in-store pickup, the literal ["N/A"] otherwise,
    which is the one line drawn there when the literal fits the width of
    the panel. *)
Theorem fallback_literals (rt : runtime) (t : jstext) :
  missing t ->
  (forall rows startDate endDate adminName k r,
     nth_error rows k = Some r ->
     exists p y,
       has_block (map (pair p) (ReturnsReport.row_cmds rt k r y))
         (ReturnsReport.generateReturnsReportPDF rt rows startDate endDate adminName)
       /\ (ReturnsReport.customer_name r = t ->
           forall s, In (Text s ReturnsReport.col_customer y ALeft)
                        (ReturnsReport.row_cmds rt k r y) <-> s = "N/A")
       /\ (ReturnsReport.return_reason r = t ->
           forall s, In (Text s ReturnsReport.col_reason y ALeft)
                        (ReturnsReport.row_cmds rt k r y) <-> s = "N/A"))
  /\ (forall s,
        Receipt.customerName s = t ->
        exists y,
          In (1%nat, Text "Customer:" Receipt.margin y ALeft)
             (log (Receipt.generateSaleReceipt rt s))
          /\ In (1%nat, Text "N/A" (Receipt.margin + 70) y ALeft)
                (log (Receipt.generateSaleReceipt rt s)))
  /\ (forall s literal,
        Receipt.address s = t ->
        literal = (if Receipt.shippingOption s =? "In-Store Pickup"
                   then "In-Store Pickup" else "N/A") ->
        let w := Receipt.contentWidth rt / 2 - 10 - 70 in
        exists y,
          In (1%nat, Text "Address:" Receipt.margin y ALeft)
             (log (Receipt.generateSaleReceipt rt s))
          /\ In (1%nat, TextLines (splitTextToSize rt literal w) (Receipt.margin + 70) y)
                (log (Receipt.generateSaleReceipt rt s))
          /\ (splitTextToSize rt literal w = [literal] ->
              In (1%nat, TextLines [literal] (Receipt.margin + 70) y)
                 (log (Receipt.generateSaleReceipt rt s)))).
Proof.
  intros M.
  assert (C : ReturnsReport.customerName t = "N/A").
  { unfold ReturnsReport.customerName.
    now rewrite (opt_length_gt_missing 20 M), (text_or_missing "N/A" M). }
  assert (N : ReturnsReport.reason t = "N/A").
  { unfold ReturnsReport.reason.
    now rewrite (opt_length_gt_missing 15 M), (text_or_missing "N/A" M). }
  split; [|split].
  - intros rows startDate endDate adminName k r Hk.
    destruct (returns_row_block rt rows startDate endDate adminName k Hk) as (p & y & B).
    exists p, y. split; [exact B|]. split; intros E s.
    + rewrite (proj1 (returns_row_cells rt k r y s)), E, C. reflexivity.
    + rewrite (proj2 (returns_row_cells rt k r y s)), E, N. reflexivity.
  - intros s E. destruct (receipt_panel_texts rt s) as (H1 & H2 & _).
    eexists; split; [exact H1|].
    unfold Receipt.customer_text in H2. rewrite E, (text_or_missing "N/A" M) in H2.
    exact H2.
  - intros s literal E L w. destruct (receipt_panel_texts rt s) as (_ & _ & H3 & H4).
    cbn zeta in H3, H4. fold w in H4.
    assert (D : missing (Receipt.default_text t "")).
    { destruct M as [-> | [-> | ->]]; cbn; unfold missing; auto. }
    unfold Receipt.address_text in H4. rewrite E, (text_or_missing _ D), <- L in H4.
    eexists; split; [exact H3|]. split; [exact H4|].
    intros F. rewrite <- F. exact H4.
Qed.

(** A return without customer and reason, and a walk-in sale: no
    customer name, no address, picked up in the store. *)
Lemma fallback_literals_witness :
  let ret := {| ReturnsReport.return_id := "R1"; ReturnsReport.sale_number := "SL-1";
                ReturnsReport.customer_name := TStr ""; ReturnsReport.return_date := TNull;
                ReturnsReport.return_reason := TStr "";
                ReturnsReport.refund_amount := JNum 150; ReturnsReport.restocked := false |} in
  missing (TStr "")
  /\ (exists p y,
        has_block (map (pair p) (ReturnsReport.row_cmds Sample.rt 0 ret y))
          (ReturnsReport.generateReturnsReportPDF Sample.rt [ret] TNull TNull "me")
        /\ In (Text "N/A" ReturnsReport.col_customer y ALeft)
              (ReturnsReport.row_cmds Sample.rt 0 ret y)
        /\ In (Text "N/A" ReturnsReport.col_reason y ALeft)
              (ReturnsReport.row_cmds Sample.rt 0 ret y))
  /\ (exists y,
        In (1%nat, Text "Customer:" Receipt.margin y ALeft)
           (log (Receipt.generateSaleReceipt Sample.rt (Samples.rsale [] 0)))
        /\ In (1%nat, Text "N/A" (Receipt.margin + 70) y ALeft)
              (log (Receipt.generateSaleReceipt Sample.rt (Samples.rsale [] 0))))
  /\ texts (ReturnsReport.generateReturnsReportPDF Sample.rt [ret] TNull TNull "me")
     = [ "Returns Report"; "Period: N/A - N/A";
         "Return ID"; "Order ID"; "Customer"; "Date"; "Reason"; "Amount";
         "R1"; "SL-1"; "N/A"; "N/A"; "N/A"; "PHP 150.00";
         "Returns Summary"; "Total Returns Processed: 1";
         "Total Refunded Amount: PHP 150.00";
         "Defective/Damaged Items: 0"; "Items Restocked: 0";
         "Generated by: me"; "Report Generated: 2025-11-03"; "Page 1 of 1" ].
Proof.
  intros ret.
  assert (M : missing (TStr "")) by (right; right; reflexivity).
  destruct (fallback_literals Sample.rt M) as (H1 & H2 & _).
  split; [exact M|]. split; [|split].
  - destruct (H1 [ret] TNull TNull "me" 0%nat ret eq_refl) as (p & y & B & Hc & Hr).
    exists p, y. split; [exact B|]. split.
    + apply (Hc eq_refl). reflexivity.
    + apply (Hr eq_refl). reflexivity.
  - apply (H2 (Samples.rsale [] 0)). reflexivity.
  - vm_compute. reflexivity.
Defined.

(* ================================================================= *)
(** ** The status condition of the sales query *)

Module SalesQuery.

(** The status condition in the [WHERE] clause of the query of
    [getSalesReport] (part_000, line 28):
    [s.status = 'Completed' OR s.status = 'Partially Returned' OR
     s.status IS NULL].
    [same_text] is the comparison of two strings by the database, which
    depends on the collation of the column.  A column of a fetched row
    is [null] or a string, never [undefined]. *)
Definition status_selected (same_text : string -> string -> bool) (st : jstext) : bool :=
  match st with
  | TNull => true
  | TStr s => same_text s "Completed" || same_text s "Partially Returned"
  | TUndefined => false
  end.

End SalesQuery.

(** X9.  A sale whose status is NULL passes the status condition of the
    query of [getSalesReport], whereas a sale with an empty status does
    not, under any comparison that tells the empty string from the two
    status names.  The record built for the NULL status carries the
    status ['N/A'], which is not on the allow-list of the report:
    wherever that record stands among the orders, the report is the one
    of the other orders alone - the sale gives no row, is not counted as
    a transaction and its total is not in the revenue. *)
Theorem null_status_sale_is_left_out (rt : runtime) (toPhilippineTime : jstext -> jstext)
  (same_text : string -> string -> bool)
  (s : Controller.sale) (its : list Controller.sale_item)
  (before after : list SalesReport.order) (a b n c : string) :
  Controller.status s = TNull ->
  let o := Controller.prepare_sale rt toPhilippineTime s its in
  SalesQuery.status_selected same_text (Controller.status s) = true
  /\ (same_text "" "Completed" = false -> same_text "" "Partially Returned" = false ->
      SalesQuery.status_selected same_text (TStr "") = false)
  /\ SalesReport.status o = TStr "N/A"
  /\ SalesReport.flatten_order rt o = []
  /\ SalesReport.totalTransactions (Some (before ++ o :: after)%list)
     = SalesReport.totalTransactions (Some (before ++ after)%list)
  /\ SalesReport.totalRevenue rt (Some (before ++ o :: after)%list)
     = SalesReport.totalRevenue rt (Some (before ++ after)%list)
  /\ SalesReport.generateSalesReportPDF rt (Some (before ++ o :: after)%list) a b n c
     = SalesReport.generateSalesReportPDF rt (Some (before ++ after)%list) a b n c.
Proof.
  intros N o.
  assert (H : truthy_text (Controller.status s) = false) by now rewrite N.
  pose proof (prepared_status rt toPhilippineTime s its H) as Hs. fold o in Hs.
  assert (Ha : SalesReport.allowed (SalesReport.status o) = false) by now rewrite Hs.
  destruct (left_out rt o before after Ha) as [Hf Hr].
  split; [now rewrite N|].
  split; [intros E1 E2; cbn; now rewrite E1, E2|].
  split; [exact Hs|]. split; [|split; [|split]].
  - rewrite flatten_order_allowed. now rewrite Ha.
  - unfold SalesReport.totalTransactions. now rewrite Hr.
  - unfold SalesReport.totalRevenue. now rewrite Hr.
  - unfold SalesReport.generateSalesReportPDF, SalesReport.body, SalesReport.summary_block,
      SalesReport.avgTransactionValue, SalesReport.totalRevenue, SalesReport.totalTransactions.
    now rewrite Hf, Hr.
Qed.

(** A sale without a status and with one item that was kept. *)
Lemma null_status_sale_is_left_out_witness :
  let s := {| Controller.sale_number := TStr "SL-7"; Controller.customer_name := TNull;
              Controller.created_at := TStr "2025-11-01"; Controller.total := JNum 100;
              Controller.status := TNull |} in
  Controller.status s = TNull
  /\ SalesQuery.status_selected String.eqb (Controller.status s) = true
  /\ SalesReport.flatten_order Sample.rt
       (Controller.prepare_sale Sample.rt (fun t => t) s [Samples.kept_item]) = [].
Proof.
  intros s.
  assert (H : Controller.status s = TNull) by reflexivity.
  pose proof (@null_status_sale_is_left_out Sample.rt (fun t => t) String.eqb s
                [Samples.kept_item] [] [] "2025-11-01" "2025-11-03" "me" "Daily" H) as T.
  cbn zeta in T.
  split; [exact H|]. split; [exact (proj1 T)|].
  exact (proj1 (proj2 (proj2 (proj2 T)))).
Defined.
